(** * yago_bot: a homework-status notifier

    Shallow embedding of the three programs of the repository
    and the properties of their poll / translate / notify pipeline.

    - [MainCmd]  : src/main.go, first program (lines 1-236): command bot.
    - [MainPoll] : src/main.go, second program (lines 237-455): [runBot] loop,
                   [sendMessage] that builds its own HTTP request.
    - [Part000]  : src/unnamed/part_000: ticker + commands, [fetchAPIResponse]
                   with the global [lastSentMessage].

    Go strings are byte strings; Rocq's [string] is a list of bytes too, and
    the literals below are the UTF-8 bytes of the literals of the source. *)

From Stdlib Require Import ZArith NArith String Ascii List Lia Bool.
From Stdlib Require Import SpecFloat DecimalString DecimalPos.
From stdpp Require Import base option gmap strings.

Set Warnings "-register-all".
Local Open Scope string_scope.
Local Open Scope list_scope.
Local Open Scope Z_scope.

(** ** Go values shared by the three programs *)

Module Common.

(** The double quote, written by its code so that no literal has to hold it. *)
Definition dq : string := String (ascii_of_nat 34) EmptyString.
Definition newline : string := String (ascii_of_nat 10) EmptyString.

(** An [error] value: [None] is Go's [nil], [Some m] an error whose
    [Error()] text is [m]. *)
Definition error : Type := option string.

(** A slice: [None] is the nil slice, [Some l] a slice made by [make]. *)
Definition slice (A : Type) : Type := option (list A).

(** What [encoding/json] decodes into an [interface{}]. *)
Inductive value : Type :=
| VNil
| VBool (b : bool)
| VFloat64 (f : spec_float)
| VString (s : string)
| VSlice (l : list value)
| VMap (m : gmap string value).

(** Comma-ok type assertions [x.(T)] on the result of a map index; indexing a
    missing key yields the nil interface, on which every assertion fails. *)
Definition as_slice (v : option value) : option (list value) :=
  match v with Some (VSlice l) => Some l | _ => None end.

Definition as_map (v : option value) : option (gmap string value) :=
  match v with Some (VMap m) => Some m | _ => None end.

Definition as_string (v : option value) : option string :=
  match v with Some (VString s) => Some s | _ => None end.

Definition as_float64 (v : option value) : option spec_float :=
  match v with Some (VFloat64 f) => Some f | _ => None end.

(** [hwMap[k].(string)] with the ok flag dropped: the zero value on failure. *)
Definition string_or_zero (v : option value) : string :=
  match as_string v with Some s => s | None => EmptyString end.

(** int64 arithmetic wraps around. *)
Definition min_int64 : Z := - 2 ^ 63.
Definition max_int64 : Z := 2 ^ 63 - 1.
Definition wrap64 (z : Z) : Z := (z + 2 ^ 63) mod 2 ^ 64 - 2 ^ 63.

(** [int64(f)] for a float64 [f]: truncation towards zero.  Outside int64
    (and for NaN and the infinities) Go leaves the result to the
    implementation; amd64 yields the least int64. *)
Definition int64_of_float64 (f : spec_float) : Z :=
  match f with
  | S754_zero _ => 0
  | S754_finite s m e =>
      let mag := if 0 <=? e then Z.pos m * 2 ^ e else Z.pos m / 2 ^ (- e) in
      let v := if s then - mag else mag in
      if (min_int64 <=? v) && (v <=? max_int64) then v else min_int64
  | _ => min_int64
  end.

(** [%d] of an integer. *)
Definition fmt_d (z : Z) : string := NilZero.string_of_int (Z.to_int z).

(** [strconv.ParseInt(s, 10, 64)]: an optional sign, then one or more decimal
    digits, the value within int64. *)
Definition ParseInt (s : string) : option Z :=
  let '(neg, digits) :=
    match s with
    | String c rest =>
        if Ascii.eqb c "-" then (true, rest)
        else if Ascii.eqb c "+" then (false, rest)
        else (false, s)
    | EmptyString => (false, s)
    end in
  match digits with
  | EmptyString => None
  | _ =>
      match NilEmpty.uint_of_string digits with
      | None => None
      | Some u =>
          let n := Z.of_N (N.of_uint u) in
          let v := if neg then - n else n in
          if (min_int64 <=? v) && (v <=? max_int64) then Some v else None
      end
  end.

(** *** The outside world and the effects of a run *)

Record Request : Type := {
  Method : string;
  URL : string;
  Header : list (string * string);
  Body : string
}.

(** An HTTP response as the programs use it: the status code, what
    [json.NewDecoder(resp.Body).Decode(&data)] yields on its body, and the
    result of closing the body. *)
Record Response : Type := {
  StatusCode : Z;
  Decoded : gmap string value * error;
  CloseErr : error
}.

Inductive event : Type :=
| Log (line : string)                 (* logger.Printf / logger.Println *)
| StdLog (line : string)              (* log.Printf / log.Println *)
| HttpDo (req : Request)              (* client.Do(req) *)
| BotSend (chatID : Z) (text : string) (* bot.Send(tgbotapi.NewMessage(..)) *)
| Sleep (seconds : Z).                (* time.Sleep *)

Definition trace : Type := list event.

(** What the environment answers during one tick or one command. *)
Record World : Type := {
  now : Z;                                  (* time.Now().Unix() of the caller *)
  now_fetch : Z;                            (* time.Now().Unix() inside getAPIAnswer *)
  new_request_err : string -> string -> error; (* http.NewRequest: method, url *)
  client_do : Request -> Response + string; (* client.Do: response or error *)
  bot_send : Z -> string -> error;          (* bot.Send *)
  num_error : string -> string              (* text of strconv's *NumError *)
}.

(** The three required environment variables. *)
Record Config : Type := {
  PracticumToken : string;
  TelegramToken : string;
  TelegramChatID : string
}.

(** A computation either returns with the events it performed, or panics
    after some events. *)
Inductive outcome (A : Type) : Type :=
| Done (a : A) (tr : trace)
| Panic (tr : trace).
Arguments Done {A} a tr.
Arguments Panic {A} tr.

Definition ret {A : Type} (a : A) : outcome A := Done a [].

Definition bind {A B : Type} (m : outcome A) (k : A -> outcome B) : outcome B :=
  match m with
  | Done a tr =>
      match k a with
      | Done b tr' => Done b (tr ++ tr')
      | Panic tr' => Panic (tr ++ tr')
      end
  | Panic tr => Panic tr
  end.

#[global] Instance outcome_ret : MRet outcome := @ret.
#[global] Instance outcome_bind : MBind outcome := fun A B k m => bind m k.

Definition emit (e : event) : outcome unit := Done tt [e].
Definition panic {A : Type} : outcome A := Panic [].

Definition events {A : Type} (m : outcome A) : trace :=
  match m with Done _ tr => tr | Panic tr => tr end.

Definition panics {A : Type} (m : outcome A) : bool :=
  match m with Done _ _ => false | Panic _ => true end.

(** The unchecked assertion [response["current_date"].(float64)]. *)
Definition must_float64 (v : option value) : outcome spec_float :=
  match as_float64 v with
  | Some f => ret f
  | None => panic
  end.

Definition Endpoint : string :=
  "https://practicum.yandex.ru/api/user_api/homework_statuses/".
Definition ApprovedStatus : string := "approved".
Definition ReviewingStatus : string := "reviewing".
Definition RejectedStatus : string := "rejected".

(** The literal the programs use for an empty list of homeworks. *)
Definition NoNewStatuses : string := "Нет новых статусов работ.".

(** The table [init] stores in the global [HomeworkVerdict]. *)
Definition HomeworkVerdict : gmap string string :=
  <[ApprovedStatus := "Работа проверена: ревьюеру всё понравилось. Ура!"]>
  (<[ReviewingStatus := "Работа взята на проверку ревьюером."]>
  (<[RejectedStatus := "Работа проверена: у ревьюера есть замечания."]> ∅)).

Definition http_StatusOK : Z := 200.

End Common.

Import Common.

(** ** src/main.go: what its two programs share (lines 36-39, 116-157 and,
    word for word again, lines 271-274, 359-400) *)

Module MainGo.

Record Homework : Type := {
  Name : string;
  Status : string
}.

Definition zeroHomework : Homework :=
  {| Name := EmptyString; Status := EmptyString |}.

(** The body of [for i, hwJSON := range homeworksJSON], from index [i] on;
    [homeworks] is the slice made before the loop. *)
Fixpoint checkResponse_range (i : nat) (rest : list value)
    (homeworks : list Homework) : list Homework + string :=
  match rest with
  | [] => inl homeworks
  | hwJSON :: rest' =>
      match as_map (Some hwJSON) with
      | None =>
          inr "Неверный формат ответа: элемент 'homework' не является словарем"
      | Some hwMap =>
          match as_string (hwMap !! "homework_name") with
          | None =>
              inr "Неверный формат ответа: поле 'homework_name' не является строкой"
          | Some hwName =>
              match as_string (hwMap !! "status") with
              | None =>
                  inr "Неверный формат ответа: поле 'status' не является строкой"
              | Some hwStatus =>
                  checkResponse_range (S i) rest'
                    (<[i := {| Name := hwName; Status := hwStatus |}]> homeworks)
              end
          end
      end
  end.

Definition checkResponse (response : gmap string value)
    : slice Homework * error :=
  match as_slice (response !! "homeworks") with
  | None =>
      (None, Some "Неверный формат ответа: поле 'homeworks' не является списком")
  | Some homeworksJSON =>
      let homeworks := replicate (length homeworksJSON) zeroHomework in
      match checkResponse_range 0 homeworksJSON homeworks with
      | inr e => (None, Some e)
      | inl hs => (Some hs, None)
      end
  end.

Definition parseStatus (homework : Homework) : outcome (string * error) :=
  match HomeworkVerdict !! Status homework with
  | None =>
      if String.eqb (Status homework) "Нет новых статусов работ." then
        emit (Log (Status homework));;
        mret (Status homework, None)
      else
        let errMsg :=
          "Неизвестный статус домашней работы: " +:+ Status homework in
        emit (Log ("Ошибка при разборе статуса домашней работы: " +:+ errMsg));;
        mret (EmptyString, Some errMsg)
  | Some verdict =>
      mret ("Изменился статус проверки работы " +:+ dq +:+ Name homework
              +:+ dq +:+ ": " +:+ verdict, None)
  end.

Definition RetryPeriod : Z := 600.

End MainGo.

(** ** src/main.go, first program (lines 1-236): the command bot *)

Module MainCmd.
Import MainGo.

(** The part of a [*tgbotapi.Message] the handler reads: [msg.Command()],
    [msg.Chat.ID], and [msg.From.ID] where [msg.From] may be nil. *)
Record Message : Type := {
  Command : string;
  ChatID : Z;
  FromID : option Z
}.

Definition sendMessage (w : World) (chatID : Z) (message : string)
    : outcome error :=
  emit (BotSend chatID message);;
  mret (bot_send w chatID message).

Definition getAPIAnswer (cfg : Config) (w : World) (currentTimestamp : Z)
    : outcome (gmap string value * error) :=
  let url := Endpoint +:+ "?from_date=" +:+ fmt_d currentTimestamp in
  match new_request_err w "GET" url with
  | Some e => mret (∅, Some e)
  | None =>
      let req := {| Method := "GET"; URL := url;
                    Header := [("Authorization", "OAuth " +:+ PracticumToken cfg)];
                    Body := EmptyString |} in
      emit (HttpDo req);;
      match client_do w req with
      | inr e =>
          emit (Log ("Ошибка при выполнении запроса к API: " +:+ e));;
          mret (∅, Some e)
      | inl resp =>
          r ← (if negb (StatusCode resp =? http_StatusOK) then
                 let e := "Запрос к API завершился с кодом статуса: "
                            +:+ fmt_d (StatusCode resp) in
                 emit (Log e);;
                 mret (∅, Some e)
               else
                 match Decoded resp with
                 | (_, Some e) =>
                     emit (Log ("Ошибка при декодировании ответа от API: " +:+ e));;
                     mret (∅, Some e)
                 | (data, None) =>
                     emit (Log "Успешно получен ответ от API");;
                     mret (data, None)
                 end);
          (* the deferred Body.Close() *)
          match CloseErr resp with
          | Some e => emit (Log ("Ошибка при закрытии тела ответа: " +:+ e))
          | None => mret tt
          end;;
          mret r
      end
  end.

(** [msg.From.ID]: a nil [msg.From] is a nil-pointer dereference. *)
Definition from_id (msg : Message) : outcome Z :=
  match FromID msg with
  | Some id => mret id
  | None => panic
  end.

Definition failed : string := "Не удалось получить статус домашних работ.".

(** The goroutine started by the [status] case. *)
Definition handleStatus (cfg : Config) (w : World) (msg : Message)
    : outcome unit :=
  let currentTimestamp := now w in
  r ← getAPIAnswer cfg w currentTimestamp;
  match r with
  | (_, Some err) =>
      emit (Log ("Не удалось получить ответ от API: " +:+ err));;
      sendMessage w (ChatID msg) failed;;
      mret tt
  | (response, None) =>
      f ← must_float64 (response !! "current_date");
      let currentTimestamp := int64_of_float64 f in
      match checkResponse response with
      | (_, Some err) =>
          emit (Log ("Неверный ответ от API: " +:+ err));;
          sendMessage w (ChatID msg) failed;;
          mret tt
      | (newHomeworks, None) =>
          match newHomeworks with
          | Some (currentReport :: _) =>
              p ← parseStatus currentReport;
              match p with
              | (_, Some err) =>
                  sendMessage w (ChatID msg) failed;;
                  mret tt
              | (message, None) =>
                  sendMessage w (ChatID msg) message;;
                  id ← from_id msg;
                  emit (Log ("Получена команда /status от пользователя с ID "
                               +:+ fmt_d id));;
                  emit (Log ("Результат запроса к API: " +:+ message))
              end
          | _ =>
              sendMessage w (ChatID msg) "Нет новых статусов работ.";;
              id ← from_id msg;
              emit (Log ("Получена команда /status от пользователя с ID "
                           +:+ fmt_d id));;
              emit (Log "Результат запроса к API: Нет новых статусов работ.")
          end
      end
  end.

Definition handleCommand (cfg : Config) (w : World) (msg : Message)
    : outcome unit :=
  if String.eqb (Command msg) "start" then
    sendMessage w (ChatID msg)
      "Привет! Я бот, который отслеживает статус проверки домашних работ.";;
    id ← from_id msg;
    emit (Log ("Получена команда /start от пользователя с ID " +:+ fmt_d id))
  else if String.eqb (Command msg) "status" then
    handleStatus cfg w msg
  else mret tt.

End MainCmd.

(** ** src/main.go, second program (lines 237-455): the polling loop *)

Module MainPoll.
Import MainGo.

(** The request body [sendMessage] writes with [fmt.Sprintf]. *)
Definition sendMessage_data (cfg : Config) (message : string) : string :=
  "{" +:+ dq +:+ "chat_id" +:+ dq +:+ ": " +:+ dq +:+ TelegramChatID cfg
      +:+ dq +:+ ", " +:+ dq +:+ "text" +:+ dq +:+ ": " +:+ dq +:+ message
      +:+ dq +:+ "}".

Definition sendMessage (cfg : Config) (w : World) (message : string)
    : outcome error :=
  let url := "https://api.telegram.org/bot" +:+ TelegramToken cfg
               +:+ "/sendMessage" in
  let data := sendMessage_data cfg message in
  match new_request_err w "POST" url with
  | Some e => mret (Some e)
  | None =>
      let req := {| Method := "POST"; URL := url;
                    Header := [("Content-Type", "application/json")];
                    Body := data |} in
      emit (HttpDo req);;
      match client_do w req with
      | inr e => mret (Some e)
      | inl resp =>
          if negb (StatusCode resp =? http_StatusOK) then
            mret (Some ("Запрос в API Telegram завершился с кодом статуса: "
                          +:+ fmt_d (StatusCode resp)))
          else mret None
      end
  end.

Definition getAPIAnswer (cfg : Config) (w : World) (currentTimestamp : Z)
    : outcome (gmap string value * error) :=
  let url := Endpoint +:+ "?from_date=" +:+ fmt_d currentTimestamp in
  match new_request_err w "GET" url with
  | Some e => mret (∅, Some e)
  | None =>
      let req := {| Method := "GET"; URL := url;
                    Header := [("Authorization", "OAuth " +:+ PracticumToken cfg)];
                    Body := EmptyString |} in
      emit (HttpDo req);;
      match client_do w req with
      | inr e => mret (∅, Some e)
      | inl resp =>
          if negb (StatusCode resp =? http_StatusOK) then
            mret (∅, Some ("Запрос к API завершился с кодом статуса: "
                             +:+ fmt_d (StatusCode resp)))
          else
            match Decoded resp with
            | (_, Some e) => mret (∅, Some e)
            | (data, None) => mret (data, None)
            end
      end
  end.

(** The variables of [runBot] that live across iterations. *)
Record LoopState : Type := {
  currentTimestamp : Z;
  currentReport : Homework;
  prevReport : Homework
}.

(** Lines 423-427: the first homework, or the stand-in for an empty list. *)
Definition report_of (newHomeworks : slice Homework) : Homework :=
  match newHomeworks with
  | Some (h :: _) => h
  | _ => {| Name := EmptyString; Status := "Нет новых статусов работ." |}
  end.

(** One iteration of the [for] loop of [runBot]. *)
Definition runBot_iter (cfg : Config) (w : World) (st : LoopState)
    : outcome LoopState :=
  r ← getAPIAnswer cfg w (currentTimestamp st);
  match r with
  | (_, Some err) =>
      emit (Log ("Не удалось получить ответ от API: " +:+ err));;
      emit (Sleep RetryPeriod);;
      mret st
  | (response, None) =>
      f ← must_float64 (response !! "current_date");
      let ts := int64_of_float64 f in
      match checkResponse response with
      | (_, Some err) =>
          emit (Log ("Неверный ответ от API: " +:+ err));;
          emit (Sleep RetryPeriod);;
          mret {| currentTimestamp := ts;
                  currentReport := currentReport st;
                  prevReport := prevReport st |}
      | (newHomeworks, None) =>
          let cur := report_of newHomeworks in
          prev ←
            (if negb (String.eqb (Status cur) (Status (prevReport st))) then
               p ← parseStatus cur;
               match p with
               | (_, Some err) =>
                   emit (Log ("Ошибка при разборе статуса домашней работы: "
                                +:+ err))
               | (message, None) =>
                   e ← sendMessage cfg w message;
                   match e with
                   | Some err =>
                       emit (Log ("Ошибка при отправке сообщения: " +:+ err))
                   | None => mret tt
                   end
               end;;
               mret cur
             else mret (prevReport st));
          emit (Sleep RetryPeriod);;
          mret {| currentTimestamp := ts;
                  currentReport := cur;
                  prevReport := prev |}
      end
  end.

(** The loop, run for as many iterations as there are worlds. *)
Fixpoint runBot_loop (cfg : Config) (ws : list World) (st : LoopState)
    : outcome LoopState :=
  match ws with
  | [] => mret st
  | w :: ws' =>
      st' ← runBot_iter cfg w st;
      runBot_loop cfg ws' st'
  end.


End MainPoll.

(** ** src/unnamed/part_000: ticker, commands and [lastSentMessage] *)

Module Part000.

Record Homework : Type := {
  Name : string;
  Status : string;
  ReviewerComment : string;
  LessonName : string
}.

Definition zeroHomework : Homework :=
  {| Name := EmptyString; Status := EmptyString;
     ReviewerComment := EmptyString; LessonName := EmptyString |}.

Definition RetryPeriod : Z := 100.

Record Message : Type := {
  Command : string;
  ChatID : Z;
  FromID : option Z
}.

Definition sendMessage (w : World) (chatID : Z) (message : string)
    : outcome error :=
  emit (BotSend chatID message);;
  mret (bot_send w chatID message).

Definition getAPIAnswer (cfg : Config) (w : World) (currentTimestamp : Z)
    : outcome (gmap string value * error) :=
  let timestamp :=
    if currentTimestamp =? 0 then now_fetch w
    else wrap64 (currentTimestamp - 3600) in
  let url := Endpoint +:+ "?from_date=" +:+ fmt_d timestamp in
  match new_request_err w "GET" url with
  | Some e => mret (∅, Some e)
  | None =>
      let req := {| Method := "GET"; URL := url;
                    Header := [("Authorization", "OAuth " +:+ PracticumToken cfg)];
                    Body := EmptyString |} in
      emit (HttpDo req);;
      match client_do w req with
      | inr e =>
          emit (StdLog ("Ошибка при выполнении запроса к API: " +:+ e));;
          mret (∅, Some e)
      | inl resp =>
          if negb (StatusCode resp =? http_StatusOK) then
            emit (StdLog ("Запрос к API завершился с кодом статуса: "
                            +:+ fmt_d (StatusCode resp)));;
            mret (∅, Some ("запрос к API завершился с кодом статуса: "
                             +:+ fmt_d (StatusCode resp)))
          else
            match Decoded resp with
            | (_, Some e) =>
                emit (StdLog ("Ошибка при декодировании ответа от API: " +:+ e));;
                mret (∅, Some e)
            | (data, None) =>
                emit (StdLog "Успешно получен ответ от API");;
                mret (data, None)
            end
      end
  end.

Fixpoint checkResponse_range (i : nat) (rest : list value)
    (homeworks : list Homework) : list Homework + string :=
  match rest with
  | [] => inl homeworks
  | hwJSON :: rest' =>
      match as_map (Some hwJSON) with
      | None =>
          inr "неверный формат ответа: элемент 'homework' не является словарем"
      | Some hwMap =>
          match as_string (hwMap !! "homework_name") with
          | None =>
              inr "неверный формат ответа: поле 'homework_name' не является строкой"
          | Some hwName =>
              match as_string (hwMap !! "status") with
              | None =>
                  inr "неверный формат ответа: поле 'status' не является строкой"
              | Some hwStatus =>
                  let hwReviewerComment :=
                    string_or_zero (hwMap !! "reviewer_comment") in
                  let hwLessonName := string_or_zero (hwMap !! "lesson_name") in
                  checkResponse_range (S i) rest'
                    (<[i := {| Name := hwName;
                               Status := hwStatus;
                               ReviewerComment := hwReviewerComment;
                               LessonName := hwLessonName |}]> homeworks)
              end
          end
      end
  end.

Definition checkResponse (response : gmap string value)
    : slice Homework * error :=
  match as_slice (response !! "homeworks") with
  | None =>
      (None, Some "неверный формат ответа: поле 'homeworks' не является списком")
  | Some homeworksJSON =>
      let homeworks := replicate (length homeworksJSON) zeroHomework in
      match checkResponse_range 0 homeworksJSON homeworks with
      | inr e => (None, Some e)
      | inl hs => (Some hs, None)
      end
  end.

Definition parseStatus (homework : Homework) : outcome (string * error) :=
  let homeworkName := Name homework in
  let homeworkStatus := Status homework in
  let homeworkReviewerComment := ReviewerComment homework in
  let homeworkLessonName := LessonName homework in
  if String.eqb homeworkStatus ApprovedStatus
     || String.eqb homeworkStatus ReviewingStatus
     || String.eqb homeworkStatus RejectedStatus then
    let verdict := default EmptyString (HomeworkVerdict !! homeworkStatus) in
    let message :=
      "Изменился статус проверки работы " +:+ dq +:+ homeworkName +:+ dq
        +:+ " для урока " +:+ dq +:+ homeworkLessonName +:+ dq +:+ ": "
        +:+ verdict +:+ newline +:+ "Комментарий ревьюера: "
        +:+ homeworkReviewerComment in
    mret (message, None)
  else
    let errMsg := "Неизвестный статус домашней работы: " +:+ homeworkStatus in
    emit (Log ("Ошибка при разборе статуса домашней работы: " +:+ errMsg));;
    mret (EmptyString, Some errMsg).

Definition from_id (msg : Message) : outcome Z :=
  match FromID msg with
  | Some id => mret id
  | None => panic
  end.

Definition failed : string := "Не удалось получить статус домашних работ.".

(** The goroutine started by the [status] case. *)
Definition handleStatus (cfg : Config) (w : World) (msg : Message)
    : outcome unit :=
  let currentTimestamp := now w in
  r ← getAPIAnswer cfg w currentTimestamp;
  match r with
  | (_, Some err) =>
      emit (Log ("Не удалось получить ответ от API: " +:+ err));;
      sendMessage w (ChatID msg) failed;;
      mret tt
  | (response, None) =>
      f ← must_float64 (response !! "current_date");
      let currentTimestamp := int64_of_float64 f in
      match checkResponse response with
      | (_, Some err) =>
          emit (Log ("Неверный ответ от API: " +:+ err));;
          sendMessage w (ChatID msg) failed;;
          mret tt
      | (newHomeworks, None) =>
          match newHomeworks with
          | Some (currentReport :: _) =>
              p ← parseStatus currentReport;
              match p with
              | (_, Some err) =>
                  sendMessage w (ChatID msg) failed;;
                  mret tt
              | (message, None) =>
                  sendMessage w (ChatID msg) message;;
                  id ← from_id msg;
                  emit (Log ("Получена команда /status от пользователя с ID "
                               +:+ fmt_d id));;
                  emit (Log ("Результат запроса к API: " +:+ message))
              end
          | _ =>
              sendMessage w (ChatID msg) "Нет новых статусов работ.";;
              id ← from_id msg;
              emit (Log ("Получена команда /status от пользователя с ID "
                           +:+ fmt_d id));;
              emit (Log "Результат запроса к API: Нет новых статусов работ.")
          end
      end
  end.

Definition handleCommand (cfg : Config) (w : World) (msg : Message)
    : outcome unit :=
  if String.eqb (Command msg) "start" then
    sendMessage w (ChatID msg)
      "Привет! Я бот, который отслеживает статус проверки домашних работ.";;
    id ← from_id msg;
    emit (Log ("Получена команда /start от пользователя с ID " +:+ fmt_d id))
  else if String.eqb (Command msg) "status" then
    handleStatus cfg w msg
  else mret tt.

(** [fetchAPIResponse] reads and writes the global [lastSentMessage]: it is
    passed in, and the value it leaves is returned beside the results. *)
Definition fetchAPIResponse (cfg : Config) (w : World)
    (lastSentMessage : string)
    : outcome (slice Homework * error * string) :=
  let currentTimestamp := now w in
  r ← getAPIAnswer cfg w currentTimestamp;
  match r with
  | (_, Some err) =>
      emit (Log ("Не удалось получить ответ от API: " +:+ err));;
      mret (None, Some err, lastSentMessage)
  | (response, None) =>
      f ← must_float64 (response !! "current_date");
      let currentTimestamp := int64_of_float64 f in
      match checkResponse response with
      | (_, Some err) =>
          emit (Log ("Неверный ответ от API: " +:+ err));;
          mret (None, Some err, lastSentMessage)
      | (newHomeworks, None) =>
          match newHomeworks with
          | Some (currentReport :: _) =>
              p ← parseStatus currentReport;
              match p with
              | (_, Some err) => mret (None, Some err, lastSentMessage)
              | (message, None) =>
                  if negb (String.eqb message lastSentMessage) then
                    match ParseInt (TelegramChatID cfg) with
                    | None =>
                        let err := num_error w (TelegramChatID cfg) in
                        emit (Log ("Ошибка при преобразовании TelegramChatID в int64: "
                                     +:+ err));;
                        mret (None, Some err, lastSentMessage)
                    | Some chatID =>
                        e ← sendMessage w chatID message;
                        match e with
                        | Some err =>
                            emit (Log ("Ошибка при отправке сообщения в Telegram: "
                                         +:+ err));;
                            mret (newHomeworks, None, lastSentMessage)
                        | None =>
                            emit (Log ("Сообщение отправлено в Telegram: "
                                         +:+ message));;
                            mret (newHomeworks, None, message)
                        end
                    end
                  else mret (newHomeworks, None, lastSentMessage)
              end
          | _ =>
              emit (Log "Результат запроса к API: Нет новых статусов работ.");;
              mret (newHomeworks, None, lastSentMessage)
          end
      end
  end.

(** The calls of [fetchAPIResponse] that [main] starts (one at launch, one
    per tick), taken one after the other. *)
Fixpoint poll (cfg : Config) (ws : list World) (lastSentMessage : string)
    : outcome string :=
  match ws with
  | [] => mret lastSentMessage
  | w :: ws' =>
      r ← fetchAPIResponse cfg w lastSentMessage;
      poll cfg ws' r.2
  end.

End Part000.

(** ** Start-up and the update loop

    [init] of the three programs and [handleUpdates] of the two that take
    commands. *)

Module Startup.

(** What [init] reads from the process and its surroundings. *)
Record Env : Type := {
  dotenv_err : error;                 (* godotenv.Load() *)
  getenv : string -> string;          (* os.Getenv, after the load *)
  open_log_err : string -> error;     (* os.OpenFile(path, ...) *)
  new_bot : string -> string + string (* tgbotapi.NewBotAPI(token):
                                         bot.Self.UserName, or the error *)
}.

(** [init] either ends the process through [log.Fatal] or leaves the
    globals set. *)
Inductive startup : Type :=
| Fatal (tr : trace) (line : string)
| Started (cfg : Config) (tr : trace).

Definition env_config (env : Env) : Config :=
  {| PracticumToken := getenv env "PRACTICUM_TOKEN";
     TelegramToken := getenv env "TELEGRAM_TOKEN";
     TelegramChatID := getenv env "TELEGRAM_CHAT_ID" |}.

Definition missing (cfg : Config) : bool :=
  String.eqb (PracticumToken cfg) EmptyString
  || String.eqb (TelegramToken cfg) EmptyString
  || String.eqb (TelegramChatID cfg) EmptyString.

End Startup.

Module MainPollRest.
Import Startup.

(** src/main.go, lines 276-303. *)
Definition init (env : Env) : startup :=
  match dotenv_err env with
  | Some _ => Fatal [] "Ошибка при загрузке файла .env"
  | None =>
      let cfg := env_config env in
      if missing cfg then Fatal [] "Отсутствуют переменные окружения"
      else
        match open_log_err env "bot.log" with
        | Some err => Fatal [] ("Ошибка при открытии файла журнала:" +:+ err)
        | None => Started cfg [Log "Бот запущен"]
        end
  end.

End MainPollRest.

Module MainCmdRest.
Import Startup.

(** src/main.go, lines 41-75. *)
Definition init (env : Env) : startup :=
  match dotenv_err env with
  | Some _ => Fatal [] "Ошибка при загрузке файла .env"
  | None =>
      let cfg := env_config env in
      if missing cfg then Fatal [] "Отсутствуют переменные окружения"
      else
        match open_log_err env "bot.log" with
        | Some err => Fatal [] ("Ошибка при открытии файла журнала:" +:+ err)
        | None =>
            match new_bot env (TelegramToken cfg) with
            | inr err =>
                Fatal [Log "Бот запущен"]
                  ("Ошибка при создании экземпляра бота:" +:+ err)
            | inl userName =>
                Started cfg [Log "Бот запущен";
                             Log ("Авторизован как @" +:+ userName)]
            end
        end
  end.

(** An update as [handleUpdates] reads it: [update.Message], which may be
    nil, and [update.Message.IsCommand()]. *)
Record Update : Type := {
  UpdateMessage : option MainCmd.Message;
  IsCommand : bool
}.

(** [handleUpdates] over the updates that arrive, each with the world its
    command runs in; the goroutine of a [status] command is taken to end
    before the next update is read. *)
Fixpoint handleUpdates (cfg : Config) (updates : list (World * Update))
    : outcome unit :=
  match updates with
  | [] => mret tt
  | (w, update) :: updates' =>
      match UpdateMessage update with
      | Some msg =>
          if IsCommand update then MainCmd.handleCommand cfg w msg
          else mret tt
      | None => mret tt
      end;;
      handleUpdates cfg updates'
  end.

End MainCmdRest.

Module Part000Rest.
Import Startup.

(** src/unnamed/part_000, lines 45-78. *)
Definition init (env : Env) : startup :=
  match dotenv_err env with
  | Some _ => Fatal [] "Ошибка при загрузке файла .env"
  | None =>
      let cfg := env_config env in
      if missing cfg then Fatal [] "Отсутствуют переменные окружения"
      else
        match open_log_err env "logs/bot.log" with
        | Some err => Fatal [] ("Ошибка при открытии файла журнала:" +:+ err)
        | None =>
            match new_bot env (TelegramToken cfg) with
            | inr err =>
                Fatal [Log "Бот запущен"]
                  ("Ошибка при создании экземпляра бота:" +:+ err)
            | inl userName =>
                Started cfg [Log "Бот запущен";
                             Log ("Авторизован как @" +:+ userName)]
            end
        end
  end.

Record Update : Type := {
  UpdateMessage : option Part000.Message;
  IsCommand : bool
}.

Fixpoint handleUpdates (cfg : Config) (updates : list (World * Update))
    : outcome unit :=
  match updates with
  | [] => mret tt
  | (w, update) :: updates' =>
      match UpdateMessage update with
      | Some msg =>
          if IsCommand update then Part000.handleCommand cfg w msg
          else mret tt
      | None => mret tt
      end;;
      handleUpdates cfg updates'
  end.

End Part000Rest.

(** ** JSON texts

    The grammar of RFC 8259, which the receiver of the body that
    [MainPoll.sendMessage] posts applies to it.  A text is a string of
    bytes that is well-formed UTF-8 (section 8.1) and that the grammar
    accepts (section 2).  A string value is the bytes it denotes, escapes
    decoded. *)

Module JSONText.

Inductive json : Type :=
| JNull
| JBool (b : bool)
| JNumber (literal : string)
| JString (s : string)
| JArray (elements : list json)
| JObject (members : list (string * json)).

Definition quote : ascii := ascii_of_nat 34.
Definition backslash : ascii := ascii_of_nat 92.

Definition is_ws (c : ascii) : bool :=
  Ascii.eqb c " " || Ascii.eqb c (ascii_of_nat 9)
  || Ascii.eqb c (ascii_of_nat 10) || Ascii.eqb c (ascii_of_nat 13).

Fixpoint skip_ws (s : string) : string :=
  match s with
  | String c s' => if is_ws c then skip_ws s' else s
  | EmptyString => EmptyString
  end.

Definition is_digit (c : ascii) : bool :=
  (48 <=? N_of_ascii c)%N && (N_of_ascii c <=? 57)%N.

Definition hex_val (c : ascii) : option N :=
  let n := N_of_ascii c in
  if (48 <=? n)%N && (n <=? 57)%N then Some (n - 48)%N
  else if (65 <=? n)%N && (n <=? 70)%N then Some (n - 55)%N
  else if (97 <=? n)%N && (n <=? 102)%N then Some (n - 87)%N
  else None.

(** Four hex digits. *)
Definition hex4 (s : string) : option (N * string) :=
  match s with
  | String a (String b (String c (String d rest))) =>
      match hex_val a, hex_val b, hex_val c, hex_val d with
      | Some x, Some y, Some z, Some t =>
          Some (((x * 16 + y) * 16 + z) * 16 + t, rest)%N
      | _, _, _, _ => None
      end
  | _ => None
  end.

Definition byte (n : N) : string := String (ascii_of_N n) EmptyString.

(** The UTF-8 bytes of a code point. *)
Definition utf8 (cp : N) : string :=
  (if cp <? 128 then byte cp
   else if cp <? 2048 then byte (192 + cp / 64) +:+ byte (128 + cp mod 64)
   else if cp <? 65536 then
     byte (224 + cp / 4096) +:+ byte (128 + (cp / 64) mod 64)
       +:+ byte (128 + cp mod 64)
   else
     byte (240 + cp / 262144) +:+ byte (128 + (cp / 4096) mod 64)
       +:+ byte (128 + (cp / 64) mod 64) +:+ byte (128 + cp mod 64))%N.

Definition is_high (cp : N) : bool := (55296 <=? cp)%N && (cp <=? 56319)%N.
Definition is_low (cp : N) : bool := (56320 <=? cp)%N && (cp <=? 57343)%N.
Definition replacement : N := 65533.

(** One step inside a string: the closing quote, some bytes of the value,
    or a malformed string. *)
Inductive step : Type :=
| Stop (rest : string)
| Out (bytes : string) (rest : string)
| Bad.

(** [\uXXXX] was read as [cp], [rest] follows: a pair of surrogates is one
    code point, a lone surrogate the replacement character. *)
Definition unicode_escape (cp : N) (rest : string) : step :=
  if is_high cp then
    match rest with
    | String b (String u rest') =>
        if Ascii.eqb b backslash && Ascii.eqb u "u" then
          match hex4 rest' with
          | Some (lo, rest'') =>
              if is_low lo then
                Out (utf8 (65536 + (cp - 55296) * 1024 + (lo - 56320))%N) rest''
              else Out (utf8 replacement) rest
          | None => Out (utf8 replacement) rest
          end
        else Out (utf8 replacement) rest
    | _ => Out (utf8 replacement) rest
    end
  else if is_low cp then Out (utf8 replacement) rest
  else Out (utf8 cp) rest.

Definition scan_step (s : string) : step :=
  match s with
  | EmptyString => Bad
  | String c s1 =>
      if Ascii.eqb c quote then Stop s1
      else if Ascii.eqb c backslash then
        match s1 with
        | EmptyString => Bad
        | String e s2 =>
            if Ascii.eqb e quote then Out (String quote EmptyString) s2
            else if Ascii.eqb e backslash then Out (String backslash EmptyString) s2
            else if Ascii.eqb e "/" then Out "/" s2
            else if Ascii.eqb e "b" then Out (byte 8) s2
            else if Ascii.eqb e "f" then Out (byte 12) s2
            else if Ascii.eqb e "n" then Out (byte 10) s2
            else if Ascii.eqb e "r" then Out (byte 13) s2
            else if Ascii.eqb e "t" then Out (byte 9) s2
            else if Ascii.eqb e "u" then
              match hex4 s2 with
              | Some (cp, s3) => unicode_escape cp s3
              | None => Bad
              end
            else Bad
        end
      else if (N_of_ascii c <? 32)%N then Bad
      else Out (String c EmptyString) s1
  end.

(** The value of a string and what follows its closing quote; [s] starts
    after the opening quote. *)
Fixpoint scan_fuel (fuel : nat) (s : string) : option (string * string) :=
  match fuel with
  | O => None
  | S n =>
      match scan_step s with
      | Bad => None
      | Stop rest => Some (EmptyString, rest)
      | Out bytes rest =>
          match scan_fuel n rest with
          | Some (value, rest') => Some (bytes +:+ value, rest')
          | None => None
          end
      end
  end.

Definition scan_string (s : string) : option (string * string) :=
  scan_fuel (String.length s) s.

(** The longest run of digits at the start. *)
Fixpoint digits (s : string) : string * string :=
  match s with
  | String c s' =>
      if is_digit c then let '(ds, r) := digits s' in (String c ds, r)
      else (EmptyString, s)
  | EmptyString => (EmptyString, EmptyString)
  end.

(** number = [ minus ] int [ frac ] [ exp ] *)
Definition scan_number (s : string) : option (string * string) :=
  let '(sign, s1) :=
    match s with
    | String c s' => if Ascii.eqb c "-" then ("-", s') else (EmptyString, s)
    | EmptyString => (EmptyString, s)
    end in
  let '(int, s2) := digits s1 in
  match int with
  | EmptyString => None
  | String d more =>
      if Ascii.eqb d "0" && negb (String.eqb more EmptyString) then None
      else
        let frac :=
          match s2 with
          | String c s3 =>
              if Ascii.eqb c "." then
                let '(fs, s4) := digits s3 in
                if String.eqb fs EmptyString then None
                else Some ("." +:+ fs, s4)
              else Some (EmptyString, s2)
          | EmptyString => Some (EmptyString, s2)
          end in
        match frac with
        | None => None
        | Some (f, s5) =>
            let exp :=
              match s5 with
              | String c s6 =>
                  if Ascii.eqb c "e" || Ascii.eqb c "E" then
                    let '(esign, s7) :=
                      match s6 with
                      | String g s' =>
                          if Ascii.eqb g "+" || Ascii.eqb g "-"
                          then (String g EmptyString, s') else (EmptyString, s6)
                      | EmptyString => (EmptyString, s6)
                      end in
                    let '(es, s8) := digits s7 in
                    if String.eqb es EmptyString then None
                    else Some (String c esign +:+ es, s8)
                  else Some (EmptyString, s5)
              | EmptyString => Some (EmptyString, s5)
              end in
            match exp with
            | None => None
            | Some (e, s9) => Some (sign +:+ int +:+ f +:+ e, s9)
            end
        end
  end.

(** [literal] at the start of [s]: what follows it. *)
Fixpoint strip (literal s : string) : option string :=
  match literal, s with
  | EmptyString, _ => Some s
  | String a l', String b s' => if Ascii.eqb a b then strip l' s' else None
  | _, EmptyString => None
  end.

(** value, members of an object after the opening brace, elements of an
    array after the opening bracket; whitespace before each was skipped. *)
Fixpoint parse_value (fuel : nat) (s : string) : option (json * string) :=
  match fuel with
  | O => None
  | S n =>
      match s with
      | EmptyString => None
      | String c s' =>
          if Ascii.eqb c "{" then
            match skip_ws s' with
            | EmptyString => None
            | String c' r =>
                if Ascii.eqb c' "}" then Some (JObject [], r)
                else
                  match parse_members n (String c' r) with
                  | Some (ms, r') => Some (JObject ms, r')
                  | None => None
                  end
            end
          else if Ascii.eqb c "[" then
            match skip_ws s' with
            | EmptyString => None
            | String c' r =>
                if Ascii.eqb c' "]" then Some (JArray [], r)
                else
                  match parse_elements n (String c' r) with
                  | Some (vs, r') => Some (JArray vs, r')
                  | None => None
                  end
            end
          else if Ascii.eqb c quote then
            match scan_string s' with
            | Some (v, r) => Some (JString v, r)
            | None => None
            end
          else if Ascii.eqb c "t" then
            match strip "true" s with
            | Some r => Some (JBool true, r)
            | None => None
            end
          else if Ascii.eqb c "f" then
            match strip "false" s with
            | Some r => Some (JBool false, r)
            | None => None
            end
          else if Ascii.eqb c "n" then
            match strip "null" s with
            | Some r => Some (JNull, r)
            | None => None
            end
          else
            match scan_number s with
            | Some (l, r) => Some (JNumber l, r)
            | None => None
            end
      end
  end
with parse_members (fuel : nat) (s : string)
    : option (list (string * json) * string) :=
  match fuel with
  | O => None
  | S n =>
      match s with
      | EmptyString => None
      | String c s1 =>
          if Ascii.eqb c quote then
            match scan_string s1 with
            | None => None
            | Some (k, s2) =>
                match skip_ws s2 with
                | EmptyString => None
                | String c2 s3 =>
                    if Ascii.eqb c2 ":" then
                      match parse_value n (skip_ws s3) with
                      | None => None
                      | Some (v, s4) =>
                          match skip_ws s4 with
                          | EmptyString => None
                          | String c3 s5 =>
                              if Ascii.eqb c3 "," then
                                match parse_members n (skip_ws s5) with
                                | Some (ms, r) => Some ((k, v) :: ms, r)
                                | None => None
                                end
                              else if Ascii.eqb c3 "}" then Some ([(k, v)], s5)
                              else None
                          end
                      end
                    else None
                end
            end
          else None
      end
  end
with parse_elements (fuel : nat) (s : string)
    : option (list json * string) :=
  match fuel with
  | O => None
  | S n =>
      match parse_value n s with
      | None => None
      | Some (v, s1) =>
          match skip_ws s1 with
          | EmptyString => None
          | String c s2 =>
              if Ascii.eqb c "," then
                match parse_elements n (skip_ws s2) with
                | Some (vs, r) => Some (v :: vs, r)
                | None => None
                end
              else if Ascii.eqb c "]" then Some ([v], s2)
              else None
          end
      end
  end.

(** JSON-text = ws value ws.  Every two levels of the recursion read at
    least two characters, so the length of the text is fuel enough. *)
Definition parse_grammar (s : string) : option json :=
  match parse_value (S (String.length s)) (skip_ws s) with
  | Some (v, r) =>
      match skip_ws r with
      | EmptyString => Some v
      | _ => None
      end
  | None => None
  end.

(** RFC 8259, section 8.1: a JSON text is encoded in UTF-8.  After a lead
    byte, the ranges of the bytes that must follow it (The Unicode Standard,
    table 3-7: no overlong forms, no surrogates, nothing above U+10FFFF). *)
Definition in_range (lo hi : N) (c : ascii) : bool :=
  (lo <=? N_of_ascii c)%N && (N_of_ascii c <=? hi)%N.

Definition continuation : N * N := (128%N, 191%N).

Definition utf8_lead (c : ascii) : option (list (N * N)) :=
  let n := N_of_ascii c in
  if (n <? 128)%N then Some []
  else if (n <? 194)%N then None
  else if (n <? 224)%N then Some [continuation]
  else if (n =? 224)%N then Some [(160%N, 191%N); continuation]
  else if (n =? 237)%N then Some [(128%N, 159%N); continuation]
  else if (n <? 240)%N then Some [continuation; continuation]
  else if (n =? 240)%N then
    Some [(144%N, 191%N); continuation; continuation]
  else if (n <? 244)%N then Some [continuation; continuation; continuation]
  else if (n =? 244)%N then
    Some [(128%N, 143%N); continuation; continuation]
  else None.

(** [pending]: the ranges of the bytes still owed to the sequence that is
    being read. *)
Definition utf8_step (pending : list (N * N)) (c : ascii)
    : option (list (N * N)) :=
  match pending with
  | [] => utf8_lead c
  | (lo, hi) :: pending' =>
      if in_range lo hi c then Some pending' else None
  end.

Fixpoint utf8_run (pending : list (N * N)) (s : string)
    : option (list (N * N)) :=
  match s with
  | EmptyString => Some pending
  | String c s' =>
      match utf8_step pending c with
      | Some pending' => utf8_run pending' s'
      | None => None
      end
  end.

Definition utf8_valid (s : string) : bool :=
  match utf8_run [] s with
  | Some [] => true
  | _ => false
  end.

(** A JSON text: well-formed UTF-8 that the grammar accepts.  The structural
    characters are ASCII, so the bytes from 128 up that the grammar lets
    through stand inside strings, where they are copied. *)
Definition parse (s : string) : option json :=
  if utf8_valid s then parse_grammar s else None.

End JSONText.

(** ** Specification vocabulary *)

Module Spec.

(** The closed set of statuses (StatusEnum). *)
Definition known_status (s : string) : Prop :=
  s = ApprovedStatus \/ s = ReviewingStatus \/ s = RejectedStatus.

(** [strings.Contains]. *)
Fixpoint contains (s sub : string) : bool :=
  String.prefix sub s ||
  match s with
  | EmptyString => false
  | String _ s' => contains s' sub
  end.

(** A homework object of the payload with its two required string fields. *)
Definition well_formed (v : value) : Prop :=
  exists m n st, v = VMap m /\ m !! "homework_name" = Some (VString n)
                 /\ m !! "status" = Some (VString st).

(** What can be wrong with a payload, by the field at fault. *)
Inductive defect : Type :=
| HomeworksNotList
| ElementNotObject
| NameNotString
| StatusNotString.

(** The first thing wrong with one element of [homeworks], if any: not an
    object, else [homework_name] missing or not a string, else [status]. *)
Definition element_defect (v : value) : option defect :=
  match v with
  | VMap m =>
      match m !! "homework_name" with
      | Some (VString _) =>
          match m !! "status" with
          | Some (VString _) => None
          | _ => Some StatusNotString
          end
      | _ => Some NameNotString
      end
  | _ => Some ElementNotObject
  end.

(** The field a defect is about, as the error texts quote it. *)
Definition defect_field (d : defect) : string :=
  match d with
  | HomeworksNotList => "'homeworks'"
  | ElementNotObject => "'homework'"
  | NameNotString => "'homework_name'"
  | StatusNotString => "'status'"
  end.

(** The float64 the JSON decoder yields for an integer literal. *)
Definition float64_of_Z (z : Z) : spec_float := binary_normalize 53 1024 z 0 false.

(** Observations on a trace.  [requests]: the calls of [client.Do], the
    HTTP client of the program itself, with the request of each.
    [bot_sends]: the calls of [bot.Send]; the bot library does its own HTTP
    exchange for each, which is no request of the program's client and does
    not appear among [requests]. *)
Definition requests (tr : trace) : list Request :=
  omap (fun e => match e with HttpDo r => Some r | _ => None end) tr.

Definition posts (tr : trace) : list Request :=
  filter (fun r => Method r = "POST") (requests tr).

Definition bot_sends (tr : trace) : list (Z * string) :=
  omap (fun e => match e with BotSend c m => Some (c, m) | _ => None end) tr.

Definition logs (tr : trace) : list string :=
  omap (fun e => match e with Log l => Some l | _ => None end) tr.

(** The request of section 6: GET endpoint?from_date=unixtime with the
    header Authorization: OAuth token. *)
Definition api_request (cfg : Config) (unixtime : Z) : Request :=
  {| Method := "GET";
     URL := Endpoint +:+ "?from_date=" +:+ fmt_d unixtime;
     Header := [("Authorization", "OAuth " +:+ PracticumToken cfg)];
     Body := EmptyString |}.

(** The world answers every GET with status 200 and a body that decodes to
    [payload]. *)
Definition answers (w : World) (payload : gmap string value) : Prop :=
  (forall u, new_request_err w "GET" u = None) /\
  (forall req, Method req = "GET" ->
     exists resp, client_do w req = inl resp /\
                  StatusCode resp = http_StatusOK /\
                  Decoded resp = (payload, None) /\
                  CloseErr resp = None).

(** A byte that may stand for itself inside a JSON string: not the quote,
    not the backslash, not a control character. *)
Definition clean_char (c : ascii) : bool :=
  negb (Ascii.eqb c JSONText.quote) && negb (Ascii.eqb c JSONText.backslash)
  && negb (N_of_ascii c <? 32)%N.

Fixpoint clean (s : string) : bool :=
  match s with
  | EmptyString => true
  | String c s' => clean_char c && clean s'
  end.

(** The body [sendMessage] posts for [message] is a JSON object with a
    member chat_id whose value is the chat identifier and a member text
    whose value is the message. *)
Definition body_carries (cfg : Config) (message : string) : Prop :=
  exists ms,
    JSONText.parse (MainPoll.sendMessage_data cfg message)
      = Some (JSONText.JObject ms) /\
    In ("chat_id", JSONText.JString (TelegramChatID cfg)) ms /\
    In ("text", JSONText.JString message) ms.

End Spec.
Import Spec.
Import JSONText.

(** ** Vocabulary of the proofs *)

(** The error text of each defect in src/main.go. *)
Definition MainGo_error_text (d : defect) : string :=
  match d with
  | HomeworksNotList =>
      "Неверный формат ответа: поле 'homeworks' не является списком"
  | ElementNotObject =>
      "Неверный формат ответа: элемент 'homework' не является словарем"
  | NameNotString =>
      "Неверный формат ответа: поле 'homework_name' не является строкой"
  | StatusNotString =>
      "Неверный формат ответа: поле 'status' не является строкой"
  end.

(** The error text of each defect in src/unnamed/part_000. *)
Definition Part000_error_text (d : defect) : string :=
  match d with
  | HomeworksNotList =>
      "неверный формат ответа: поле 'homeworks' не является списком"
  | ElementNotObject =>
      "неверный формат ответа: элемент 'homework' не является словарем"
  | NameNotString =>
      "неверный формат ответа: поле 'homework_name' не является строкой"
  | StatusNotString =>
      "неверный формат ответа: поле 'status' не является строкой"
  end.

(** The message [fetchAPIResponse] derives from a payload, when it gets as
    far as deriving one. *)
Definition Part000_derived (response : gmap string value) (message : string)
    : Prop :=
  exists hw rest,
    Part000.checkResponse response = (Some (hw :: rest), None) /\
    Part000.parseStatus hw = Done (message, None) [].

(** The request [MainPoll.sendMessage] posts for a message. *)
Definition telegram_url (cfg : Config) : string :=
  "https://api.telegram.org/bot" +:+ TelegramToken cfg +:+ "/sendMessage".

Definition post_request (cfg : Config) (message : string) : Request :=
  {| Method := "POST";
     URL := telegram_url cfg;
     Header := [("Content-Type", "application/json")];
     Body := MainPoll.sendMessage_data cfg message |}.

(** The least number of bytes a value takes in a text: a string its bytes
    and two quotes, anything else at least one. *)
Definition vsize (v : json) : nat :=
  match v with
  | JString d => String.length d + 2
  | _ => 1
  end.

(** A member: the key in quotes, the colon, the value, and the comma or
    the closing brace after it. *)
Definition weight (m : string * json) : nat :=
  String.length m.1 + 2 + 1 + vsize m.2 + 1.

Definition msize (ms : list (string * json)) : nat :=
  foldr (fun m acc => (weight m + acc)%nat) 0%nat ms.

(** The text of a member whose value is a string, from the quote that
    opens the key to the quote that opens the value, and [s] after it. *)
Definition member_text (k s : string) : string :=
  String quote (k +:+ String quote (String ":" (String " " (String quote s)))).

(** What [parse_members] does after the value of a member. *)
Definition rest_members (n : nat) (k : string) (v : json) (s4 : string)
    : option (list (string * json) * string) :=
  match skip_ws s4 with
  | EmptyString => None
  | String c3 s5 =>
      if Ascii.eqb c3 "," then
        match parse_members n (skip_ws s5) with
        | Some (ms, r) => Some ((k, v) :: ms, r)
        | None => None
        end
      else if Ascii.eqb c3 "}" then Some ([(k, v)], s5)
      else None
  end.

(** The member text and what follows it, as [sendMessage] writes them. *)
Definition text_tail (message : string) : string :=
  member_text "text" (message +:+ String quote "}").

(** Bytes below 128 only; a separator is a non-empty run of them. *)
Fixpoint ascii_only (s : string) : bool :=
  match s with
  | EmptyString => true
  | String c s' => (N_of_ascii c <? 128)%N && ascii_only s'
  end.

Definition separator (s : string) : bool :=
  match s with
  | EmptyString => false
  | String _ _ => ascii_only s
  end.

(** No byte of a sequence that was begun is an ASCII byte. *)
Definition owes_high (pending : list (N * N)) : Prop :=
  Forall (fun r => (128 <= r.1)%N) pending.

(** The sleeps of a trace. *)
Definition sleeps (tr : trace) : list Z :=
  omap (fun e => match e with Sleep d => Some d | _ => None end) tr.

(** The world answers the fetch with a body that decodes to [data]. *)
Definition fetch_ok (w : World) (req : Request) (data : gmap string value)
    : Prop :=
  new_request_err w "GET" (URL req) = None /\
  exists resp, client_do w req = inl resp /\
               StatusCode resp = http_StatusOK /\
               Decoded resp = (data, None).

(** The world accepts the post: the request is built, sent, and answered
    with status 200. *)
Definition post_ok (w : World) (req : Request) : Prop :=
  new_request_err w "POST" (URL req) = None /\
  exists resp, client_do w req = inl resp /\ StatusCode resp = http_StatusOK.

(** The timestamp [Part000.getAPIAnswer] asks from. *)
Definition Part000_from_date (w : World) (t : Z) : Z :=
  if t =? 0 then now_fetch w else wrap64 (t - 3600).

(** A tick whose fetch and checks succeed and whose report has status [s]. *)
Definition shows (w : World) (s : string) : Prop :=
  exists payload f hs,
    answers w payload /\
    as_float64 (payload !! "current_date") = Some f /\
    MainGo.checkResponse payload = (hs, None) /\
    MainGo.Status (MainPoll.report_of hs) = s.



(** The reply of the [status] command to a decoded response. *)
Definition MainCmd_reply (response : gmap string value) : string :=
  match MainGo.checkResponse response with
  | (_, Some _) => MainCmd.failed
  | (Some (hw :: _), None) =>
      match MainGo.parseStatus hw with
      | Done (message, None) _ => message
      | _ => MainCmd.failed
      end
  | (_, None) => NoNewStatuses
  end.

Definition Part000_reply (response : gmap string value) : string :=
  match Part000.checkResponse response with
  | (_, Some _) => Part000.failed
  | (Some (hw :: _), None) =>
      match Part000.parseStatus hw with
      | Done (message, None) _ => message
      | _ => Part000.failed
      end
  | (_, None) => NoNewStatuses
  end.

Definition greeting : string :=
  "Привет! Я бот, который отслеживает статус проверки домашних работ.".

(** ** Sample configurations, payloads and worlds *)

Module Samples.

Definition cfg0 : Config :=
  {| PracticumToken := "practicum-token";
     TelegramToken := "123:telegram-token";
     TelegramChatID := "42" |}.

Definition hw_object (name status : string) : value :=
  VMap (<["homework_name" := VString name]>
        (<["status" := VString status]> ∅)).

(** homeworks: one object hw1/approved; current_date: 1000 *)
Definition payload_hw1 : gmap string value :=
  <["homeworks" := VSlice [hw_object "hw1" "approved"]]>
  (<["current_date" := VFloat64 (float64_of_Z 1000)]> ∅).

(** homeworks: empty list; current_date: 2000 *)
Definition payload_empty : gmap string value :=
  <["homeworks" := VSlice []]>
  (<["current_date" := VFloat64 (float64_of_Z 2000)]> ∅).

(** homeworks: empty list; no current_date *)
Definition payload_nodate : gmap string value :=
  <["homeworks" := VSlice []]> ∅.

(** Every request is answered with status 200 and [payload]; every send
    succeeds. *)
Definition world_of (payload : gmap string value) : World :=
  {| now := 1700000000;
     now_fetch := 1700000000;
     new_request_err := fun _ _ => None;
     client_do := fun _ => inl {| StatusCode := 200;
                                  Decoded := (payload, None);
                                  CloseErr := None |};
     bot_send := fun _ _ => None;
     num_error := fun _ => "invalid syntax" |}.

(** As [world_of], but sending fails: a POST gets a transport error and
    [bot.Send] returns an error. *)
Definition world_send_fails (payload : gmap string value) : World :=
  {| now := 1700000000;
     now_fetch := 1700000000;
     new_request_err := fun _ _ => None;
     client_do := fun req =>
       if String.eqb (Method req) "POST" then inr "connection refused"
       else inl {| StatusCode := 200;
                   Decoded := (payload, None);
                   CloseErr := None |};
     bot_send := fun _ _ => Some "connection refused";
     num_error := fun _ => "invalid syntax" |}.

Definition msg0 : MainCmd.Message :=
  {| MainCmd.Command := "status"; MainCmd.ChatID := 42;
     MainCmd.FromID := Some 7 |}.

Definition msg0' : Part000.Message :=
  {| Part000.Command := "status"; Part000.ChatID := 42;
     Part000.FromID := Some 7 |}.

Definition st0 : MainPoll.LoopState :=
  {| MainPoll.currentTimestamp := 1700000000;
     MainPoll.currentReport := MainGo.zeroHomework;
     MainPoll.prevReport := MainGo.zeroHomework |}.

End Samples.

Module SamplesBad.

(** homeworks: a good object, then an object whose status is a number *)
Definition bad_list : list value :=
  [Samples.hw_object "hw1" "approved";
   VMap (<["homework_name" := VString "hw2"]>
         (<["status" := VFloat64 (float64_of_Z 3)]> ∅))].

Definition payload_bad : gmap string value :=
  <["homeworks" := VSlice bad_list]>
  (<["current_date" := VFloat64 (float64_of_Z 1000)]> ∅).

End SamplesBad.

Module SamplesPoll.

Definition hw1 : MainGo.Homework :=
  {| MainGo.Name := "hw1"; MainGo.Status := "approved" |}.

(** The notification of the scenario of section 8. *)
Definition hw1_message : string :=
  "Изменился статус проверки работы " +:+ dq +:+ "hw1" +:+ dq
    +:+ ": Работа проверена: ревьюеру всё понравилось. Ура!".

(** What src/unnamed/part_000 derives from the same payload. *)
Definition hw1_message_part000 : string :=
  "Изменился статус проверки работы " +:+ dq +:+ "hw1" +:+ dq
    +:+ " для урока " +:+ dq +:+ dq
    +:+ ": Работа проверена: ревьюеру всё понравилось. Ура!"
    +:+ newline +:+ "Комментарий ревьюера: ".

(** The loop state after a tick that saw hw1/approved at date 1000. *)
Definition st_hw1 : MainPoll.LoopState :=
  {| MainPoll.currentTimestamp := 1000;
     MainPoll.currentReport := hw1;
     MainPoll.prevReport := hw1 |}.

End SamplesPoll.

(** ** Proof steps *)

(** Case analysis on everything the world can answer to one fetch. *)
Ltac fetch_cases w req :=
  destruct (client_do w req) as [resp|e]; simpl;
  [ destruct (StatusCode resp =? http_StatusOK); simpl;
    [ destruct (Decoded resp) as [data [e|]]; simpl | ];
    try (destruct (CloseErr resp); simpl)
  | ].

(** Reduce the monad's plumbing and nothing else. *)
Ltac run :=
  cbv beta iota zeta
      delta [mbind mret outcome_bind outcome_ret bind ret emit panic fst snd].

(** ** Strings and the verdict table *)

Lemma prefix_app (p s : string) : String.prefix p (p +:+ s) = true.
Proof.
  induction p as [|c p IH].
  - now destruct s.
  - change (String.prefix (String c p) (String c (p +:+ s)) = true).
    simpl. destruct (ascii_dec c c); [exact IH | congruence].
Qed.

Lemma contains_prefix (s sub : string) :
  String.prefix sub s = true -> contains s sub = true.
Proof. destruct s; simpl; intros ->; reflexivity. Qed.

Lemma contains_app (a sub b : string) : contains (a +:+ sub +:+ b) sub = true.
Proof.
  induction a as [|c a IH].
  - apply contains_prefix. exact (prefix_app sub b).
  - change (contains (String c (a +:+ sub +:+ b)) sub = true).
    simpl. rewrite IH. apply orb_true_r.
Qed.

Lemma app_assoc_s (a b c : string) : (a +:+ b) +:+ c = a +:+ b +:+ c.
Proof.
  induction a as [|x a IH]; [reflexivity|].
  change (String x ((a +:+ b) +:+ c) = String x (a +:+ b +:+ c)).
  now rewrite IH.
Qed.

Lemma HomeworkVerdict_lookup (s : string) :
  HomeworkVerdict !! s =
    if String.eqb s ApprovedStatus
    then Some "Работа проверена: ревьюеру всё понравилось. Ура!"
    else if String.eqb s ReviewingStatus
    then Some "Работа взята на проверку ревьюером."
    else if String.eqb s RejectedStatus
    then Some "Работа проверена: у ревьюера есть замечания."
    else None.
Proof.
  unfold HomeworkVerdict.
  destruct (String.eqb_spec s ApprovedStatus) as [-> | H1].
  { apply lookup_insert_eq. }
  rewrite lookup_insert_ne by congruence.
  destruct (String.eqb_spec s ReviewingStatus) as [-> | H2].
  { apply lookup_insert_eq. }
  rewrite lookup_insert_ne by congruence.
  destruct (String.eqb_spec s RejectedStatus) as [-> | H3].
  { apply lookup_insert_eq. }
  rewrite lookup_insert_ne by congruence.
  apply lookup_empty.
Qed.

Lemma known_status_lookup (s : string) :
  known_status s -> exists verdict, HomeworkVerdict !! s = Some verdict.
Proof.
  intros [-> | [-> | ->]]; rewrite HomeworkVerdict_lookup; simpl; eauto.
Qed.

Lemma unknown_status_lookup (s : string) :
  ~ known_status s -> HomeworkVerdict !! s = None.
Proof.
  intros H. rewrite HomeworkVerdict_lookup. unfold known_status in H.
  destruct (String.eqb_spec s ApprovedStatus); [tauto|].
  destruct (String.eqb_spec s ReviewingStatus); [tauto|].
  destruct (String.eqb_spec s RejectedStatus); [tauto|].
  reflexivity.
Qed.

Lemma known_status_eqb (s : string) :
  String.eqb s ApprovedStatus || String.eqb s ReviewingStatus
    || String.eqb s RejectedStatus = true <-> known_status s.
Proof.
  unfold known_status. rewrite !orb_true_iff, !String.eqb_eq. tauto.
Qed.

Lemma NoNewStatuses_unknown : ~ known_status NoNewStatuses.
Proof. intros [H|[H|H]]; discriminate H. Qed.

(** ** The translator *)

Lemma MainGo_parseStatus_known (hw : MainGo.Homework) (verdict : string) :
  HomeworkVerdict !! MainGo.Status hw = Some verdict ->
  MainGo.parseStatus hw =
    Done ("Изменился статус проверки работы " +:+ dq +:+ MainGo.Name hw
            +:+ dq +:+ ": " +:+ verdict, None) [].
Proof. intros H. unfold MainGo.parseStatus. rewrite H. reflexivity. Qed.

Lemma MainGo_parseStatus_sentinel (hw : MainGo.Homework) :
  MainGo.Status hw = NoNewStatuses ->
  MainGo.parseStatus hw = Done (NoNewStatuses, None) [Log NoNewStatuses].
Proof.
  intros H. unfold MainGo.parseStatus.
  rewrite H, (unknown_status_lookup _ NoNewStatuses_unknown). reflexivity.
Qed.

Lemma MainGo_parseStatus_unknown (hw : MainGo.Homework) :
  ~ known_status (MainGo.Status hw) ->
  MainGo.Status hw <> NoNewStatuses ->
  let errMsg := "Неизвестный статус домашней работы: " +:+ MainGo.Status hw in
  MainGo.parseStatus hw =
    Done (EmptyString, Some errMsg)
         [Log ("Ошибка при разборе статуса домашней работы: " +:+ errMsg)].
Proof.
  intros Hk Hs. unfold MainGo.parseStatus.
  rewrite (unknown_status_lookup _ Hk).
  destruct (String.eqb_spec (MainGo.Status hw) "Нет новых статусов работ.")
    as [E|_]; [contradiction|reflexivity].
Qed.

Lemma Part000_parseStatus_known (hw : Part000.Homework) (verdict : string) :
  HomeworkVerdict !! Part000.Status hw = Some verdict ->
  Part000.parseStatus hw =
    Done ("Изменился статус проверки работы " +:+ dq +:+ Part000.Name hw
            +:+ dq +:+ " для урока " +:+ dq +:+ Part000.LessonName hw +:+ dq
            +:+ ": " +:+ verdict +:+ newline +:+ "Комментарий ревьюера: "
            +:+ Part000.ReviewerComment hw, None) [].
Proof.
  intros H. unfold Part000.parseStatus.
  destruct (String.eqb (Part000.Status hw) ApprovedStatus
            || String.eqb (Part000.Status hw) ReviewingStatus
            || String.eqb (Part000.Status hw) RejectedStatus) eqn:E.
  - rewrite H. reflexivity.
  - assert (N : ~ known_status (Part000.Status hw))
      by (rewrite <- known_status_eqb, E; discriminate).
    rewrite (unknown_status_lookup _ N) in H. discriminate.
Qed.

Lemma Part000_parseStatus_unknown (hw : Part000.Homework) :
  ~ known_status (Part000.Status hw) ->
  let errMsg := "Неизвестный статус домашней работы: " +:+ Part000.Status hw in
  Part000.parseStatus hw =
    Done (EmptyString, Some errMsg)
         [Log ("Ошибка при разборе статуса домашней работы: " +:+ errMsg)].
Proof.
  intros Hk. unfold Part000.parseStatus.
  destruct (String.eqb (Part000.Status hw) ApprovedStatus
            || String.eqb (Part000.Status hw) ReviewingStatus
            || String.eqb (Part000.Status hw) RejectedStatus) eqn:E.
  - apply known_status_eqb in E. contradiction.
  - reflexivity.
Qed.

(** ** The validator *)

Lemma well_formed_no_defect (v : value) :
  well_formed v <-> element_defect v = None.
Proof.
  split.
  - intros (m & n & st & -> & Hn & Hs). simpl. now rewrite Hn, Hs.
  - destruct v as [| | | | |m]; simpl; try discriminate.
    destruct (m !! "homework_name") as [[| | |n| |]|] eqn:Hn; try discriminate.
    destruct (m !! "status") as [[| | |st| |]|] eqn:Hs; try discriminate.
    intros _. now exists m, n, st.
Qed.

Lemma error_texts_name_field (d : defect) :
  contains (MainGo_error_text d) (defect_field d) = true /\
  contains (Part000_error_text d) (defect_field d) = true.
Proof. destruct d; split; vm_compute; reflexivity. Qed.


Lemma MainGo_range_defect (rest : list value) :
  forall (i : nat) (hs : list MainGo.Homework) (k : nat) (v : value) (d : defect),
    rest !! k = Some v ->
    element_defect v = Some d ->
    (forall j u, (j < k)%nat -> rest !! j = Some u -> element_defect u = None) ->
    MainGo.checkResponse_range i rest hs = inr (MainGo_error_text d).
Proof.
  induction rest as [|x rest IH]; intros i hs k v d Hk Hd Hfirst; [discriminate|].
  destruct k as [|k].
  - simpl in Hk. injection Hk as ->. simpl.
    destruct v as [| | | | |m]; simpl in *; try (injection Hd as <-; reflexivity).
    destruct (m !! "homework_name") as [[| | |n| |]|];
      simpl in *; try (injection Hd as <-; reflexivity).
    destruct (m !! "status") as [[| | |st| |]|];
      simpl in *; try (injection Hd as <-; reflexivity).
    discriminate.
  - simpl in Hk.
    assert (Hx : element_defect x = None) by (apply (Hfirst 0%nat); [lia|reflexivity]).
    apply well_formed_no_defect in Hx. destruct Hx as (m & n & st & -> & Hn & Hs).
    simpl. rewrite Hn, Hs. simpl.
    apply (IH _ _ k v d); auto.
    intros j u Hj Hu. apply (Hfirst (S j)); [lia|exact Hu].
Qed.


Lemma Part000_range_defect (rest : list value) :
  forall (i : nat) (hs : list Part000.Homework) (k : nat) (v : value) (d : defect),
    rest !! k = Some v ->
    element_defect v = Some d ->
    (forall j u, (j < k)%nat -> rest !! j = Some u -> element_defect u = None) ->
    Part000.checkResponse_range i rest hs = inr (Part000_error_text d).
Proof.
  induction rest as [|x rest IH]; intros i hs k v d Hk Hd Hfirst; [discriminate|].
  destruct k as [|k].
  - simpl in Hk. injection Hk as ->. simpl.
    destruct v as [| | | | |m]; simpl in *; try (injection Hd as <-; reflexivity).
    destruct (m !! "homework_name") as [[| | |n| |]|];
      simpl in *; try (injection Hd as <-; reflexivity).
    destruct (m !! "status") as [[| | |st| |]|];
      simpl in *; try (injection Hd as <-; reflexivity).
    discriminate.
  - simpl in Hk.
    assert (Hx : element_defect x = None) by (apply (Hfirst 0%nat); [lia|reflexivity]).
    apply well_formed_no_defect in Hx. destruct Hx as (m & n & st & -> & Hn & Hs).
    simpl. rewrite Hn, Hs. simpl.
    apply (IH _ _ k v d); auto.
    intros j u Hj Hu. apply (Hfirst (S j)); [lia|exact Hu].
Qed.

(** ** The fetcher *)

Lemma requests_app (a b : trace) : requests (a ++ b) = requests a ++ requests b.
Proof. apply omap_app. Qed.

Lemma bot_sends_app (a b : trace) :
  bot_sends (a ++ b) = bot_sends a ++ bot_sends b.
Proof. apply omap_app. Qed.

Lemma posts_app (a b : trace) : posts (a ++ b) = posts a ++ posts b.
Proof. unfold posts. rewrite requests_app. apply filter_app. Qed.

Lemma MainCmd_getAPIAnswer_requests cfg w t :
  requests (events (MainCmd.getAPIAnswer cfg w t)) =
    match new_request_err w "GET" (URL (api_request cfg t)) with
    | None => [api_request cfg t]
    | Some _ => []
    end.
Proof.
  unfold MainCmd.getAPIAnswer. simpl.
  destruct (new_request_err w "GET" _) as [e|]; [reflexivity|].
  fold (api_request cfg t).
  fetch_cases w (api_request cfg t); reflexivity.
Qed.

Lemma MainPoll_getAPIAnswer_requests cfg w t :
  requests (events (MainPoll.getAPIAnswer cfg w t)) =
    match new_request_err w "GET" (URL (api_request cfg t)) with
    | None => [api_request cfg t]
    | Some _ => []
    end.
Proof.
  unfold MainPoll.getAPIAnswer. simpl.
  destruct (new_request_err w "GET" _) as [e|]; [reflexivity|].
  fold (api_request cfg t).
  fetch_cases w (api_request cfg t); reflexivity.
Qed.

Lemma Part000_getAPIAnswer_requests cfg w t :
  let timestamp := if t =? 0 then now_fetch w else wrap64 (t - 3600) in
  requests (events (Part000.getAPIAnswer cfg w t)) =
    match new_request_err w "GET" (URL (api_request cfg timestamp)) with
    | None => [api_request cfg timestamp]
    | Some _ => []
    end.
Proof.
  unfold Part000.getAPIAnswer. simpl.
  set (timestamp := if t =? 0 then now_fetch w else wrap64 (t - 3600)).
  destruct (new_request_err w "GET" _) as [e|]; [reflexivity|].
  fold (api_request cfg timestamp).
  fetch_cases w (api_request cfg timestamp); reflexivity.
Qed.

(** The text [%d] writes for an int64 reads back as that number. *)
Lemma string_of_uint_head (d : Decimal.uint) :
  d <> Decimal.Nil ->
  exists c rest, NilEmpty.string_of_uint d = String c rest /\
                 Ascii.eqb c "-" = false /\ Ascii.eqb c "+" = false.
Proof.
  destruct d; intros H; try congruence; simpl; eexists _, _;
    (split; [reflexivity|split; reflexivity]).
Qed.

Lemma ParseInt_digits (d : Decimal.uint) (neg : bool) :
  d <> Decimal.Nil ->
  let v := if neg then - Z.of_N (N.of_uint d) else Z.of_N (N.of_uint d) in
  min_int64 <= v <= max_int64 ->
  ParseInt ((if neg then "-" else EmptyString) +:+ NilEmpty.string_of_uint d)
    = Some v.
Proof.
  intros Hd v Hv.
  destruct (string_of_uint_head d Hd) as (c & rest & E & Hm & Hp).
  assert (Hr : (min_int64 <=? v) && (v <=? max_int64) = true).
  { apply andb_true_iff. split; apply Z.leb_le; lia. }
  pose proof (NilEmpty.usu d) as Hu.
  revert Hu. rewrite E. intros Hu.
  unfold ParseInt. destruct neg.
  - change ("-" +:+ String c rest) with (String "-" (String c rest)).
    cbv iota beta. rewrite Ascii.eqb_refl, Hu. fold v. now rewrite Hr.
  - change (EmptyString +:+ String c rest) with (String c rest).
    cbv iota beta. rewrite Hm, Hp, Hu. fold v. now rewrite Hr.
Qed.

Lemma string_of_uint_nonnil (d : Decimal.uint) :
  d <> Decimal.Nil -> NilZero.string_of_uint d = NilEmpty.string_of_uint d.
Proof. destruct d; [congruence|reflexivity..]. Qed.

Lemma ParseInt_fmt_d (z : Z) :
  min_int64 <= z <= max_int64 -> ParseInt (fmt_d z) = Some z.
Proof.
  intros Hz. destruct z as [|p|p].
  - reflexivity.
  - assert (Hd : Pos.to_uint p <> Decimal.Nil)
      by apply DecimalPos.Unsigned.to_uint_nonnil.
    unfold fmt_d. simpl.
    rewrite (string_of_uint_nonnil _ Hd).
    change (NilEmpty.string_of_uint (Pos.to_uint p))
      with (EmptyString +:+ NilEmpty.string_of_uint (Pos.to_uint p)).
    rewrite (ParseInt_digits _ false Hd).
    + unfold N.of_uint. now rewrite DecimalPos.Unsigned.of_to.
    + unfold N.of_uint. rewrite DecimalPos.Unsigned.of_to. exact Hz.
  - assert (Hd : Pos.to_uint p <> Decimal.Nil)
      by apply DecimalPos.Unsigned.to_uint_nonnil.
    unfold fmt_d. simpl.
    rewrite (string_of_uint_nonnil _ Hd).
    change (String "-" (NilEmpty.string_of_uint (Pos.to_uint p)))
      with ("-" +:+ NilEmpty.string_of_uint (Pos.to_uint p)).
    rewrite (ParseInt_digits _ true Hd).
    + unfold N.of_uint. now rewrite DecimalPos.Unsigned.of_to.
    + unfold N.of_uint. rewrite DecimalPos.Unsigned.of_to. exact Hz.
Qed.

Lemma MainCmd_getAPIAnswer_answers cfg w t payload :
  answers w payload ->
  MainCmd.getAPIAnswer cfg w t =
    Done (payload, None)
         [HttpDo (api_request cfg t); Log "Успешно получен ответ от API"].
Proof.
  intros [Hnew Hdo]. unfold MainCmd.getAPIAnswer. rewrite Hnew.
  fold (api_request cfg t).
  destruct (Hdo (api_request cfg t) eq_refl) as (resp & -> & Hc & Hd & Hcl).
  simpl. rewrite Hc, Hd, Hcl. reflexivity.
Qed.

Lemma MainPoll_getAPIAnswer_answers cfg w t payload :
  answers w payload ->
  MainPoll.getAPIAnswer cfg w t =
    Done (payload, None) [HttpDo (api_request cfg t)].
Proof.
  intros [Hnew Hdo]. unfold MainPoll.getAPIAnswer. rewrite Hnew.
  fold (api_request cfg t).
  destruct (Hdo (api_request cfg t) eq_refl) as (resp & -> & Hc & Hd & Hcl).
  simpl. rewrite Hc, Hd. reflexivity.
Qed.


(** A fetch never panics, sends nothing and posts nothing. *)
Lemma MainCmd_getAPIAnswer_quiet cfg w t :
  exists r tr, MainCmd.getAPIAnswer cfg w t = Done r tr /\
               posts tr = [] /\ bot_sends tr = [].
Proof.
  unfold MainCmd.getAPIAnswer.
  destruct (new_request_err w "GET" _) as [e|]; [now eexists _, _|].
  fold (api_request cfg t).
  fetch_cases w (api_request cfg t); now eexists _, _.
Qed.

Lemma MainPoll_getAPIAnswer_quiet cfg w t :
  exists r tr, MainPoll.getAPIAnswer cfg w t = Done r tr /\
               posts tr = [] /\ bot_sends tr = [].
Proof.
  unfold MainPoll.getAPIAnswer.
  destruct (new_request_err w "GET" _) as [e|]; [now eexists _, _|].
  fold (api_request cfg t).
  fetch_cases w (api_request cfg t); now eexists _, _.
Qed.

Lemma Part000_getAPIAnswer_quiet cfg w t :
  exists r tr, Part000.getAPIAnswer cfg w t = Done r tr /\
               posts tr = [] /\ bot_sends tr = [] /\ logs tr = [].
Proof.
  unfold Part000.getAPIAnswer.
  set (ts := if t =? 0 then now_fetch w else wrap64 (t - 3600)).
  destruct (new_request_err w "GET" _) as [e|]; [now eexists _, _|].
  fold (api_request cfg ts).
  fetch_cases w (api_request cfg ts); now eexists _, _.
Qed.

(** ** The notifier of the polling program *)

Lemma MainPoll_sendMessage_cases cfg w message :
  match new_request_err w "POST" (telegram_url cfg) with
  | Some e => MainPoll.sendMessage cfg w message = Done (Some e) []
  | None =>
      exists e, MainPoll.sendMessage cfg w message =
                  Done e [HttpDo (post_request cfg message)]
  end.
Proof.
  unfold MainPoll.sendMessage. fold (telegram_url cfg).
  destruct (new_request_err w "POST" _) as [e|]; [reflexivity|].
  fold (post_request cfg message).
  destruct (client_do w (post_request cfg message)) as [resp|e]; simpl.
  - destruct (StatusCode resp =? http_StatusOK); simpl; now eexists.
  - now eexists.
Qed.

Lemma MainPoll_sendMessage_posts cfg w message :
  exists e tr, MainPoll.sendMessage cfg w message = Done e tr /\
    requests tr = posts tr /\
    posts tr = match new_request_err w "POST" (telegram_url cfg) with
               | Some _ => []
               | None => [post_request cfg message]
               end.
Proof.
  pose proof (MainPoll_sendMessage_cases cfg w message) as H.
  destruct (new_request_err w "POST" _) as [e|].
  - rewrite H. now eexists _, _.
  - destruct H as [e ->]. now eexists _, _.
Qed.

(** ** One iteration of [runBot] *)

Lemma MainGo_parseStatus_total (hw : MainGo.Homework) :
  exists p tr, MainGo.parseStatus hw = Done p tr /\ requests tr = [].
Proof.
  unfold MainGo.parseStatus.
  destruct (HomeworkVerdict !! MainGo.Status hw); [now eexists _, _|].
  destruct (String.eqb _ _); now eexists _, _.
Qed.

Section RunBotIter.
Variables (cfg : Config) (w : World) (st : MainPoll.LoopState).
Variables (response : gmap string value) (tr0 : trace).
Hypothesis Hfetch :
  MainPoll.getAPIAnswer cfg w (MainPoll.currentTimestamp st)
    = Done (response, None) tr0.

Lemma MainPoll_iter_panic :
  as_float64 (response !! "current_date") = None ->
  MainPoll.runBot_iter cfg w st = Panic tr0.
Proof.
  intros Hf. unfold MainPoll.runBot_iter. rewrite Hfetch. run.
  unfold must_float64. rewrite Hf. run. now rewrite app_nil_r.
Qed.

Variable f : spec_float.
Hypothesis Hdate : as_float64 (response !! "current_date") = Some f.

Lemma MainPoll_iter_schema_error hs err :
  MainGo.checkResponse response = (hs, Some err) ->
  MainPoll.runBot_iter cfg w st =
    Done {| MainPoll.currentTimestamp := int64_of_float64 f;
            MainPoll.currentReport := MainPoll.currentReport st;
            MainPoll.prevReport := MainPoll.prevReport st |}
         (tr0 ++ [Log ("Неверный ответ от API: " +:+ err);
                  Sleep MainGo.RetryPeriod]).
Proof.
  intros Hc. unfold MainPoll.runBot_iter. rewrite Hfetch. run.
  unfold must_float64. rewrite Hdate. run. rewrite Hc. reflexivity.
Qed.

Lemma MainPoll_iter_same hs :
  MainGo.checkResponse response = (hs, None) ->
  MainGo.Status (MainPoll.report_of hs)
    = MainGo.Status (MainPoll.prevReport st) ->
  MainPoll.runBot_iter cfg w st =
    Done {| MainPoll.currentTimestamp := int64_of_float64 f;
            MainPoll.currentReport := MainPoll.report_of hs;
            MainPoll.prevReport := MainPoll.prevReport st |}
         (tr0 ++ [Sleep MainGo.RetryPeriod]).
Proof.
  intros Hc Hs. unfold MainPoll.runBot_iter. rewrite Hfetch. run.
  unfold must_float64. rewrite Hdate. run. rewrite Hc.
  rewrite Hs, String.eqb_refl. reflexivity.
Qed.

Lemma MainPoll_iter_changed hs :
  MainGo.checkResponse response = (hs, None) ->
  MainGo.Status (MainPoll.report_of hs)
    <> MainGo.Status (MainPoll.prevReport st) ->
  exists p trp tr',
    MainGo.parseStatus (MainPoll.report_of hs) = Done p trp /\
    MainPoll.runBot_iter cfg w st =
      Done {| MainPoll.currentTimestamp := int64_of_float64 f;
              MainPoll.currentReport := MainPoll.report_of hs;
              MainPoll.prevReport := MainPoll.report_of hs |}
           (tr0 ++ tr' ++ [Sleep MainGo.RetryPeriod]) /\
    posts tr' =
      match p.2, new_request_err w "POST" (telegram_url cfg) with
      | None, None => [post_request cfg p.1]
      | _, _ => []
      end.
Proof.
  intros Hc Hs. unfold MainPoll.runBot_iter. rewrite Hfetch. run.
  unfold must_float64. rewrite Hdate. run. rewrite Hc.
  apply String.eqb_neq in Hs. rewrite Hs. cbn [negb].
  destruct (MainGo_parseStatus_total (MainPoll.report_of hs))
    as ([message perr] & trp & Hp & Hreq).
  exists (message, perr), trp. rewrite Hp. run.
  assert (Hposts : posts trp = []) by (unfold posts; now rewrite Hreq).
  destruct perr as [err|]; run.
  - exists (trp ++ [Log ("Ошибка при разборе статуса домашней работы: " +:+ err)]).
    split; [reflexivity|]. split; [reflexivity|].
    rewrite posts_app, Hposts. reflexivity.
  - pose proof (MainPoll_sendMessage_cases cfg w message) as Hsend.
    destruct (new_request_err w "POST" (telegram_url cfg)) as [e|].
    + rewrite Hsend. run.
      exists (trp ++ [Log ("Ошибка при отправке сообщения: " +:+ e)]).
      split; [reflexivity|]. split; [reflexivity|].
      rewrite posts_app, Hposts. reflexivity.
    + destruct Hsend as [e ->]. destruct e as [err|]; run.
      * exists (trp ++ [HttpDo (post_request cfg message);
                        Log ("Ошибка при отправке сообщения: " +:+ err)]).
        split; [reflexivity|]. split; [reflexivity|].
        rewrite posts_app, Hposts. reflexivity.
      * exists (trp ++ [HttpDo (post_request cfg message)]).
        split; [reflexivity|]. split; [reflexivity|].
        rewrite posts_app, Hposts. reflexivity.
Qed.

End RunBotIter.

Lemma MainPoll_iter_fetch_error cfg w st r err tr0 :
  MainPoll.getAPIAnswer cfg w (MainPoll.currentTimestamp st)
    = Done (r, Some err) tr0 ->
  MainPoll.runBot_iter cfg w st =
    Done st (tr0 ++ [Log ("Не удалось получить ответ от API: " +:+ err);
                     Sleep MainGo.RetryPeriod]).
Proof.
  intros H. unfold MainPoll.runBot_iter. rewrite H. reflexivity.
Qed.

(** ** One call of [fetchAPIResponse] *)

Lemma Part000_parseStatus_cases (hw : Part000.Homework) :
  (exists message, Part000.parseStatus hw = Done (message, None) []) \/
  (exists err l, Part000.parseStatus hw = Done (EmptyString, Some err) [Log l]).
Proof.
  unfold Part000.parseStatus.
  destruct (_ || _); [left; now eexists|right; now eexists _, _].
Qed.

Section FetchAPIResponse.
Variables (cfg : Config) (w : World) (lastSentMessage : string).
Variables (response : gmap string value) (tr0 : trace).
Hypothesis Hfetch :
  Part000.getAPIAnswer cfg w (now w) = Done (response, None) tr0.

Lemma Part000_fetch_panic :
  as_float64 (response !! "current_date") = None ->
  Part000.fetchAPIResponse cfg w lastSentMessage = Panic tr0.
Proof.
  intros Hf. unfold Part000.fetchAPIResponse. rewrite Hfetch. run.
  unfold must_float64. rewrite Hf. run. now rewrite app_nil_r.
Qed.

Variable f : spec_float.
Hypothesis Hdate : as_float64 (response !! "current_date") = Some f.

Ltac enter :=
  unfold Part000.fetchAPIResponse; rewrite Hfetch; run;
  unfold must_float64; rewrite Hdate; run.

Lemma Part000_fetch_schema_error hs err :
  Part000.checkResponse response = (hs, Some err) ->
  Part000.fetchAPIResponse cfg w lastSentMessage =
    Done (None, Some err, lastSentMessage)
         (tr0 ++ [Log ("Неверный ответ от API: " +:+ err)]).
Proof. intros Hc. enter. rewrite Hc. reflexivity. Qed.

Lemma Part000_fetch_empty :
  Part000.checkResponse response = (Some [], None) ->
  Part000.fetchAPIResponse cfg w lastSentMessage =
    Done (Some [], None, lastSentMessage)
         (tr0 ++ [Log "Результат запроса к API: Нет новых статусов работ."]).
Proof. intros Hc. enter. rewrite Hc. reflexivity. Qed.

Lemma Part000_fetch_unknown hw rest err l :
  Part000.checkResponse response = (Some (hw :: rest), None) ->
  Part000.parseStatus hw = Done (EmptyString, Some err) [Log l] ->
  Part000.fetchAPIResponse cfg w lastSentMessage =
    Done (None, Some err, lastSentMessage) (tr0 ++ [Log l]).
Proof. intros Hc Hp. enter. rewrite Hc, Hp. reflexivity. Qed.

Lemma Part000_fetch_unchanged hw rest :
  Part000.checkResponse response = (Some (hw :: rest), None) ->
  Part000.parseStatus hw = Done (lastSentMessage, None) [] ->
  Part000.fetchAPIResponse cfg w lastSentMessage =
    Done (Some (hw :: rest), None, lastSentMessage) tr0.
Proof.
  intros Hc Hp. enter. rewrite Hc, Hp. run.
  rewrite String.eqb_refl. cbn [negb]. run. now rewrite app_nil_r.
Qed.

Lemma Part000_fetch_bad_chat hw rest message :
  Part000.checkResponse response = (Some (hw :: rest), None) ->
  Part000.parseStatus hw = Done (message, None) [] ->
  message <> lastSentMessage ->
  ParseInt (TelegramChatID cfg) = None ->
  let err := num_error w (TelegramChatID cfg) in
  Part000.fetchAPIResponse cfg w lastSentMessage =
    Done (None, Some err, lastSentMessage)
         (tr0 ++ [Log ("Ошибка при преобразовании TelegramChatID в int64: "
                         +:+ err)]).
Proof.
  intros Hc Hp Hne Hid. enter. rewrite Hc, Hp. run.
  apply String.eqb_neq in Hne. rewrite Hne, Hid. reflexivity.
Qed.

Lemma Part000_fetch_send_failed hw rest message chatID err :
  Part000.checkResponse response = (Some (hw :: rest), None) ->
  Part000.parseStatus hw = Done (message, None) [] ->
  message <> lastSentMessage ->
  ParseInt (TelegramChatID cfg) = Some chatID ->
  bot_send w chatID message = Some err ->
  Part000.fetchAPIResponse cfg w lastSentMessage =
    Done (Some (hw :: rest), None, lastSentMessage)
         (tr0 ++ [BotSend chatID message;
                  Log ("Ошибка при отправке сообщения в Telegram: " +:+ err)]).
Proof.
  intros Hc Hp Hne Hid Hs. enter. rewrite Hc, Hp. run.
  apply String.eqb_neq in Hne. rewrite Hne, Hid. cbn [negb].
  unfold Part000.sendMessage. run. rewrite Hs. reflexivity.
Qed.

Lemma Part000_fetch_sent hw rest message chatID :
  Part000.checkResponse response = (Some (hw :: rest), None) ->
  Part000.parseStatus hw = Done (message, None) [] ->
  message <> lastSentMessage ->
  ParseInt (TelegramChatID cfg) = Some chatID ->
  bot_send w chatID message = None ->
  Part000.fetchAPIResponse cfg w lastSentMessage =
    Done (Some (hw :: rest), None, message)
         (tr0 ++ [BotSend chatID message;
                  Log ("Сообщение отправлено в Telegram: " +:+ message)]).
Proof.
  intros Hc Hp Hne Hid Hs. enter. rewrite Hc, Hp. run.
  apply String.eqb_neq in Hne. rewrite Hne, Hid. cbn [negb].
  unfold Part000.sendMessage. run. rewrite Hs. reflexivity.
Qed.

End FetchAPIResponse.

Lemma Part000_fetch_error cfg w last r err tr0 :
  Part000.getAPIAnswer cfg w (now w) = Done (r, Some err) tr0 ->
  Part000.fetchAPIResponse cfg w last =
    Done (None, Some err, last)
         (tr0 ++ [Log ("Не удалось получить ответ от API: " +:+ err)]).
Proof.
  intros H. unfold Part000.fetchAPIResponse. rewrite H. reflexivity.
Qed.

Lemma Part000_checkResponse_shape (response : gmap string value) :
  (exists err, Part000.checkResponse response = (None, Some err)) \/
  (exists hs, Part000.checkResponse response = (Some hs, None)).
Proof.
  unfold Part000.checkResponse.
  destruct (as_slice _); [|left; now eexists].
  destruct (Part000.checkResponse_range _ _ _); [right|left]; now eexists.
Qed.

Lemma MainGo_checkResponse_shape (response : gmap string value) :
  (exists err, MainGo.checkResponse response = (None, Some err)) \/
  (exists hs, MainGo.checkResponse response = (Some hs, None)).
Proof.
  unfold MainGo.checkResponse.
  destruct (as_slice _); [|left; now eexists].
  destruct (MainGo.checkResponse_range _ _ _); [right|left]; now eexists.
Qed.

(** ** The [status] command *)

Lemma MainCmd_handleStatus_panic cfg w msg response tr0 :
  MainCmd.getAPIAnswer cfg w (now w) = Done (response, None) tr0 ->
  as_float64 (response !! "current_date") = None ->
  MainCmd.handleStatus cfg w msg = Panic tr0.
Proof.
  intros Hfetch Hf. unfold MainCmd.handleStatus. rewrite Hfetch. run.
  unfold must_float64. rewrite Hf. run. now rewrite app_nil_r.
Qed.

Lemma Part000_handleStatus_panic cfg w msg response tr0 :
  Part000.getAPIAnswer cfg w (now w) = Done (response, None) tr0 ->
  as_float64 (response !! "current_date") = None ->
  Part000.handleStatus cfg w msg = Panic tr0.
Proof.
  intros Hfetch Hf. unfold Part000.handleStatus. rewrite Hfetch. run.
  unfold must_float64. rewrite Hf. run. now rewrite app_nil_r.
Qed.

Lemma MainPoll_iter_total cfg w st response tr0 f :
  MainPoll.getAPIAnswer cfg w (MainPoll.currentTimestamp st)
    = Done (response, None) tr0 ->
  as_float64 (response !! "current_date") = Some f ->
  panics (MainPoll.runBot_iter cfg w st) = false.
Proof.
  intros Hfetch Hf.
  destruct (MainGo_checkResponse_shape response) as [[err Hc]|[hs Hc]].
  - now rewrite (MainPoll_iter_schema_error _ _ _ _ _ Hfetch _ Hf _ _ Hc).
  - destruct (String.eqb_spec (MainGo.Status (MainPoll.report_of (Some hs)))
                (MainGo.Status (MainPoll.prevReport st))) as [E|E].
    + now rewrite (MainPoll_iter_same _ _ _ _ _ Hfetch _ Hf _ Hc E).
    + destruct (MainPoll_iter_changed _ _ _ _ _ Hfetch _ Hf _ Hc E)
        as (p & trp & tr' & _ & -> & _).
      reflexivity.
Qed.

Lemma Part000_fetch_total cfg w last response tr0 f :
  Part000.getAPIAnswer cfg w (now w) = Done (response, None) tr0 ->
  as_float64 (response !! "current_date") = Some f ->
  panics (Part000.fetchAPIResponse cfg w last) = false.
Proof.
  intros Hfetch Hf.
  destruct (Part000_checkResponse_shape response) as [[err Hc]|[hs Hc]].
  { now rewrite (Part000_fetch_schema_error _ _ _ _ _ Hfetch _ Hf _ _ Hc). }
  destruct hs as [|hw rest].
  { now rewrite (Part000_fetch_empty _ _ _ _ _ Hfetch _ Hf Hc). }
  destruct (Part000_parseStatus_cases hw) as [[message Hp]|(err & l & Hp)].
  2: now rewrite (Part000_fetch_unknown _ _ _ _ _ Hfetch _ Hf _ _ _ _ Hc Hp).
  destruct (String.eqb_spec message last) as [->|Hne].
  { now rewrite (Part000_fetch_unchanged _ _ _ _ _ Hfetch _ Hf _ _ Hc Hp). }
  destruct (ParseInt (TelegramChatID cfg)) as [chatID|] eqn:Hid.
  2: now rewrite (Part000_fetch_bad_chat _ _ _ _ _ Hfetch _ Hf _ _ _ Hc Hp Hne Hid).
  destruct (bot_send w chatID message) as [err|] eqn:Hs.
  - now rewrite (Part000_fetch_send_failed _ _ _ _ _ Hfetch _ Hf
                   _ _ _ _ _ Hc Hp Hne Hid Hs).
  - now rewrite (Part000_fetch_sent _ _ _ _ _ Hfetch _ Hf
                   _ _ _ _ Hc Hp Hne Hid Hs).
Qed.

Lemma world_of_answers (payload : gmap string value) :
  answers (Samples.world_of payload) payload.
Proof. split; [reflexivity|]. intros req _. now eexists. Qed.

Lemma world_send_fails_answers (payload : gmap string value) :
  answers (Samples.world_send_fails payload) payload.
Proof.
  split; [reflexivity|]. intros req H. simpl. rewrite H. now eexists.
Qed.

(** ** The claims about the translator *)

Lemma append_empty_r (s : string) : s +:+ EmptyString = s.
Proof.
  induction s as [|c s IH]; [reflexivity|].
  change (String c (s +:+ EmptyString) = String c s). now rewrite IH.
Qed.

Lemma contains_end (a sub : string) : contains (a +:+ sub) sub = true.
Proof. rewrite <- (append_empty_r sub) at 1. apply contains_app. Qed.

Lemma MainGo_message_contains (name verdict : string) :
  let message := "Изменился статус проверки работы " +:+ dq +:+ name
                   +:+ dq +:+ ": " +:+ verdict in
  contains message name = true /\ contains message verdict = true.
Proof.
  split.
  - rewrite <- app_assoc_s. apply contains_app.
  - rewrite <- !app_assoc_s. apply contains_end.
Qed.

Lemma Part000_message_contains (name lesson verdict comment : string) :
  let message := "Изменился статус проверки работы " +:+ dq +:+ name +:+ dq
                   +:+ " для урока " +:+ dq +:+ lesson +:+ dq +:+ ": "
                   +:+ verdict +:+ newline +:+ "Комментарий ревьюера: "
                   +:+ comment in
  contains message name = true /\ contains message verdict = true.
Proof.
  split.
  - rewrite <- app_assoc_s. apply contains_app.
  - rewrite <- 8!app_assoc_s. apply contains_app.
Qed.

(** C5. For a status among approved, reviewing, rejected, [parseStatus]
    returns no error and a message that contains the homework's name and the
    verdict the table [HomeworkVerdict] maps the status to; for a status
    outside the set and other than the no-new-statuses text it returns an
    error and the empty message.  This holds of the [parseStatus] of
    src/main.go and of src/unnamed/part_000. *)
Theorem C5_parseStatus_verdict_or_error :
  (forall hw : MainGo.Homework,
     (known_status (MainGo.Status hw) ->
      exists verdict message,
        HomeworkVerdict !! MainGo.Status hw = Some verdict /\
        MainGo.parseStatus hw = Done (message, None) [] /\
        contains message (MainGo.Name hw) = true /\
        contains message verdict = true) /\
     (~ known_status (MainGo.Status hw) ->
      MainGo.Status hw <> NoNewStatuses ->
      exists err tr,
        MainGo.parseStatus hw = Done (EmptyString, Some err) tr)) /\
  (forall hw : Part000.Homework,
     (known_status (Part000.Status hw) ->
      exists verdict message,
        HomeworkVerdict !! Part000.Status hw = Some verdict /\
        Part000.parseStatus hw = Done (message, None) [] /\
        contains message (Part000.Name hw) = true /\
        contains message verdict = true) /\
     (~ known_status (Part000.Status hw) ->
      Part000.Status hw <> NoNewStatuses ->
      exists err tr,
        Part000.parseStatus hw = Done (EmptyString, Some err) tr)).
Proof.
  split; intros hw; split.
  - intros Hk. destruct (known_status_lookup _ Hk) as [verdict Hv].
    exists verdict. eexists. split; [exact Hv|].
    split; [apply (MainGo_parseStatus_known hw verdict Hv)|].
    apply MainGo_message_contains.
  - intros Hk Hs. eexists _, _. apply (MainGo_parseStatus_unknown hw Hk Hs).
  - intros Hk. destruct (known_status_lookup _ Hk) as [verdict Hv].
    exists verdict. eexists. split; [exact Hv|].
    split; [apply (Part000_parseStatus_known hw verdict Hv)|].
    apply Part000_message_contains.
  - intros Hk _. eexists _, _. apply (Part000_parseStatus_unknown hw Hk).
Qed.

Lemma bogus_unknown : ~ known_status "bogus".
Proof. intros [H|[H|H]]; discriminate H. Defined.

Lemma bogus_not_sentinel : "bogus" <> NoNewStatuses.
Proof. discriminate. Defined.

Lemma C5_witness :
  (exists verdict message,
     HomeworkVerdict !! "approved" = Some verdict /\
     MainGo.parseStatus {| MainGo.Name := "hw1"; MainGo.Status := "approved" |}
       = Done (message, None) [] /\
     contains message "hw1" = true /\
     contains message verdict = true) /\
  (exists err tr,
     MainGo.parseStatus {| MainGo.Name := "hw1"; MainGo.Status := "bogus" |}
       = Done (EmptyString, Some err) tr).
Proof.
  split.
  - exact (proj1 (proj1 C5_parseStatus_verdict_or_error
                    {| MainGo.Name := "hw1"; MainGo.Status := "approved" |})
                 (or_introl eq_refl)).
  - exact (proj2 (proj1 C5_parseStatus_verdict_or_error
                    {| MainGo.Name := "hw1"; MainGo.Status := "bogus" |})
                 bogus_unknown bogus_not_sentinel).
Defined.

(** C3, as the code has it.  In the two programs of src/main.go
    [parseStatus] returns the no-new-statuses text verbatim and no error when
    that text is the status, and an error for every other status outside
    approved, reviewing, rejected.  In src/unnamed/part_000 [parseStatus] has
    no case for that text: every status outside the three, that text
    included, is an error. *)
Theorem C3_parseStatus_sentinel :
  (forall hw : MainGo.Homework,
     MainGo.Status hw = NoNewStatuses ->
     MainGo.parseStatus hw = Done (NoNewStatuses, None) [Log NoNewStatuses]) /\
  (forall hw : MainGo.Homework,
     ~ known_status (MainGo.Status hw) ->
     MainGo.Status hw <> NoNewStatuses ->
     exists err tr, MainGo.parseStatus hw = Done (EmptyString, Some err) tr) /\
  (forall hw : Part000.Homework,
     ~ known_status (Part000.Status hw) ->
     exists err tr, Part000.parseStatus hw = Done (EmptyString, Some err) tr).
Proof.
  split; [|split].
  - apply MainGo_parseStatus_sentinel.
  - intros hw Hk Hs. eexists _, _. apply (MainGo_parseStatus_unknown hw Hk Hs).
  - intros hw Hk. eexists _, _. apply (Part000_parseStatus_unknown hw Hk).
Qed.

Lemma C3_witness :
  MainGo.parseStatus {| MainGo.Name := EmptyString;
                        MainGo.Status := NoNewStatuses |}
    = Done (NoNewStatuses, None) [Log NoNewStatuses] /\
  (exists err tr,
     Part000.parseStatus
       {| Part000.Name := "hw1"; Part000.Status := "bogus";
          Part000.ReviewerComment := EmptyString;
          Part000.LessonName := EmptyString |}
       = Done (EmptyString, Some err) tr).
Proof.
  split.
  - exact (proj1 C3_parseStatus_sentinel
             {| MainGo.Name := EmptyString; MainGo.Status := NoNewStatuses |}
             eq_refl).
  - exact (proj2 (proj2 C3_parseStatus_sentinel)
             {| Part000.Name := "hw1"; Part000.Status := "bogus";
                Part000.ReviewerComment := EmptyString;
                Part000.LessonName := EmptyString |}
             bogus_unknown).
Defined.

(** In src/unnamed/part_000 the no-new-statuses text is an unknown status. *)
Lemma C3_counterexample :
  Part000.parseStatus
    {| Part000.Name := "hw1"; Part000.Status := NoNewStatuses;
       Part000.ReviewerComment := EmptyString;
       Part000.LessonName := EmptyString |}
  = Done (EmptyString,
          Some "Неизвестный статус домашней работы: Нет новых статусов работ.")
         [Log "Ошибка при разборе статуса домашней работы: Неизвестный статус домашней работы: Нет новых статусов работ."].
Proof. reflexivity. Qed.

(** ** The claims about the validator *)





Lemma first_defect (l : list value) :
  ~ Forall well_formed l ->
  exists k v d,
    l !! k = Some v /\ element_defect v = Some d /\
    forall j u, (j < k)%nat -> l !! j = Some u -> element_defect u = None.
Proof.
  induction l as [|x l IH]; intros H.
  - destruct H. constructor.
  - destruct (element_defect x) as [d|] eqn:Hx.
    + exists 0%nat, x, d. repeat split; auto. intros j u Hj. lia.
    + destruct IH as (k & v & d & Hk & Hd & Hfirst).
      { intros Hl. apply H. constructor; [now apply well_formed_no_defect|auto]. }
      exists (S k), v, d. repeat split; auto.
      intros [|j] u Hj Hu.
      * simpl in Hu. now injection Hu as <-.
      * apply (Hfirst j u); [lia|exact Hu].
Qed.

(** C7. When [homeworks] is missing or not a list, [checkResponse] returns
    the nil slice and the error about [homeworks]; when some element of the
    list is not an object, or lacks a string [homework_name] or a string
    [status], it returns the nil slice and the error about the first thing
    wrong with the first such element.  Each error text quotes the name of
    the field it is about. *)
Theorem C7_checkResponse_first_defect :
  forall response : gmap string value,
    (as_slice (response !! "homeworks") = None ->
     MainGo.checkResponse response
       = (None, Some (MainGo_error_text HomeworksNotList)) /\
     Part000.checkResponse response
       = (None, Some (Part000_error_text HomeworksNotList))) /\
    (forall l k v d,
       response !! "homeworks" = Some (VSlice l) ->
       l !! k = Some v ->
       element_defect v = Some d ->
       (forall j u, (j < k)%nat -> l !! j = Some u -> element_defect u = None) ->
       MainGo.checkResponse response = (None, Some (MainGo_error_text d)) /\
       Part000.checkResponse response = (None, Some (Part000_error_text d))) /\
    (forall l,
       response !! "homeworks" = Some (VSlice l) ->
       ~ Forall well_formed l ->
       exists d,
         MainGo.checkResponse response = (None, Some (MainGo_error_text d)) /\
         Part000.checkResponse response = (None, Some (Part000_error_text d))) /\
    (forall d,
       contains (MainGo_error_text d) (defect_field d) = true /\
       contains (Part000_error_text d) (defect_field d) = true).
Proof.
  intros response.
  assert (Hdefect : forall l k v d,
    response !! "homeworks" = Some (VSlice l) ->
    l !! k = Some v ->
    element_defect v = Some d ->
    (forall j u, (j < k)%nat -> l !! j = Some u -> element_defect u = None) ->
    MainGo.checkResponse response = (None, Some (MainGo_error_text d)) /\
    Part000.checkResponse response = (None, Some (Part000_error_text d))).
  { intros l k v d Hl Hk Hd Hfirst.
    unfold MainGo.checkResponse, Part000.checkResponse.
    rewrite Hl. cbn [as_slice].
    rewrite (MainGo_range_defect l _ _ k v d Hk Hd Hfirst).
    rewrite (Part000_range_defect l _ _ k v d Hk Hd Hfirst).
    split; reflexivity. }
  split; [|split; [exact Hdefect|split]].
  - intros H. unfold MainGo.checkResponse, Part000.checkResponse.
    rewrite H. split; reflexivity.
  - intros l Hl Hwf.
    destruct (first_defect l Hwf) as (k & v & d & Hk & Hd & Hfirst).
    exists d. apply (Hdefect l k v d Hl Hk Hd Hfirst).
  - apply error_texts_name_field.
Qed.

Lemma bad_list_first :
  forall j u, (j < 1)%nat -> SamplesBad.bad_list !! j = Some u ->
              element_defect u = None.
Proof.
  intros [|j] u Hj Hu.
  - injection Hu as <-. reflexivity.
  - exfalso. apply (Nat.nlt_0_r j). apply Nat.succ_lt_mono. exact Hj.
Defined.

Lemma C7_witness :
  (MainGo.checkResponse ∅
     = (None, Some (MainGo_error_text HomeworksNotList)) /\
   Part000.checkResponse ∅
     = (None, Some (Part000_error_text HomeworksNotList))) /\
  (MainGo.checkResponse SamplesBad.payload_bad
     = (None, Some (MainGo_error_text StatusNotString)) /\
   Part000.checkResponse SamplesBad.payload_bad
     = (None, Some (Part000_error_text StatusNotString))).
Proof.
  split.
  - exact (proj1 (C7_checkResponse_first_defect ∅) eq_refl).
  - exact (proj1 (proj2 (C7_checkResponse_first_defect SamplesBad.payload_bad))
             SamplesBad.bad_list 1%nat _ StatusNotString
             eq_refl eq_refl eq_refl bad_list_first).
Defined.

(** ** The claim about the request of the fetcher *)

(** C8, as the code has it.  [getAPIAnswer] issues at most one request, and
    none when [http.NewRequest] fails.  In the two programs of src/main.go
    the request is GET endpoint?from_date=t with the header Authorization:
    OAuth token, for the timestamp t it is given.  In src/unnamed/part_000
    the from_date is t - 3600 (in int64) when t is not 0 and the current Unix
    time when t is 0; the method, endpoint and header are the same.  The
    decimal text written for an int64 reads back as that number. *)
Theorem C8_getAPIAnswer_request :
  forall (cfg : Config) (w : World) (t : Z),
    requests (events (MainCmd.getAPIAnswer cfg w t)) =
      match new_request_err w "GET" (URL (api_request cfg t)) with
      | None => [api_request cfg t]
      | Some _ => []
      end /\
    requests (events (MainPoll.getAPIAnswer cfg w t)) =
      match new_request_err w "GET" (URL (api_request cfg t)) with
      | None => [api_request cfg t]
      | Some _ => []
      end /\
    (let timestamp := if t =? 0 then now_fetch w else wrap64 (t - 3600) in
     requests (events (Part000.getAPIAnswer cfg w t)) =
       match new_request_err w "GET" (URL (api_request cfg timestamp)) with
       | None => [api_request cfg timestamp]
       | Some _ => []
       end) /\
    (min_int64 <= t <= max_int64 -> ParseInt (fmt_d t) = Some t).
Proof.
  intros cfg w t. repeat split.
  - apply MainCmd_getAPIAnswer_requests.
  - apply MainPoll_getAPIAnswer_requests.
  - apply Part000_getAPIAnswer_requests.
  - apply ParseInt_fmt_d.
Qed.

Lemma int64_5000 : min_int64 <= 5000 <= max_int64.
Proof. split; discriminate. Defined.

Lemma C8_witness :
  requests (events (MainPoll.getAPIAnswer Samples.cfg0
                      (Samples.world_of Samples.payload_hw1) 5000))
    = [api_request Samples.cfg0 5000] /\
  ParseInt (fmt_d 5000) = Some 5000.
Proof.
  split.
  - exact (proj1 (proj2 (C8_getAPIAnswer_request Samples.cfg0
                           (Samples.world_of Samples.payload_hw1) 5000))).
  - exact (proj2 (proj2 (proj2 (C8_getAPIAnswer_request Samples.cfg0
                           (Samples.world_of Samples.payload_hw1) 5000)))
             int64_5000).
Defined.

(** In src/unnamed/part_000 a fetch for the timestamp 5000 asks for
    from_date=1400. *)
Lemma C8_counterexample :
  requests (events (Part000.getAPIAnswer Samples.cfg0
                      (Samples.world_of Samples.payload_hw1) 5000))
    = [api_request Samples.cfg0 1400] /\
  URL (api_request Samples.cfg0 1400)
    = "https://practicum.yandex.ru/api/user_api/homework_statuses/?from_date=1400" /\
  URL (api_request Samples.cfg0 5000)
    = "https://practicum.yandex.ru/api/user_api/homework_statuses/?from_date=5000".
Proof. repeat split; reflexivity. Qed.

(** ** The claim about the unchecked assertion on [current_date] *)

(** C9. After a successful fetch, a response whose [current_date] is
    missing or is not a number makes the iteration of [runBot], the call of
    [fetchAPIResponse] and both [status] handlers panic right after the
    fetch: nothing is logged about the tick and there is no sleep.  When
    [current_date] is a number the iteration and the call do not panic.
    There are responses that [checkResponse] accepts and that lack
    [current_date]. *)
Theorem C9_current_date_unchecked :
  forall (cfg : Config) (w : World) (response : gmap string value)
         (tr0 : trace),
    (forall st,
       MainPoll.getAPIAnswer cfg w (MainPoll.currentTimestamp st)
         = Done (response, None) tr0 ->
       (as_float64 (response !! "current_date") = None ->
        MainPoll.runBot_iter cfg w st = Panic tr0) /\
       (forall f, as_float64 (response !! "current_date") = Some f ->
        panics (MainPoll.runBot_iter cfg w st) = false)) /\
    (forall last,
       Part000.getAPIAnswer cfg w (now w) = Done (response, None) tr0 ->
       (as_float64 (response !! "current_date") = None ->
        Part000.fetchAPIResponse cfg w last = Panic tr0) /\
       (forall f, as_float64 (response !! "current_date") = Some f ->
        panics (Part000.fetchAPIResponse cfg w last) = false)) /\
    (forall msg,
       MainCmd.getAPIAnswer cfg w (now w) = Done (response, None) tr0 ->
       as_float64 (response !! "current_date") = None ->
       MainCmd.handleStatus cfg w msg = Panic tr0) /\
    (forall msg,
       Part000.getAPIAnswer cfg w (now w) = Done (response, None) tr0 ->
       as_float64 (response !! "current_date") = None ->
       Part000.handleStatus cfg w msg = Panic tr0) /\
    (exists accepted,
       as_float64 (accepted !! "current_date") = None /\
       MainGo.checkResponse accepted = (Some [], None) /\
       Part000.checkResponse accepted = (Some [], None)).
Proof.
  intros cfg w response tr0.
  split; [|split; [|split; [|split]]].
  - intros st H. split.
    + apply MainPoll_iter_panic; assumption.
    + intros f Hf. apply (MainPoll_iter_total _ _ _ _ _ _ H Hf).
  - intros last H. split.
    + apply Part000_fetch_panic; assumption.
    + intros f Hf. apply (Part000_fetch_total _ _ _ _ _ _ H Hf).
  - intros msg H Hf. apply (MainCmd_handleStatus_panic _ _ _ _ _ H Hf).
  - intros msg H Hf. apply (Part000_handleStatus_panic _ _ _ _ _ H Hf).
  - exists Samples.payload_nodate. split; [|split]; reflexivity.
Qed.

Lemma C9_witness :
  MainPoll.runBot_iter Samples.cfg0 (Samples.world_of Samples.payload_nodate)
      Samples.st0
    = Panic [HttpDo (api_request Samples.cfg0 1700000000)] /\
  Part000.fetchAPIResponse Samples.cfg0
      (Samples.world_of Samples.payload_nodate) EmptyString
    = Panic [HttpDo (api_request Samples.cfg0 1699996400);
             StdLog "Успешно получен ответ от API"] /\
  MainCmd.handleStatus Samples.cfg0 (Samples.world_of Samples.payload_nodate)
      Samples.msg0
    = Panic [HttpDo (api_request Samples.cfg0 1700000000);
             Log "Успешно получен ответ от API"] /\
  Part000.handleStatus Samples.cfg0 (Samples.world_of Samples.payload_nodate)
      Samples.msg0'
    = Panic [HttpDo (api_request Samples.cfg0 1699996400);
             StdLog "Успешно получен ответ от API"] /\
  panics (MainPoll.runBot_iter Samples.cfg0
            (Samples.world_of Samples.payload_empty) Samples.st0) = false.
Proof.
  split; [|split; [|split; [|split]]].
  - exact (proj1 (proj1 (C9_current_date_unchecked Samples.cfg0
             (Samples.world_of Samples.payload_nodate) Samples.payload_nodate
             [HttpDo (api_request Samples.cfg0 1700000000)])
             Samples.st0 eq_refl) eq_refl).
  - exact (proj1 (proj1 (proj2 (C9_current_date_unchecked Samples.cfg0
             (Samples.world_of Samples.payload_nodate) Samples.payload_nodate
             [HttpDo (api_request Samples.cfg0 1699996400);
              StdLog "Успешно получен ответ от API"]))
             EmptyString eq_refl) eq_refl).
  - exact (proj1 (proj2 (proj2 (C9_current_date_unchecked Samples.cfg0
             (Samples.world_of Samples.payload_nodate) Samples.payload_nodate
             [HttpDo (api_request Samples.cfg0 1700000000);
              Log "Успешно получен ответ от API"])))
             Samples.msg0 eq_refl eq_refl).
  - exact (proj1 (proj2 (proj2 (proj2 (C9_current_date_unchecked Samples.cfg0
             (Samples.world_of Samples.payload_nodate) Samples.payload_nodate
             [HttpDo (api_request Samples.cfg0 1699996400);
              StdLog "Успешно получен ответ от API"]))))
             Samples.msg0' eq_refl eq_refl).
  - exact (proj2 (proj1 (C9_current_date_unchecked Samples.cfg0
             (Samples.world_of Samples.payload_empty) Samples.payload_empty
             [HttpDo (api_request Samples.cfg0 1700000000)])
             Samples.st0 eq_refl) (float64_of_Z 2000) eq_refl).
Defined.

(** ** The claims about the poll state *)

(** What one call of [fetchAPIResponse] sends and what it leaves in
    [lastSentMessage]. *)
Lemma Part000_fetch_sends cfg w last :
  match Part000.fetchAPIResponse cfg w last with
  | Panic tr => bot_sends tr = []
  | Done (_, last') tr =>
      (bot_sends tr = [] /\ last' = last) \/
      (exists chatID message response tr0,
         Part000.getAPIAnswer cfg w (now w) = Done (response, None) tr0 /\
         Part000_derived response message /\
         bot_sends tr = [(chatID, message)] /\
         message <> last /\
         ((bot_send w chatID message = None /\ last' = message) \/
          (exists err, bot_send w chatID message = Some err /\ last' = last)))
  end.
Proof.
  destruct (Part000_getAPIAnswer_quiet cfg w (now w))
    as ([response [err|]] & tr0 & Hfetch & _ & Hs0 & _).
  { rewrite (Part000_fetch_error _ _ _ _ _ _ Hfetch).
    left. rewrite bot_sends_app, Hs0. now split. }
  destruct (as_float64 (response !! "current_date")) as [f|] eqn:Hf.
  2: { now rewrite (Part000_fetch_panic _ _ _ _ _ Hfetch Hf). }
  destruct (Part000_checkResponse_shape response) as [[err Hc]|[hs Hc]].
  { rewrite (Part000_fetch_schema_error _ _ _ _ _ Hfetch _ Hf _ _ Hc).
    left. rewrite bot_sends_app, Hs0. now split. }
  destruct hs as [|hw rest].
  { rewrite (Part000_fetch_empty _ _ _ _ _ Hfetch _ Hf Hc).
    left. rewrite bot_sends_app, Hs0. now split. }
  destruct (Part000_parseStatus_cases hw) as [[message Hp]|(err & l & Hp)].
  2: { rewrite (Part000_fetch_unknown _ _ _ _ _ Hfetch _ Hf _ _ _ _ Hc Hp).
       left. rewrite bot_sends_app, Hs0. now split. }
  destruct (String.eqb_spec message last) as [->|Hne].
  { rewrite (Part000_fetch_unchanged _ _ _ _ _ Hfetch _ Hf _ _ Hc Hp).
    left. now split. }
  destruct (ParseInt (TelegramChatID cfg)) as [chatID|] eqn:Hid.
  2: { rewrite (Part000_fetch_bad_chat _ _ _ _ _ Hfetch _ Hf _ _ _ Hc Hp Hne Hid).
       left. rewrite bot_sends_app, Hs0. now split. }
  assert (Hder : Part000_derived response message) by now exists hw, rest.
  destruct (bot_send w chatID message) as [err|] eqn:Hs.
  - rewrite (Part000_fetch_send_failed _ _ _ _ _ Hfetch _ Hf
               _ _ _ _ _ Hc Hp Hne Hid Hs).
    right. exists chatID, message, response, tr0.
    rewrite bot_sends_app, Hs0. repeat split; auto.
    right. now exists err.
  - rewrite (Part000_fetch_sent _ _ _ _ _ Hfetch _ Hf _ _ _ _ Hc Hp Hne Hid Hs).
    right. exists chatID, message, response, tr0.
    rewrite bot_sends_app, Hs0. repeat split; auto.
Qed.

(** What one iteration of [runBot] posts and what it leaves in
    [prevReport]. *)
Lemma MainPoll_iter_posts cfg w st :
  match MainPoll.runBot_iter cfg w st with
  | Panic tr => posts tr = []
  | Done st' tr =>
      (posts tr = [] /\ MainPoll.prevReport st' = MainPoll.prevReport st) \/
      (MainGo.Status (MainPoll.currentReport st')
         <> MainGo.Status (MainPoll.prevReport st) /\
       MainPoll.prevReport st' = MainPoll.currentReport st' /\
       exists p trp,
         MainGo.parseStatus (MainPoll.currentReport st') = Done p trp /\
         posts tr =
           match p.2, new_request_err w "POST" (telegram_url cfg) with
           | None, None => [post_request cfg p.1]
           | _, _ => []
           end)
  end.
Proof.
  destruct (MainPoll_getAPIAnswer_quiet cfg w (MainPoll.currentTimestamp st))
    as ([response [err|]] & tr0 & Hfetch & Hp0 & _).
  { rewrite (MainPoll_iter_fetch_error _ _ _ _ _ _ Hfetch).
    left. rewrite posts_app, Hp0. now split. }
  destruct (as_float64 (response !! "current_date")) as [f|] eqn:Hf.
  2: { now rewrite (MainPoll_iter_panic _ _ _ _ _ Hfetch Hf). }
  destruct (MainGo_checkResponse_shape response) as [[err Hc]|[hs Hc]].
  { rewrite (MainPoll_iter_schema_error _ _ _ _ _ Hfetch _ Hf _ _ Hc).
    left. rewrite posts_app, Hp0. now split. }
  destruct (String.eqb_spec (MainGo.Status (MainPoll.report_of (Some hs)))
              (MainGo.Status (MainPoll.prevReport st))) as [E|E].
  { rewrite (MainPoll_iter_same _ _ _ _ _ Hfetch _ Hf _ Hc E).
    left. rewrite posts_app, Hp0. now split. }
  destruct (MainPoll_iter_changed _ _ _ _ _ Hfetch _ Hf _ Hc E)
    as (p & trp & tr' & Hp & -> & Hposts).
  right. cbn [MainPoll.currentReport MainPoll.prevReport].
  split; [exact E|]. split; [reflexivity|].
  exists p, trp. split; [exact Hp|].
  rewrite !posts_app, Hp0, Hposts. cbn [app].
  destruct p.2, (new_request_err w "POST" (telegram_url cfg)); reflexivity.
Qed.

(** A call of [fetchAPIResponse] that derives a message other than
    [lastSentMessage], with a chat identifier that parses, sends it. *)
Lemma Part000_fetch_differs cfg w last response tr0 f message chatID :
  Part000.getAPIAnswer cfg w (now w) = Done (response, None) tr0 ->
  as_float64 (response !! "current_date") = Some f ->
  Part000_derived response message ->
  message <> last ->
  ParseInt (TelegramChatID cfg) = Some chatID ->
  exists hs l,
    Part000.fetchAPIResponse cfg w last =
      Done (hs, None,
            match bot_send w chatID message with
            | None => message
            | Some _ => last
            end)
           (tr0 ++ [BotSend chatID message; Log l]).
Proof.
  intros Hfetch Hf (hw & rest & Hc & Hp) Hne Hid.
  destruct (bot_send w chatID message) as [err|] eqn:Hs.
  - rewrite (Part000_fetch_send_failed _ _ _ _ _ Hfetch _ Hf
               _ _ _ _ _ Hc Hp Hne Hid Hs).
    now eexists _, _.
  - rewrite (Part000_fetch_sent _ _ _ _ _ Hfetch _ Hf _ _ _ _ Hc Hp Hne Hid Hs).
    now eexists _, _.
Qed.

(** C1, as the code has it.  In src/unnamed/part_000 one call of
    [fetchAPIResponse] sends at most one message; it sends only a newly
    derived message that differs from [lastSentMessage], and it sets
    [lastSentMessage] to that message only when the send returned no error:
    after a translation error or a failed send [lastSentMessage] is what it
    was.  A call that derives a message other than [lastSentMessage] does
    send it (the chat identifier being a decimal int64), so after a failed
    send the next call that derives the message sends it again.  In the
    [runBot] of src/main.go the comparison is between the status
    of the current report and the status of [prevReport]; a request is
    posted only when they differ and the status translates, and [prevReport]
    becomes the current report whenever they differ, whatever translation
    and sending returned. *)
Theorem C1_poll_state :
  forall (cfg : Config) (w : World),
    (forall last,
       match Part000.fetchAPIResponse cfg w last with
       | Panic tr => bot_sends tr = []
       | Done (_, last') tr =>
           (bot_sends tr = [] /\ last' = last) \/
           (exists chatID message response tr0,
              Part000.getAPIAnswer cfg w (now w) = Done (response, None) tr0 /\
              Part000_derived response message /\
              bot_sends tr = [(chatID, message)] /\
              message <> last /\
              ((bot_send w chatID message = None /\ last' = message) \/
               (exists err,
                  bot_send w chatID message = Some err /\ last' = last)))
       end) /\
    (forall last response tr0 f message chatID,
       Part000.getAPIAnswer cfg w (now w) = Done (response, None) tr0 ->
       as_float64 (response !! "current_date") = Some f ->
       Part000_derived response message ->
       message <> last ->
       ParseInt (TelegramChatID cfg) = Some chatID ->
       exists hs tr,
         Part000.fetchAPIResponse cfg w last =
           Done (hs, None,
                 match bot_send w chatID message with
                 | None => message
                 | Some _ => last
                 end) tr /\
         bot_sends tr = [(chatID, message)]) /\
    (forall w' last response tr0 f response' tr0' f' message chatID err,
       Part000.getAPIAnswer cfg w (now w) = Done (response, None) tr0 ->
       as_float64 (response !! "current_date") = Some f ->
       Part000_derived response message ->
       Part000.getAPIAnswer cfg w' (now w') = Done (response', None) tr0' ->
       as_float64 (response' !! "current_date") = Some f' ->
       Part000_derived response' message ->
       message <> last ->
       ParseInt (TelegramChatID cfg) = Some chatID ->
       bot_send w chatID message = Some err ->
       exists tr,
         Part000.poll cfg [w; w'] last =
           Done match bot_send w' chatID message with
                | None => message
                | Some _ => last
                end tr /\
         bot_sends tr = [(chatID, message); (chatID, message)]) /\
    (forall st,
       match MainPoll.runBot_iter cfg w st with
       | Panic tr => posts tr = []
       | Done st' tr =>
           (posts tr = [] /\
            MainPoll.prevReport st' = MainPoll.prevReport st) \/
           (MainGo.Status (MainPoll.currentReport st')
              <> MainGo.Status (MainPoll.prevReport st) /\
            MainPoll.prevReport st' = MainPoll.currentReport st' /\
            exists p trp,
              MainGo.parseStatus (MainPoll.currentReport st') = Done p trp /\
              posts tr =
                match p.2, new_request_err w "POST" (telegram_url cfg) with
                | None, None => [post_request cfg p.1]
                | _, _ => []
                end)
       end) /\
    (forall st response tr0 f hs,
       MainPoll.getAPIAnswer cfg w (MainPoll.currentTimestamp st)
         = Done (response, None) tr0 ->
       as_float64 (response !! "current_date") = Some f ->
       MainGo.checkResponse response = (hs, None) ->
       MainGo.Status (MainPoll.report_of hs)
         <> MainGo.Status (MainPoll.prevReport st) ->
       exists tr,
         MainPoll.runBot_iter cfg w st =
           Done {| MainPoll.currentTimestamp := int64_of_float64 f;
                   MainPoll.currentReport := MainPoll.report_of hs;
                   MainPoll.prevReport := MainPoll.report_of hs |} tr).
Proof.
  intros cfg w. split; [|split; [|split; [|split]]].
  - intros last. apply Part000_fetch_sends.
  - intros last response tr0 f message chatID Hfetch Hf Hder Hne Hid.
    destruct (Part000_fetch_differs _ _ _ _ _ _ _ _ Hfetch Hf Hder Hne Hid)
      as (hs & l & ->).
    destruct (Part000_getAPIAnswer_quiet cfg w (now w))
      as (r & tr & E & _ & Hs0 & _).
    rewrite Hfetch in E. injection E as _ <-.
    eexists _, _. split; [reflexivity|].
    now rewrite bot_sends_app, Hs0.
  - intros w' last response tr0 f response' tr0' f' message chatID err
           Hfetch Hf Hder Hfetch' Hf' Hder' Hne Hid Hs.
    destruct (Part000_fetch_differs _ _ _ _ _ _ _ _ Hfetch Hf Hder Hne Hid)
      as (hs & l & E).
    rewrite Hs in E.
    destruct (Part000_fetch_differs _ _ _ _ _ _ _ _ Hfetch' Hf' Hder' Hne Hid)
      as (hs' & l' & E').
    destruct (Part000_getAPIAnswer_quiet cfg w (now w))
      as (r & tr & Eq & _ & Hs0 & _).
    rewrite Hfetch in Eq. injection Eq as _ <-.
    destruct (Part000_getAPIAnswer_quiet cfg w' (now w'))
      as (r' & tr' & Eq' & _ & Hs0' & _).
    rewrite Hfetch' in Eq'. injection Eq' as _ <-.
    cbn [Part000.poll]. rewrite E. run. cbn [snd]. rewrite E'. run.
    cbn [snd]. eexists. split; [reflexivity|].
    rewrite !bot_sends_app, Hs0, Hs0'. reflexivity.
  - intros st. apply MainPoll_iter_posts.
  - intros st response tr0 f hs Hfetch Hf Hc E.
    destruct (MainPoll_iter_changed _ _ _ _ _ Hfetch _ Hf _ Hc E)
      as (p & trp & tr' & _ & -> & _).
    now eexists.
Qed.

Lemma hw1_changed :
  MainGo.Status (MainPoll.report_of (Some [SamplesPoll.hw1]))
    <> MainGo.Status (MainPoll.prevReport Samples.st0).
Proof. discriminate. Defined.

Lemma hw1_derived :
  Part000_derived Samples.payload_hw1 SamplesPoll.hw1_message_part000.
Proof. eexists _, _. split; reflexivity. Defined.

Lemma hw1_message_new : SamplesPoll.hw1_message_part000 <> EmptyString.
Proof. discriminate. Defined.

Lemma C1_witness :
  (exists tr,
     MainPoll.runBot_iter Samples.cfg0
         (Samples.world_send_fails Samples.payload_hw1) Samples.st0
       = Done SamplesPoll.st_hw1 tr) /\
  (exists tr,
     Part000.poll Samples.cfg0
         [Samples.world_send_fails Samples.payload_hw1;
          Samples.world_of Samples.payload_hw1] EmptyString
       = Done SamplesPoll.hw1_message_part000 tr /\
     bot_sends tr = [(42, SamplesPoll.hw1_message_part000);
                     (42, SamplesPoll.hw1_message_part000)]).
Proof.
  split.
  - exact (proj2 (proj2 (proj2 (proj2
             (C1_poll_state Samples.cfg0
                (Samples.world_send_fails Samples.payload_hw1)))))
             Samples.st0 Samples.payload_hw1
             [HttpDo (api_request Samples.cfg0 1700000000)]
             (float64_of_Z 1000) (Some [SamplesPoll.hw1])
             eq_refl eq_refl eq_refl hw1_changed).
  - exact (proj1 (proj2 (proj2
             (C1_poll_state Samples.cfg0
                (Samples.world_send_fails Samples.payload_hw1))))
             (Samples.world_of Samples.payload_hw1) EmptyString
             Samples.payload_hw1
             (events (Part000.getAPIAnswer Samples.cfg0
                        (Samples.world_send_fails Samples.payload_hw1)
                        1700000000))
             (float64_of_Z 1000)
             Samples.payload_hw1
             (events (Part000.getAPIAnswer Samples.cfg0
                        (Samples.world_of Samples.payload_hw1)
                        1700000000))
             (float64_of_Z 1000)
             SamplesPoll.hw1_message_part000 42 "connection refused"
             eq_refl eq_refl hw1_derived eq_refl eq_refl hw1_derived
             hw1_message_new eq_refl eq_refl).
Defined.

(** In [runBot] a failed send still moves [prevReport]: the iteration on
    hw1/approved whose POST fails leaves [prevReport] at hw1, and the next
    iteration, on the same payload and a working network, posts nothing. *)
Lemma C1_counterexample :
  MainPoll.runBot_iter Samples.cfg0
      (Samples.world_send_fails Samples.payload_hw1) Samples.st0
    = Done SamplesPoll.st_hw1
        [HttpDo (api_request Samples.cfg0 1700000000);
         HttpDo (post_request Samples.cfg0 SamplesPoll.hw1_message);
         Log "Ошибка при отправке сообщения: connection refused";
         Sleep 600] /\
  MainPoll.runBot_iter Samples.cfg0
      (Samples.world_of Samples.payload_hw1) SamplesPoll.st_hw1
    = Done SamplesPoll.st_hw1
        [HttpDo (api_request Samples.cfg0 1000); Sleep 600].
Proof. split; reflexivity. Qed.

(** ** The end-to-end scenarios *)














(** ** The grammar at work *)

Example parse_nested :
  parse ("  [1, -2.5e+3, true, null, {}, [[]], {" +:+ dq +:+ "k" +:+ dq
           +:+ " : false}] ")
    = Some (JArray [JNumber "1"; JNumber "-2.5e+3"; JBool true; JNull;
                    JObject []; JArray [JArray []];
                    JObject [("k", JBool false)]]).
Proof. reflexivity. Qed.

Example parse_escapes :
  parse (dq +:+ "a\n\u0041\/\ud83d\ude00" +:+ dq)
    = Some (JString ("a" +:+ newline +:+ "A/😀")).
Proof. reflexivity. Qed.

Example parse_rejects :
  parse "[1,]" = None /\ parse "01" = None /\ parse "tru" = None /\
  parse "1 2" = None /\ parse (dq +:+ "\x" +:+ dq) = None /\
  parse (dq +:+ newline +:+ dq) = None /\ parse (dq +:+ "open") = None.
Proof. repeat split; reflexivity. Qed.

(** Texts that are not well-formed UTF-8 are no JSON texts: a stray byte,
    an overlong form and a surrogate; the no-new-statuses text is well
    formed. *)
Example parse_utf8 :
  utf8_valid NoNewStatuses = true /\
  parse (dq +:+ String (ascii_of_nat 255) EmptyString +:+ dq) = None /\
  utf8_valid (String (ascii_of_nat 192)
                (String (ascii_of_nat 128) EmptyString)) = false /\
  utf8_valid (String (ascii_of_nat 237)
                (String (ascii_of_nat 160)
                   (String (ascii_of_nat 128) EmptyString))) = false.
Proof. vm_compute. repeat split. Qed.

(** ** Strings of JSON texts *)

Lemma length_append (a b : string) :
  String.length (a +:+ b) = (String.length a + String.length b)%nat.
Proof.
  induction a as [|c a IH]; [reflexivity|].
  change (S (String.length (a +:+ b)) = S (String.length a + String.length b)).
  now rewrite IH.
Qed.

Lemma append_cons (c : ascii) (a b : string) :
  String c a +:+ b = String c (a +:+ b).
Proof. reflexivity. Qed.

Lemma append_nil_l (b : string) : EmptyString +:+ b = b.
Proof. reflexivity. Qed.

Lemma append_inv_head (a b c : string) : a +:+ b = a +:+ c -> b = c.
Proof.
  induction a as [|x a IH]; [auto|].
  rewrite !append_cons. intros H. injection H as H. auto.
Qed.

(** Two ways to cut one string: the shorter head is a prefix of the longer. *)
Lemma append_split (a b c d : string) :
  a +:+ b = c +:+ d ->
  (String.length a <= String.length c)%nat ->
  exists e, c = a +:+ e /\ b = e +:+ d.
Proof.
  revert c. induction a as [|x a IH]; intros c H Hlen.
  - exists c. now rewrite !append_nil_l in *.
  - destruct c as [|y c]; [simpl in Hlen; lia|].
    rewrite !append_cons in H. injection H as -> H.
    destruct (IH c H) as (e & -> & ->); [simpl in Hlen; lia|].
    now exists e.
Qed.

Lemma skip_ws_length (s : string) :
  (String.length (skip_ws s) <= String.length s)%nat.
Proof.
  induction s as [|c s IH]; simpl; [lia|].
  destruct (is_ws c); simpl; lia.
Qed.

(** ** Scanning a string value *)

Lemma hex4_shape (s : string) (v : N) (r : string) :
  hex4 s = Some (v, r) ->
  exists a b c d, s = String a (String b (String c (String d r))).
Proof.
  destruct s as [|a [|b [|c [|d rest]]]]; try discriminate. simpl.
  destruct (hex_val a), (hex_val b), (hex_val c), (hex_val d);
    try discriminate.
  intros H. injection H as _ <-. now exists a, b, c, d.
Qed.

Lemma utf8_length (cp : N) : (String.length (utf8 cp) <= 4)%nat.
Proof.
  unfold utf8.
  destruct (cp <? 128)%N; [simpl; lia|].
  destruct (cp <? 2048)%N; [simpl; lia|].
  destruct (cp <? 65536)%N; simpl; lia.
Qed.

(** What a step that yields bytes has read: one clean byte standing for
    itself, or an escape, which is longer than the bytes it yields. *)
Lemma scan_step_Out (s o r : string) :
  scan_step s = Out o r ->
  (exists c, s = String c r /\ o = String c EmptyString /\ clean_char c = true) \/
  (exists pre, s = pre +:+ r /\ (String.length o < String.length pre)%nat).
Proof.
  destruct s as [|c s1]; [discriminate|]. simpl.
  destruct (Ascii.eqb c quote) eqn:Hq; [discriminate|].
  destruct (Ascii.eqb c backslash) eqn:Hb.
  - intros H. right.
    destruct s1 as [|e s2]; [discriminate|].
    assert (Two : forall x, Out x s2 = Out o r -> String.length x = 1%nat ->
              exists pre, String c (String e s2) = pre +:+ r /\
                          (String.length o < String.length pre)%nat).
    { intros x Hx Hl. injection Hx as <- <-.
      exists (String c (String e EmptyString)). split; [reflexivity|].
      rewrite Hl. simpl. lia. }
    destruct (Ascii.eqb e quote); [now apply (Two _ H)|].
    destruct (Ascii.eqb e backslash); [now apply (Two _ H)|].
    destruct (Ascii.eqb e "/"); [now apply (Two _ H)|].
    destruct (Ascii.eqb e "b"); [now apply (Two _ H)|].
    destruct (Ascii.eqb e "f"); [now apply (Two _ H)|].
    destruct (Ascii.eqb e "n"); [now apply (Two _ H)|].
    destruct (Ascii.eqb e "r"); [now apply (Two _ H)|].
    destruct (Ascii.eqb e "t"); [now apply (Two _ H)|].
    destruct (Ascii.eqb e "u"); [|discriminate].
    destruct (hex4 s2) as [[cp s3]|] eqn:Hh; [|discriminate].
    destruct (hex4_shape _ _ _ Hh) as (h1 & h2 & h3 & h4 & ->).
    assert (Six : forall x, Out (utf8 x) s3 = Out o r ->
              exists pre,
                String c (String e (String h1 (String h2 (String h3
                  (String h4 s3))))) = pre +:+ r /\
                (String.length o < String.length pre)%nat).
    { intros x Hx. injection Hx as <- <-.
      exists (String c (String e (String h1 (String h2 (String h3
                (String h4 EmptyString)))))).
      split; [reflexivity|]. pose proof (utf8_length x). simpl. lia. }
    unfold unicode_escape in H.
    destruct (is_high cp).
    + destruct s3 as [|b [|u s4]]; try now apply (Six _ H).
      destruct (Ascii.eqb b backslash && Ascii.eqb u "u");
        [|now apply (Six _ H)].
      destruct (hex4 s4) as [[lo s5]|] eqn:Hl; [|now apply (Six _ H)].
      destruct (is_low lo); [|now apply (Six _ H)].
      destruct (hex4_shape _ _ _ Hl) as (l1 & l2 & l3 & l4 & ->).
      injection H as <- <-.
      exists (String c (String e (String h1 (String h2 (String h3 (String h4
               (String b (String u (String l1 (String l2 (String l3
               (String l4 EmptyString)))))))))))).
      split; [reflexivity|].
      match goal with |- context [utf8 ?x] => pose proof (utf8_length x) end.
      simpl. lia.
    + destruct (is_low cp); now apply (Six _ H).
  - destruct (N_of_ascii c <? 32)%N eqn:Hc; [discriminate|].
    intros H. injection H as <- <-. left. exists c.
    repeat split. unfold clean_char. now rewrite Hq, Hb, Hc.
Qed.

Lemma scan_step_Stop (s r : string) :
  scan_step s = Stop r -> s = String quote r.
Proof.
  destruct s as [|c s1]; [discriminate|]. simpl.
  destruct (Ascii.eqb_spec c quote) as [->|_].
  - intros H. now injection H as <-.
  - destruct (Ascii.eqb c backslash).
    + destruct s1 as [|e s2]; [discriminate|].
      repeat (match goal with
              | |- context [if ?b then _ else _] => destruct b
              end; try discriminate).
      destruct (hex4 s2) as [[cp s3]|]; [|discriminate].
      unfold unicode_escape.
      repeat (match goal with
              | |- context [if ?b then _ else _] => destruct b
              | |- context [match ?x with _ => _ end] => destruct x
              end; try discriminate).
    + destruct (N_of_ascii c <? 32)%N; discriminate.
Qed.

(** A scanned string either stood for itself up to the closing quote, or
    took more bytes than it yields. *)
Lemma scan_fuel_sound (n : nat) :
  forall s d r,
    scan_fuel n s = Some (d, r) ->
    (s = d +:+ String quote r /\ clean d = true) \/
    (exists pre, s = pre +:+ String quote r /\
                 (String.length d < String.length pre)%nat).
Proof.
  induction n as [|n IH]; intros s d r H; [discriminate|].
  simpl in H. destruct (scan_step s) as [rest|o rest|] eqn:Hs;
    [| |discriminate].
  - injection H as <- <-. left. split; [|reflexivity].
    now rewrite (scan_step_Stop _ _ Hs).
  - destruct (scan_fuel n rest) as [[d' r']|] eqn:Hr; [|discriminate].
    injection H as <- <-.
    destruct (scan_step_Out _ _ _ Hs)
      as [(c & -> & -> & Hc)|(pre0 & -> & Hlen)];
      destruct (IH _ _ _ Hr) as [[-> Hd]|(pre' & -> & Hlen')].
    + left. split; [reflexivity|].
      change (clean (String c d') = true). simpl. now rewrite Hc, Hd.
    + right. exists (String c pre'). split; [reflexivity|].
      change (String.length (String c d') < String.length (String c pre'))%nat.
      simpl. lia.
    + right. exists (pre0 +:+ d'). split; [now rewrite app_assoc_s|].
      rewrite !length_append. lia.
    + right. exists (pre0 +:+ pre'). split; [now rewrite app_assoc_s|].
      rewrite !length_append. lia.
Qed.

Lemma scan_string_sound (s d r : string) :
  scan_string s = Some (d, r) ->
  (s = d +:+ String quote r /\ clean d = true) \/
  (exists pre, s = pre +:+ String quote r /\
               (String.length d < String.length pre)%nat).
Proof. apply scan_fuel_sound. Qed.

Lemma scan_string_size (s d r : string) :
  scan_string s = Some (d, r) ->
  (String.length d + 1 + String.length r <= String.length s)%nat.
Proof.
  intros H. destruct (scan_string_sound _ _ _ H) as [[-> _]|(pre & -> & Hl)];
    rewrite length_append; simpl; lia.
Qed.

Lemma scan_fuel_clean (d : string) :
  forall (n : nat) (r : string),
    clean d = true ->
    (String.length d < n)%nat ->
    scan_fuel n (d +:+ String quote r) = Some (d, r).
Proof.
  induction d as [|c d IH]; intros n r Hc Hn.
  - destruct n; [simpl in Hn; lia|]. reflexivity.
  - destruct n; [simpl in Hn; lia|]. simpl in Hc.
    apply andb_true_iff in Hc. destruct Hc as [Hc Hd].
    unfold clean_char in Hc. rewrite !andb_true_iff, !negb_true_iff in Hc.
    destruct Hc as [[Hq Hb] Hl].
    rewrite append_cons. simpl. rewrite Hq, Hb, Hl.
    rewrite (IH n r Hd); [reflexivity|simpl in Hn; lia].
Qed.

Lemma scan_string_clean (d r : string) :
  clean d = true -> scan_string (d +:+ String quote r) = Some (d, r).
Proof.
  intros H. apply scan_fuel_clean; [exact H|].
  rewrite length_append. simpl. lia.
Qed.

(** ** How much of a text a value takes *)

Lemma strip_length (l s r : string) :
  strip l s = Some r ->
  String.length s = (String.length l + String.length r)%nat.
Proof.
  revert s. induction l as [|a l IH]; intros s H.
  - destruct s; injection H as <-; reflexivity.
  - destruct s as [|b s]; [discriminate|]. simpl in H.
    destruct (Ascii.eqb a b); [|discriminate].
    simpl. now rewrite (IH s H).
Qed.

Lemma digits_length (s ds r : string) :
  digits s = (ds, r) ->
  String.length s = (String.length ds + String.length r)%nat.
Proof.
  revert ds r. induction s as [|c s IH]; intros ds r H.
  - injection H as <- <-. reflexivity.
  - simpl in H. destruct (is_digit c).
    + destruct (digits s) as [ds' r'] eqn:E. injection H as <- <-.
      simpl. now rewrite (IH ds' r' eq_refl).
    + injection H as <- <-. reflexivity.
Qed.

Lemma scan_number_size (s l r : string) :
  scan_number s = Some (l, r) -> (String.length r < String.length s)%nat.
Proof.
  unfold scan_number.
  set (p := match s with
            | String c s' => if Ascii.eqb c "-" then ("-", s') else (EmptyString, s)
            | EmptyString => (EmptyString, s)
            end).
  assert (Hp : (String.length p.2 <= String.length s)%nat).
  { subst p. destruct s as [|c s']; [simpl; lia|].
    destruct (Ascii.eqb c "-"); simpl; lia. }
  destruct p as [sign s1]. cbn [snd] in Hp.
  destruct (digits s1) as [int s2] eqn:Hd.
  apply digits_length in Hd.
  destruct int as [|d more]; [discriminate|].
  destruct (Ascii.eqb d "0" && negb (String.eqb more EmptyString));
    [discriminate|].
  simpl in Hd.
  set (frac := match s2 with
               | String c s3 => _
               | EmptyString => _
               end).
  assert (Hf : forall f s5, frac = Some (f, s5) ->
                 (String.length s5 <= String.length s2)%nat).
  { subst frac. intros f s5. destruct s2 as [|c s3].
    - intros H. injection H as _ <-. lia.
    - destruct (Ascii.eqb c ".").
      + destruct (digits s3) as [fs s4] eqn:E. apply digits_length in E.
        destruct (String.eqb fs EmptyString); [discriminate|].
        intros H. injection H as _ <-. simpl. lia.
      + intros H. injection H as _ <-. lia. }
  destruct frac as [[f s5]|]; [|discriminate].
  specialize (Hf f s5 eq_refl).
  set (exp := match s5 with
              | String c s6 => _
              | EmptyString => _
              end).
  assert (He : forall e s9, exp = Some (e, s9) ->
                 (String.length s9 <= String.length s5)%nat).
  { subst exp. intros e s9. destruct s5 as [|c s6].
    - intros H. injection H as _ <-. lia.
    - destruct (Ascii.eqb c "e" || Ascii.eqb c "E").
      + set (q := match s6 with
                  | String g s' => _
                  | EmptyString => _
                  end).
        assert (Hq : (String.length q.2 <= String.length s6)%nat).
        { subst q. destruct s6 as [|g s']; [simpl; lia|].
          destruct (Ascii.eqb g "+" || Ascii.eqb g "-"); simpl; lia. }
        destruct q as [esign s7]. cbn [snd] in Hq.
        destruct (digits s7) as [es s8] eqn:E. apply digits_length in E.
        destruct (String.eqb es EmptyString); [discriminate|].
        intros H. injection H as _ <-. simpl. lia.
      + intros H. injection H as _ <-. lia. }
  destruct exp as [[e s9]|]; [|discriminate].
  specialize (He e s9 eq_refl).
  intros H. injection H as _ <-. lia.
Qed.

Lemma parse_size (n : nat) :
  (forall s v r, parse_value n s = Some (v, r) ->
     (String.length r + vsize v <= String.length s)%nat) /\
  (forall s ms r, parse_members n s = Some (ms, r) ->
     (String.length r + msize ms <= String.length s)%nat) /\
  (forall s vs r, parse_elements n s = Some (vs, r) ->
     (String.length r < String.length s)%nat).
Proof.
  induction n as [|n (IHv & IHm & IHe)];
    [repeat split; intros; discriminate|].
  split; [|split].
  - intros s v r H. cbn [parse_value] in H.
    destruct s as [|c s']; [discriminate|].
    destruct (Ascii.eqb c "{").
    { pose proof (skip_ws_length s') as Hw.
      destruct (skip_ws s') as [|c' r0]; [discriminate|].
      destruct (Ascii.eqb c' "}").
      - injection H as <- <-. simpl in *. lia.
      - destruct (parse_members n (String c' r0)) as [[ms r']|] eqn:E;
          [|discriminate].
        injection H as <- <-. apply IHm in E. simpl in *. lia. }
    destruct (Ascii.eqb c "[").
    { pose proof (skip_ws_length s') as Hw.
      destruct (skip_ws s') as [|c' r0]; [discriminate|].
      destruct (Ascii.eqb c' "]").
      - injection H as <- <-. simpl in *. lia.
      - destruct (parse_elements n (String c' r0)) as [[vs r']|] eqn:E;
          [|discriminate].
        injection H as <- <-. apply IHe in E. simpl in *. lia. }
    destruct (Ascii.eqb c quote).
    { destruct (scan_string s') as [[d r0]|] eqn:E; [|discriminate].
      injection H as <- <-. apply scan_string_size in E. simpl. lia. }
    destruct (Ascii.eqb c "t").
    { destruct (strip "true" (String c s')) as [r0|] eqn:E; [|discriminate].
      injection H as <- <-. apply strip_length in E. rewrite E. simpl. lia. }
    destruct (Ascii.eqb c "f").
    { destruct (strip "false" (String c s')) as [r0|] eqn:E; [|discriminate].
      injection H as <- <-. apply strip_length in E. rewrite E. simpl. lia. }
    destruct (Ascii.eqb c "n").
    { destruct (strip "null" (String c s')) as [r0|] eqn:E; [|discriminate].
      injection H as <- <-. apply strip_length in E. rewrite E. simpl. lia. }
    destruct (scan_number (String c s')) as [[l r0]|] eqn:E; [|discriminate].
    injection H as <- <-. apply scan_number_size in E. simpl in *. lia.
  - intros s ms r H. cbn [parse_members] in H.
    destruct s as [|c s1]; [discriminate|].
    destruct (Ascii.eqb c quote); [|discriminate].
    destruct (scan_string s1) as [[k s2]|] eqn:Ek; [|discriminate].
    apply scan_string_size in Ek.
    pose proof (skip_ws_length s2) as Hw2.
    destruct (skip_ws s2) as [|c2 s3]; [discriminate|].
    destruct (Ascii.eqb c2 ":"); [|discriminate].
    destruct (parse_value n (skip_ws s3)) as [[v s4]|] eqn:Ev; [|discriminate].
    apply IHv in Ev. pose proof (skip_ws_length s3) as Hw3.
    pose proof (skip_ws_length s4) as Hw4.
    destruct (skip_ws s4) as [|c3 s5]; [discriminate|].
    destruct (Ascii.eqb c3 ",").
    + destruct (parse_members n (skip_ws s5)) as [[ms' r']|] eqn:Em;
        [|discriminate].
      injection H as <- <-. apply IHm in Em.
      pose proof (skip_ws_length s5) as Hw5.
      unfold msize in *. cbn [foldr]. unfold weight at 1. simpl in *. lia.
    + destruct (Ascii.eqb c3 "}"); [|discriminate].
      injection H as <- <-.
      unfold msize. cbn [foldr]. unfold weight. simpl in *. lia.
  - intros s vs r H. cbn [parse_elements] in H.
    destruct (parse_value n s) as [[v s1]|] eqn:Ev; [|discriminate].
    apply IHv in Ev. pose proof (skip_ws_length s1) as Hw1.
    assert (Hv : (1 <= vsize v)%nat) by (destruct v; simpl; lia).
    destruct (skip_ws s1) as [|c s2]; [discriminate|].
    destruct (Ascii.eqb c ",").
    + destruct (parse_elements n (skip_ws s2)) as [[vs' r']|] eqn:Ee;
        [|discriminate].
      injection H as <- <-. apply IHe in Ee.
      pose proof (skip_ws_length s2). simpl in *. lia.
    + destruct (Ascii.eqb c "]"); [|discriminate].
      injection H as <- <-. simpl in *. lia.
Qed.

Lemma weight_In (m : string * json) (ms : list (string * json)) :
  In m ms -> (weight m <= msize ms)%nat.
Proof.
  induction ms as [|x ms IH]; intros H; [destruct H|].
  unfold msize in *. cbn [foldr]. destruct H as [->|H]; [lia|].
  specialize (IH H). lia.
Qed.

Lemma weight_In2 (m1 m2 : string * json) (ms : list (string * json)) :
  In m1 ms -> In m2 ms -> m1 <> m2 ->
  (weight m1 + weight m2 <= msize ms)%nat.
Proof.
  induction ms as [|x ms IH]; intros H1 H2 Hne; [destruct H1|].
  change (msize (x :: ms)) with (weight x + msize ms)%nat.
  destruct H1 as [->|H1], H2 as [->|H2].
  - congruence.
  - pose proof (weight_In _ _ H2). lia.
  - pose proof (weight_In _ _ H1). lia.
  - specialize (IH H1 H2 Hne). lia.
Qed.

(** ** The body that [sendMessage] posts *)

Lemma sendMessage_data_shape (cfg : Config) (message : string) :
  MainPoll.sendMessage_data cfg message =
    String "{"
      (member_text "chat_id"
         (TelegramChatID cfg +:+
          String quote (String "," (String " "
            (member_text "text" (message +:+ String quote "}")))))).
Proof. reflexivity. Qed.

Lemma member_text_length (k s : string) :
  String.length (member_text k s)
    = (String.length k + 5 + String.length s)%nat.
Proof. unfold member_text. simpl. rewrite length_append. simpl. lia. Qed.

Lemma parse_members_member_text (n : nat) (k s : string) :
  clean k = true ->
  parse_members (S (S n)) (member_text k s) =
    match scan_string s with
    | None => None
    | Some (d, s4) => rest_members (S n) k (JString d) s4
    end.
Proof.
  intros Hk. unfold member_text. cbn [parse_members].
  change (Ascii.eqb quote quote) with true. cbn iota.
  rewrite (scan_string_clean k _ Hk).
  change (skip_ws (String ":" (String " " (String quote s))))
    with (String ":" (String " " (String quote s))).
  cbn iota. change (Ascii.eqb ":" ":") with true. cbn iota.
  change (skip_ws (String " " (String quote s))) with (String quote s).
  cbn [parse_value].
  change (Ascii.eqb quote "{") with false.
  change (Ascii.eqb quote "[") with false.
  change (Ascii.eqb quote quote) with true. cbn iota.
  destruct (scan_string s) as [[d s4]|]; reflexivity.
Qed.

Lemma parse_members_short (k s : string) :
  forall n, (n < 2)%nat -> parse_members n (member_text k s) = None.
Proof.
  intros [|[|n]] Hn; [reflexivity| |lia].
  unfold member_text. cbn [parse_members].
  change (Ascii.eqb quote quote) with true. cbn iota.
  destruct (scan_string _) as [[k' s2]|]; [|reflexivity].
  destruct (skip_ws s2) as [|c2 s3]; [reflexivity|].
  destruct (Ascii.eqb c2 ":"); reflexivity.
Qed.

(** A string value that came out as the text before a quote either stood
    for itself, or ran on to a later quote. *)
Lemma scan_string_self (d t r : string) :
  scan_string (d +:+ String quote t) = Some (d, r) ->
  (clean d = true /\ r = t) \/ (exists e, t = e +:+ String quote r).
Proof.
  intros H.
  destruct (scan_string_sound _ _ _ H) as [[E Hc]|(pre & E & Hl)].
  - left. split; [exact Hc|]. apply append_inv_head in E. now injection E as ->.
  - right.
    destruct (append_split _ _ _ _ E) as (e & -> & E'); [lia|].
    rewrite length_append in Hl.
    destruct e as [|x e]; [simpl in Hl; lia|].
    rewrite append_cons in E'. injection E' as _ E'. now exists e.
Qed.

Lemma skip_ws_cons_length (s : string) (c : ascii) (s' : string) :
  skip_ws s = String c s' -> (String.length s' < String.length s)%nat.
Proof.
  intros H. pose proof (skip_ws_length s) as Hl. rewrite H in Hl.
  simpl in Hl. lia.
Qed.

Lemma text_member_carries (n : nat) (message : string)
    (ms : list (string * json)) (r : string) :
  parse_members n (text_tail message) = Some (ms, r) ->
  In ("text", JString message) ms ->
  clean message = true.
Proof.
  unfold text_tail. intros Hp Hin.
  destruct n as [|[|n]];
    try (rewrite parse_members_short in Hp by lia; discriminate).
  rewrite parse_members_member_text in Hp by reflexivity.
  destruct (scan_string (message +:+ String quote "}")) as [[d2 r2]|] eqn:Hs;
    [|discriminate].
  pose proof (scan_string_size _ _ _ Hs) as Hsize.
  rewrite length_append in Hsize. simpl in Hsize.
  assert (Hself : d2 = message -> clean message = true).
  { intros ->. destruct (scan_string_self _ _ _ Hs) as [[Hc _]|[e E]];
      [exact Hc|exfalso].
    destruct e as [|x [|y e]]; discriminate E. }
  unfold rest_members in Hp.
  destruct (skip_ws r2) as [|c3 s5] eqn:Hw; [discriminate|].
  apply skip_ws_cons_length in Hw.
  destruct (Ascii.eqb c3 ",").
  - destruct (parse_members (S n) (skip_ws s5)) as [[ms' r']|] eqn:Em;
      [|discriminate].
    injection Hp as <- <-.
    destruct Hin as [E|Hin]; [injection E as ->; now apply Hself|].
    exfalso. apply weight_In in Hin. unfold weight in Hin. simpl in Hin.
    apply (proj1 (proj2 (parse_size _))) in Em.
    pose proof (skip_ws_length s5). lia.
  - destruct (Ascii.eqb c3 "}"); [|discriminate].
    injection Hp as <- <-.
    destruct Hin as [E|[]]. injection E as ->. now apply Hself.
Qed.

Lemma chat_member_carries (n : nat) (chat message : string)
    (ms : list (string * json)) (r : string) :
  parse_members n
    (member_text "chat_id"
       (chat +:+ String quote (String "," (String " " (text_tail message)))))
    = Some (ms, r) ->
  In ("chat_id", JString chat) ms ->
  In ("text", JString message) ms ->
  clean chat = true /\ clean message = true.
Proof.
  intros Hp Hchat Htext.
  destruct n as [|[|n]];
    try (rewrite parse_members_short in Hp by lia; discriminate).
  rewrite parse_members_member_text in Hp by reflexivity.
  remember (String "," (String " " (text_tail message))) as t eqn:Et.
  assert (Ht : String.length t = (String.length message + 13)%nat).
  { rewrite Et. cbn [String.length]. unfold text_tail.
    rewrite member_text_length, length_append. simpl. lia. }
  destruct (scan_string (chat +:+ String quote t)) as [[d1 r1]|] eqn:Hs;
    [|discriminate].
  pose proof (scan_string_size _ _ _ Hs) as Hsize.
  rewrite length_append in Hsize. simpl in Hsize.
  unfold rest_members in Hp.
  destruct (skip_ws r1) as [|c3 s5] eqn:Hw; [discriminate|].
  pose proof (skip_ws_cons_length _ _ _ Hw) as Hw'.
  destruct (Ascii.eqb_spec c3 ",") as [->|_].
  2: { destruct (Ascii.eqb c3 "}"); [|discriminate].
       injection Hp as <- <-. destruct Htext as [E|[]]. discriminate E. }
  destruct (parse_members (S n) (skip_ws s5)) as [[ms' r']|] eqn:Em;
    [|discriminate].
  injection Hp as <- <-.
  pose proof (proj1 (proj2 (parse_size _)) _ _ _ Em) as Hm.
  pose proof (skip_ws_length s5) as Hw5.
  destruct Htext as [E|Htext]; [discriminate E|].
  pose proof (weight_In _ _ Htext) as Wt. unfold weight in Wt. simpl in Wt.
  assert (Hd1 : d1 = chat).
  { destruct Hchat as [E|Hchat]; [now injection E|exfalso].
    assert (Hne : ("chat_id", JString chat) <> ("text", JString message))
      by discriminate.
    pose proof (weight_In2 _ _ _ Hchat Htext Hne) as W.
    unfold weight in W. simpl in W. lia. }
  subst d1.
  destruct (scan_string_self _ _ _ Hs) as [[Hc ->]|[e E]].
  - split; [exact Hc|].
    subst t.
    change (String "," (String " " (text_tail message)) = String "," s5) in Hw.
    injection Hw as <-.
    change (skip_ws (String " " (text_tail message)))
      with (text_tail message) in Em.
    apply (text_member_carries _ _ _ _ Em Htext).
  - exfalso. subst t.
    destruct e as [|x [|y e]]; try discriminate E.
    rewrite !append_cons in E. injection E as _ _ E.
    assert (El : String.length (text_tail message)
                 = (String.length e + 1 + String.length r1)%nat)
      by (rewrite E, length_append; simpl; lia).
    unfold text_tail in El. rewrite member_text_length, length_append in El.
    simpl in El. lia.
Qed.

(** *** Well-formed UTF-8 and concatenation *)

Lemma utf8_lead_owes (c : ascii) (p : list (N * N)) :
  utf8_lead c = Some p -> owes_high p.
Proof.
  unfold utf8_lead, owes_high, continuation.
  repeat match goal with
         | |- context [if ?b then _ else _] => destruct b
         end;
    intros H; try discriminate; injection H as <-;
    repeat constructor; cbn; lia.
Qed.

Lemma utf8_step_owes (p : list (N * N)) (c : ascii) (p' : list (N * N)) :
  owes_high p -> utf8_step p c = Some p' -> owes_high p'.
Proof.
  intros Hp. destruct p as [|[lo hi] p]; cbn [utf8_step].
  - apply utf8_lead_owes.
  - destruct (in_range lo hi c); [|discriminate].
    intros H. injection H as <-. now inversion Hp.
Qed.

Lemma utf8_run_owes (s : string) :
  forall p p', owes_high p -> utf8_run p s = Some p' -> owes_high p'.
Proof.
  induction s as [|c s IH]; intros p p' Hp; cbn [utf8_run].
  - intros H. now injection H as <-.
  - destruct (utf8_step p c) as [p1|] eqn:E; [|discriminate].
    apply IH. eapply utf8_step_owes; eauto.
Qed.

Lemma utf8_run_app (a b : string) :
  forall p,
    utf8_run p (a +:+ b) =
      match utf8_run p a with
      | Some p' => utf8_run p' b
      | None => None
      end.
Proof.
  induction a as [|c a IH]; intros p; [reflexivity|].
  rewrite append_cons. cbn [utf8_run].
  destruct (utf8_step p c); [apply IH|reflexivity].
Qed.

Lemma utf8_step_ascii (p : list (N * N)) (c : ascii) :
  owes_high p -> (N_of_ascii c <? 128)%N = true ->
  utf8_step p c = match p with [] => Some [] | _ => None end.
Proof.
  intros Hp Hc. destruct p as [|[lo hi] p]; cbn [utf8_step].
  - unfold utf8_lead. now rewrite Hc.
  - inversion Hp as [|r l Hlo _]. cbn in Hlo. unfold in_range.
    apply N.ltb_lt in Hc.
    destruct (N.leb_spec lo (N_of_ascii c)); [lia|reflexivity].
Qed.

Lemma utf8_valid_ascii_cons (c : ascii) (s : string) :
  (N_of_ascii c <? 128)%N = true ->
  utf8_valid (String c s) = utf8_valid s.
Proof.
  intros Hc. unfold utf8_valid. cbn [utf8_run].
  rewrite (utf8_step_ascii [] c) by (try constructor; assumption).
  reflexivity.
Qed.

Lemma utf8_valid_ascii_app (a s : string) :
  ascii_only a = true -> utf8_valid (a +:+ s) = utf8_valid s.
Proof.
  induction a as [|c a IH]; [reflexivity|].
  cbn [ascii_only]. intros [Hc Ha]%andb_true_iff.
  rewrite append_cons, utf8_valid_ascii_cons by assumption. auto.
Qed.

(** A string followed by an ASCII byte is well formed exactly when the
    string is and what starts at that byte is: the byte cannot complete a
    sequence left open. *)
Lemma utf8_valid_app_sep (a b s : string) :
  separator b = true ->
  utf8_valid (a +:+ b +:+ s) = utf8_valid a && utf8_valid s.
Proof.
  destruct b as [|c b]; [discriminate|].
  cbn [separator ascii_only]. intros [Hc Hb]%andb_true_iff.
  rewrite append_cons.
  transitivity (utf8_valid a && utf8_valid (String c (b +:+ s))).
  - unfold utf8_valid at 1 2. rewrite utf8_run_app.
    destruct (utf8_run [] a) as [[|r p]|] eqn:Ea; [reflexivity| |reflexivity].
    cbn [andb utf8_run].
    rewrite utf8_step_ascii; [reflexivity| |assumption].
    apply (utf8_run_owes a [] (r :: p)); [constructor|assumption].
  - rewrite utf8_valid_ascii_cons, utf8_valid_ascii_app by assumption.
    reflexivity.
Qed.

(** The body is well-formed UTF-8 exactly when the chat identifier and the
    message are. *)
Lemma utf8_valid_body (cfg : Config) (message : string) :
  utf8_valid (MainPoll.sendMessage_data cfg message) =
    utf8_valid (TelegramChatID cfg) && utf8_valid message.
Proof.
  unfold MainPoll.sendMessage_data.
  rewrite !utf8_valid_ascii_app by reflexivity.
  rewrite utf8_valid_app_sep by reflexivity.
  rewrite !utf8_valid_ascii_app by reflexivity.
  rewrite utf8_valid_app_sep by reflexivity.
  change (utf8_valid "}") with true. now rewrite andb_true_r.
Qed.

Lemma parse_object (body : string) :
  parse_grammar (String "{" (String quote body)) =
    match parse_members (S (S (String.length body))) (String quote body) with
    | Some (ms, r) =>
        match skip_ws r with
        | EmptyString => Some (JObject ms)
        | _ => None
        end
    | None => None
    end.
Proof.
  unfold parse_grammar.
  change (skip_ws (String "{" (String quote body)))
    with (String "{" (String quote body)).
  cbn [parse_value String.length].
  change (Ascii.eqb "{" "{") with true. cbn iota.
  change (skip_ws (String quote body)) with (String quote body).
  cbn iota. change (Ascii.eqb quote "}") with false. cbn iota.
  destruct (parse_members _ _) as [[ms r]|]; reflexivity.
Qed.

(** No other body does: when the body is an object that carries the two
    fields, both strings are clean. *)
Lemma body_carries_clean (cfg : Config) (message : string) :
  body_carries cfg message ->
  clean (TelegramChatID cfg) = true /\ clean message = true.
Proof.
  intros (ms & Hparse & Hchat & Htext).
  unfold parse in Hparse.
  destruct (utf8_valid _); [|discriminate].
  rewrite sendMessage_data_shape in Hparse. unfold member_text at 1 in Hparse.
  rewrite parse_object in Hparse.
  destruct (parse_members _ _) as [[ms0 r]|] eqn:Em; [|discriminate].
  destruct (skip_ws r); [|discriminate]. injection Hparse as ->.
  apply (chat_member_carries _ _ _ _ _ Em Hchat Htext).
Qed.

Lemma body_carries_utf8 (cfg : Config) (message : string) :
  body_carries cfg message ->
  utf8_valid (TelegramChatID cfg) = true /\ utf8_valid message = true.
Proof.
  intros (ms & Hparse & _). unfold parse in Hparse.
  rewrite utf8_valid_body in Hparse. apply andb_true_iff.
  destruct (_ && _); [reflexivity|discriminate].
Qed.

(** With clean, well-formed strings the body is the object with exactly the
    two fields. *)
Lemma clean_body (cfg : Config) (message : string) :
  clean (TelegramChatID cfg) = true ->
  clean message = true ->
  utf8_valid (TelegramChatID cfg) = true ->
  utf8_valid message = true ->
  parse (MainPoll.sendMessage_data cfg message) =
    Some (JObject [("chat_id", JString (TelegramChatID cfg));
                   ("text", JString message)]).
Proof.
  intros Hc Hm Uc Um.
  unfold parse. rewrite utf8_valid_body, Uc, Um. cbn [andb].
  rewrite sendMessage_data_shape. unfold member_text at 1.
  rewrite parse_object.
  match goal with |- context [parse_members ?n (String quote ?b)] =>
    change (String quote b)
      with (member_text "chat_id"
              (TelegramChatID cfg +:+
               String quote (String "," (String " " (text_tail message)))));
    set (fuel := n)
  end.
  assert (Hfuel : exists n, fuel = S (S (S (S n)))).
  { subst fuel. rewrite length_append. cbn [String.length Nat.add].
    eexists. reflexivity. }
  destruct Hfuel as [n ->].
  rewrite parse_members_member_text by reflexivity.
  rewrite (scan_string_clean _ _ Hc).
  unfold rest_members.
  change (skip_ws (String "," (String " " (text_tail message))))
    with (String "," (String " " (text_tail message))).
  cbn iota. change (Ascii.eqb "," ",") with true. cbn iota.
  change (skip_ws (String " " (text_tail message))) with (text_tail message).
  unfold text_tail.
  rewrite parse_members_member_text by reflexivity.
  rewrite (scan_string_clean _ _ Hm).
  reflexivity.
Qed.

Lemma contains_quote_not_clean (s : string) :
  contains s dq = true -> clean s = false.
Proof.
  induction s as [|c s IH]; [discriminate|].
  change (contains (String c s) dq)
    with ((if ascii_dec quote c then String.prefix EmptyString s else false)
          || contains s dq).
  change (clean (String c s)) with (clean_char c && clean s).
  destruct (ascii_dec quote c) as [<-|_].
  - reflexivity.
  - intros H. rewrite (IH H). apply andb_false_r.
Qed.

Lemma MainPoll_sendMessage_body cfg w message r :
  In r (requests (events (MainPoll.sendMessage cfg w message))) ->
  Body r = MainPoll.sendMessage_data cfg message.
Proof.
  destruct (MainPoll_sendMessage_posts cfg w message)
    as (e & tr & -> & Hreq & Hposts).
  cbn [events]. rewrite Hreq, Hposts.
  destruct (new_request_err w "POST" (telegram_url cfg)).
  - intros [].
  - intros [<-|[]]. reflexivity.
Qed.

(** C10.  Whenever the request can be built, the [sendMessage] of the
    polling program sends exactly one request, a POST whose body is the text
    it writes by interpolation, and no request of its carries another body.
    That body is a JSON object carrying chat_id and text with the given chat
    identifier and message exactly when neither string holds a double quote,
    a backslash or a control character and both are well-formed UTF-8; then
    it is the object with just these two members.  A message that holds a
    double quote never yields such a body, and for the chat identifier 42
    the body written for a lone double quote, and the one sent for the
    notification about hw1, are not JSON texts at all. *)
Theorem C10_sendMessage_body_json :
  forall (cfg : Config) (message : string),
    (forall w r,
       In r (requests (events (MainPoll.sendMessage cfg w message))) ->
       Body r = MainPoll.sendMessage_data cfg message) /\
    (forall w,
       new_request_err w "POST" (telegram_url cfg) = None ->
       exists e r,
         MainPoll.sendMessage cfg w message = Done e [HttpDo r] /\
         Method r = "POST" /\
         Body r = MainPoll.sendMessage_data cfg message) /\
    (body_carries cfg message <->
     clean (TelegramChatID cfg) = true /\ clean message = true /\
     utf8_valid (TelegramChatID cfg) = true /\ utf8_valid message = true) /\
    (clean (TelegramChatID cfg) = true -> clean message = true ->
     utf8_valid (TelegramChatID cfg) = true -> utf8_valid message = true ->
     parse (MainPoll.sendMessage_data cfg message) =
       Some (JObject [("chat_id", JString (TelegramChatID cfg));
                      ("text", JString message)])) /\
    (contains message dq = true -> ~ body_carries cfg message) /\
    parse (MainPoll.sendMessage_data Samples.cfg0 dq) = None /\
    parse (MainPoll.sendMessage_data Samples.cfg0 SamplesPoll.hw1_message)
      = None /\
    (forall w,
       new_request_err w "POST" (telegram_url Samples.cfg0) = None ->
       exists e r,
         MainPoll.sendMessage Samples.cfg0 w SamplesPoll.hw1_message
           = Done e [HttpDo r] /\
         parse (Body r) = None).
Proof.
  intros cfg message.
  split; [|split; [|split; [|split; [|split; [|split; [|split]]]]]].
  - intros w r. apply MainPoll_sendMessage_body.
  - intros w Hw.
    pose proof (MainPoll_sendMessage_cases cfg w message) as H.
    rewrite Hw in H. destruct H as [e ->].
    exists e, (post_request cfg message). repeat split.
  - split.
    + intros Hb. destruct (body_carries_clean _ _ Hb) as [Hc Hm].
      destruct (body_carries_utf8 _ _ Hb) as [Uc Um]. auto.
    + intros (Hc & Hm & Uc & Um).
      eexists. split; [apply (clean_body cfg message Hc Hm Uc Um)|].
      split; [left; reflexivity|right; left; reflexivity].
  - apply clean_body.
  - intros Hq Hb. apply body_carries_clean in Hb. destruct Hb as [_ Hm].
    rewrite (contains_quote_not_clean _ Hq) in Hm. discriminate.
  - vm_compute. reflexivity.
  - vm_compute. reflexivity.
  - intros w Hw.
    pose proof (MainPoll_sendMessage_cases Samples.cfg0 w
                  SamplesPoll.hw1_message) as H.
    rewrite Hw in H. destruct H as [e ->].
    exists e, (post_request Samples.cfg0 SamplesPoll.hw1_message).
    split; [reflexivity|]. vm_compute. reflexivity.
Qed.

Lemma C10_witness :
  body_carries Samples.cfg0 "hello" /\
  parse (MainPoll.sendMessage_data Samples.cfg0 "hello") =
    Some (JObject [("chat_id", JString "42"); ("text", JString "hello")]) /\
  ~ body_carries Samples.cfg0 SamplesPoll.hw1_message /\
  exists e r,
    MainPoll.sendMessage Samples.cfg0 (Samples.world_of Samples.payload_hw1)
        SamplesPoll.hw1_message
      = Done e [HttpDo r] /\
    parse (Body r) = None.
Proof.
  pose proof (C10_sendMessage_body_json Samples.cfg0 "hello")
    as (_ & _ & Hiff & Hparse & _).
  pose proof (C10_sendMessage_body_json Samples.cfg0 SamplesPoll.hw1_message)
    as (_ & _ & _ & _ & Hquote & _ & _ & Hsent).
  split; [|split; [|split]].
  - apply Hiff. repeat split; reflexivity.
  - apply Hparse; reflexivity.
  - apply Hquote. reflexivity.
  - apply (Hsent (Samples.world_of Samples.payload_hw1)). reflexivity.
Defined.

(** * Further properties of the code *)

(** ** The validator reads [homeworks] and nothing else *)

(** X1. [checkResponse] looks at no key of the response but [homeworks]:
    setting or removing any other key, [current_date] included, changes
    neither its records nor its error. *)
Theorem X1_checkResponse_reads_homeworks_only :
  forall (response : gmap string value) (k : string) (v : value),
    k <> "homeworks" ->
    MainGo.checkResponse (<[k := v]> response) = MainGo.checkResponse response /\
    MainGo.checkResponse (delete k response) = MainGo.checkResponse response /\
    Part000.checkResponse (<[k := v]> response)
      = Part000.checkResponse response /\
    Part000.checkResponse (delete k response) = Part000.checkResponse response.
Proof.
  intros response k v Hk.
  unfold MainGo.checkResponse, Part000.checkResponse.
  rewrite lookup_insert_ne, lookup_delete_ne by exact Hk.
  repeat split.
Qed.

Lemma current_date_not_homeworks : "current_date" <> "homeworks".
Proof. discriminate. Defined.

Lemma X1_witness :
  MainGo.checkResponse
      (<["current_date" := VString "tomorrow"]> Samples.payload_hw1)
    = MainGo.checkResponse Samples.payload_hw1 /\
  Part000.checkResponse (delete "current_date" Samples.payload_hw1)
    = Part000.checkResponse Samples.payload_hw1.
Proof.
  split.
  - exact (proj1 (X1_checkResponse_reads_homeworks_only Samples.payload_hw1
                    "current_date" (VString "tomorrow")
                    current_date_not_homeworks)).
  - exact (proj2 (proj2 (proj2 (X1_checkResponse_reads_homeworks_only
                    Samples.payload_hw1 "current_date" VNil
                    current_date_not_homeworks)))).
Defined.

(** ** The two validators agree *)

(** The name and status of a record of src/unnamed/part_000. *)
Definition core (h : Part000.Homework) : MainGo.Homework :=
  {| MainGo.Name := Part000.Name h; MainGo.Status := Part000.Status h |}.

Lemma ranges_agree (rest : list value) :
  forall (i : nat) (a : list MainGo.Homework) (b : list Part000.Homework),
    a = core <$> b ->
    match MainGo.checkResponse_range i rest a,
          Part000.checkResponse_range i rest b with
    | inl a', inl b' => a' = core <$> b'
    | inr ea, inr eb =>
        exists d, ea = MainGo_error_text d /\ eb = Part000_error_text d
    | _, _ => False
    end.
Proof.
  induction rest as [|x rest IH]; intros i a b Hab; [exact Hab|].
  cbn [MainGo.checkResponse_range Part000.checkResponse_range].
  destruct (as_map (Some x)) as [m|]; [|now exists ElementNotObject].
  destruct (as_string (m !! "homework_name")) as [n|];
    [|now exists NameNotString].
  destruct (as_string (m !! "status")) as [st|]; [|now exists StatusNotString].
  apply IH. rewrite Hab, list_fmap_insert. reflexivity.
Qed.

(** X2. The validator of src/unnamed/part_000 accepts exactly the responses
    the validator of src/main.go accepts, with the same names and statuses in
    the same order; when they reject, they reject for the same defect. *)
Theorem X2_validators_agree :
  forall response : gmap string value,
    match MainGo.checkResponse response, Part000.checkResponse response with
    | (Some a, None), (Some b, None) => a = core <$> b
    | (None, Some ea), (None, Some eb) =>
        exists d, ea = MainGo_error_text d /\ eb = Part000_error_text d
    | _, _ => False
    end.
Proof.
  intros response. unfold MainGo.checkResponse, Part000.checkResponse.
  destruct (as_slice (response !! "homeworks")) as [l|];
    [|now exists HomeworksNotList].
  pose proof (ranges_agree l 0
                (replicate (length l) MainGo.zeroHomework)
                (replicate (length l) Part000.zeroHomework)) as H.
  rewrite fmap_replicate in H. specialize (H eq_refl).
  destruct (MainGo.checkResponse_range _ _ _),
           (Part000.checkResponse_range _ _ _); exact H.
Qed.

(** ** Notifications tell records apart *)

Lemma quote_split_unique (a b x y : string) :
  contains x dq = false ->
  contains y dq = false ->
  a +:+ dq +:+ x = b +:+ dq +:+ y ->
  a = b /\ x = y.
Proof.
  intros Hx Hy. revert b. induction a as [|c a IH]; intros [|c' b] E.
  - split; [reflexivity|].
    change (String (ascii_of_nat 34) x = String (ascii_of_nat 34) y) in E.
    now injection E.
  - exfalso.
    change (String (ascii_of_nat 34) x = String c' (b +:+ dq +:+ y)) in E.
    injection E as _ E. rewrite E, contains_app in Hx. discriminate.
  - exfalso.
    change (String c (a +:+ dq +:+ x) = String (ascii_of_nat 34) y) in E.
    injection E as _ E. rewrite <- E, contains_app in Hy. discriminate.
  - change (String c (a +:+ dq +:+ x) = String c' (b +:+ dq +:+ y)) in E.
    injection E as -> E. destruct (IH b E) as [-> ->]. now split.
Qed.

Lemma verdict_no_quote (s verdict : string) :
  HomeworkVerdict !! s = Some verdict ->
  contains (": " +:+ verdict) dq = false.
Proof.
  rewrite HomeworkVerdict_lookup.
  destruct (String.eqb s ApprovedStatus);
    [intros H; injection H as <-; reflexivity|].
  destruct (String.eqb s ReviewingStatus);
    [intros H; injection H as <-; reflexivity|].
  destruct (String.eqb s RejectedStatus);
    [intros H; injection H as <-; reflexivity|discriminate].
Qed.

Lemma verdict_injective (s1 s2 verdict : string) :
  HomeworkVerdict !! s1 = Some verdict ->
  HomeworkVerdict !! s2 = Some verdict ->
  s1 = s2.
Proof.
  rewrite !HomeworkVerdict_lookup.
  destruct (String.eqb_spec s1 ApprovedStatus) as [->|_];
    [|destruct (String.eqb_spec s1 ReviewingStatus) as [->|_];
      [|destruct (String.eqb_spec s1 RejectedStatus) as [->|_];
        [|discriminate]]];
    (destruct (String.eqb_spec s2 ApprovedStatus) as [->|_];
     [|destruct (String.eqb_spec s2 ReviewingStatus) as [->|_];
       [|destruct (String.eqb_spec s2 RejectedStatus) as [->|_];
         [|intros _ H; discriminate H]]]);
    intros H1 H2; try reflexivity;
    injection H1 as <-; discriminate H2.
Qed.

(** X3. In src/main.go the notification determines the record: two records
    with statuses among approved, reviewing, rejected that translate to the
    same message have the same name and the same status, whatever bytes the
    names hold. *)
Theorem X3_parseStatus_injective :
  forall (h1 h2 : MainGo.Homework) (message : string) (tr1 tr2 : trace),
    known_status (MainGo.Status h1) ->
    known_status (MainGo.Status h2) ->
    MainGo.parseStatus h1 = Done (message, None) tr1 ->
    MainGo.parseStatus h2 = Done (message, None) tr2 ->
    h1 = h2.
Proof.
  intros [n1 s1] [n2 s2] message tr1 tr2 K1 K2 H1 H2. cbn in K1, K2.
  destruct (known_status_lookup _ K1) as [v1 V1].
  destruct (known_status_lookup _ K2) as [v2 V2].
  rewrite (MainGo_parseStatus_known
             {| MainGo.Name := n1; MainGo.Status := s1 |} v1 V1) in H1.
  rewrite (MainGo_parseStatus_known
             {| MainGo.Name := n2; MainGo.Status := s2 |} v2 V2) in H2.
  cbn [MainGo.Name] in H1, H2.
  injection H1 as H1 _. injection H2 as H2 _. rewrite <- H2 in H1.
  apply append_inv_head in H1.
  change (dq +:+ n1 +:+ dq +:+ ": " +:+ v1 = dq +:+ n2 +:+ dq +:+ ": " +:+ v2)
    with (String (ascii_of_nat 34) (n1 +:+ dq +:+ ": " +:+ v1)
          = String (ascii_of_nat 34) (n2 +:+ dq +:+ ": " +:+ v2)) in H1.
  injection H1 as H1.
  destruct (quote_split_unique _ _ _ _ (verdict_no_quote _ _ V1)
              (verdict_no_quote _ _ V2) H1) as [-> Hv].
  apply (append_inv_head ": ") in Hv. subst v2.
  now rewrite (verdict_injective _ _ _ V1 V2).
Qed.

Lemma approved_known : known_status "approved".
Proof. left. reflexivity. Defined.

Lemma X3_witness :
  {| MainGo.Name := "hw1"; MainGo.Status := "approved" |}
  = {| MainGo.Name := "hw1"; MainGo.Status := "approved" |}.
Proof.
  exact (X3_parseStatus_injective
           {| MainGo.Name := "hw1"; MainGo.Status := "approved" |}
           {| MainGo.Name := "hw1"; MainGo.Status := "approved" |}
           SamplesPoll.hw1_message [] []
           approved_known approved_known eq_refl eq_refl).
Defined.

(** ** When a fetch succeeds *)

Lemma MainPoll_getAPIAnswer_result cfg w t :
  match MainPoll.getAPIAnswer cfg w t with
  | Panic _ => False
  | Done (data, None) _ => fetch_ok w (api_request cfg t) data
  | Done (data, Some _) _ =>
      data = ∅ /\ forall d, ~ fetch_ok w (api_request cfg t) d
  end.
Proof.
  unfold MainPoll.getAPIAnswer, fetch_ok. fold (api_request cfg t).
  change (Endpoint +:+ "?from_date=" +:+ fmt_d t) with (URL (api_request cfg t)).
  destruct (new_request_err w "GET" _) as [e|] eqn:Hn.
  { split; [reflexivity|]. intros d [H _]. discriminate. }
  run. destruct (client_do w (api_request cfg t)) as [resp|e] eqn:Hd.
  2: { split; [reflexivity|]. intros d (_ & resp & H & _). discriminate. }
  destruct (StatusCode resp =? http_StatusOK) eqn:Hc; cbn [negb].
  2: { split; [reflexivity|]. intros d (_ & resp' & H & Hc' & _).
       injection H as <-. apply Z.eqb_eq in Hc'. congruence. }
  apply Z.eqb_eq in Hc.
  destruct (Decoded resp) as [data [e|]] eqn:He.
  - split; [reflexivity|]. intros d (_ & resp' & H & _ & He').
    injection H as <-. congruence.
  - split; [reflexivity|]. now exists resp.
Qed.

Lemma MainCmd_getAPIAnswer_result cfg w t :
  match MainCmd.getAPIAnswer cfg w t with
  | Panic _ => False
  | Done (data, None) _ => fetch_ok w (api_request cfg t) data
  | Done (data, Some _) _ =>
      data = ∅ /\ forall d, ~ fetch_ok w (api_request cfg t) d
  end.
Proof.
  unfold MainCmd.getAPIAnswer, fetch_ok. fold (api_request cfg t).
  change (Endpoint +:+ "?from_date=" +:+ fmt_d t) with (URL (api_request cfg t)).
  destruct (new_request_err w "GET" _) as [e|] eqn:Hn.
  { split; [reflexivity|]. intros d [H _]. discriminate. }
  run. destruct (client_do w (api_request cfg t)) as [resp|e] eqn:Hd.
  2: { split; [reflexivity|]. intros d (_ & resp & H & _). discriminate. }
  destruct (StatusCode resp =? http_StatusOK) eqn:Hc; cbn [negb].
  2: { destruct (CloseErr resp); (split; [reflexivity|]);
         intros d (_ & resp' & H & Hc' & _);
         injection H as <-; apply Z.eqb_eq in Hc'; congruence. }
  apply Z.eqb_eq in Hc.
  destruct (Decoded resp) as [data [e|]] eqn:He.
  - destruct (CloseErr resp); (split; [reflexivity|]);
      intros d (_ & resp' & H & _ & He'); injection H as <-; congruence.
  - destruct (CloseErr resp); (split; [reflexivity|]); now exists resp.
Qed.

Lemma Part000_getAPIAnswer_result cfg w t :
  match Part000.getAPIAnswer cfg w t with
  | Panic _ => False
  | Done (data, None) _ =>
      fetch_ok w (api_request cfg (Part000_from_date w t)) data
  | Done (data, Some _) _ =>
      data = ∅ /\
      forall d, ~ fetch_ok w (api_request cfg (Part000_from_date w t)) d
  end.
Proof.
  unfold Part000.getAPIAnswer, fetch_ok.
  fold (Part000_from_date w t). set (ts := Part000_from_date w t).
  fold (api_request cfg ts).
  change (Endpoint +:+ "?from_date=" +:+ fmt_d ts) with (URL (api_request cfg ts)).
  destruct (new_request_err w "GET" _) as [e|] eqn:Hn.
  { split; [reflexivity|]. intros d [H _]. discriminate. }
  run. destruct (client_do w (api_request cfg ts)) as [resp|e] eqn:Hd.
  2: { split; [reflexivity|]. intros d (_ & resp & H & _). discriminate. }
  destruct (StatusCode resp =? http_StatusOK) eqn:Hc; cbn [negb].
  2: { split; [reflexivity|]. intros d (_ & resp' & H & Hc' & _).
       injection H as <-. apply Z.eqb_eq in Hc'. congruence. }
  apply Z.eqb_eq in Hc.
  destruct (Decoded resp) as [data [e|]] eqn:He.
  - split; [reflexivity|]. intros d (_ & resp' & H & _ & He').
    injection H as <-. congruence.
  - split; [reflexivity|]. now exists resp.
Qed.

(** X4. [getAPIAnswer] returns no error exactly when the request could be
    built, the transport answered, the status was 200 and the body decoded;
    the map it returns is then the decoded body.  In every other case it
    returns an error and the empty (nil) map, and it never panics.  In
    src/unnamed/part_000 the request is the one for the shifted timestamp. *)
Theorem X4_getAPIAnswer_result :
  forall (cfg : Config) (w : World) (t : Z),
    match MainCmd.getAPIAnswer cfg w t with
    | Panic _ => False
    | Done (data, None) _ => fetch_ok w (api_request cfg t) data
    | Done (data, Some _) _ =>
        data = ∅ /\ forall d, ~ fetch_ok w (api_request cfg t) d
    end /\
    match MainPoll.getAPIAnswer cfg w t with
    | Panic _ => False
    | Done (data, None) _ => fetch_ok w (api_request cfg t) data
    | Done (data, Some _) _ =>
        data = ∅ /\ forall d, ~ fetch_ok w (api_request cfg t) d
    end /\
    match Part000.getAPIAnswer cfg w t with
    | Panic _ => False
    | Done (data, None) _ =>
        fetch_ok w (api_request cfg (Part000_from_date w t)) data
    | Done (data, Some _) _ =>
        data = ∅ /\
        forall d, ~ fetch_ok w (api_request cfg (Part000_from_date w t)) d
    end.
Proof.
  intros cfg w t. split; [|split].
  - apply MainCmd_getAPIAnswer_result.
  - apply MainPoll_getAPIAnswer_result.
  - apply Part000_getAPIAnswer_result.
Qed.

(** ** When a notification of the polling program succeeds *)

(** X5. The [sendMessage] of the polling program issues at most one
    request, a POST to the sendMessage method of the bot's token with content
    type application/json, and returns no error exactly when that request
    could be built, the transport answered and the status was 200; what the
    answer says in its body is not read. *)
Theorem X5_sendMessage_result :
  forall (cfg : Config) (w : World) (message : string),
    URL (post_request cfg message)
      = "https://api.telegram.org/bot" +:+ TelegramToken cfg +:+ "/sendMessage" /\
    match MainPoll.sendMessage cfg w message with
    | Panic _ => False
    | Done None tr =>
        tr = [HttpDo (post_request cfg message)] /\
        post_ok w (post_request cfg message)
    | Done (Some _) tr =>
        (tr = [] \/ tr = [HttpDo (post_request cfg message)]) /\
        ~ post_ok w (post_request cfg message)
    end.
Proof.
  intros cfg w message. split; [reflexivity|].
  unfold MainPoll.sendMessage, post_ok. fold (telegram_url cfg).
  fold (post_request cfg message).
  change (URL (post_request cfg message)) with (telegram_url cfg).
  destruct (new_request_err w "POST" (telegram_url cfg)) as [e|] eqn:Hn.
  { split; [now left|]. intros [H _]. discriminate. }
  run. destruct (client_do w (post_request cfg message)) as [resp|e] eqn:Hd.
  2: { split; [now right|]. intros (_ & resp & H & _). discriminate. }
  destruct (StatusCode resp =? http_StatusOK) eqn:Hc; cbn [negb].
  - apply Z.eqb_eq in Hc. split; [reflexivity|]. split; [reflexivity|].
    now exists resp.
  - split; [now right|]. intros (_ & resp' & H & Hc').
    injection H as <-. apply Z.eqb_eq in Hc'. congruence.
Qed.

(** ** The events of one iteration of [runBot] *)

Lemma sleeps_app (a b : trace) : sleeps (a ++ b) = sleeps a ++ sleeps b.
Proof. apply omap_app. Qed.

Lemma MainPoll_getAPIAnswer_trace cfg w t :
  exists r, MainPoll.getAPIAnswer cfg w t =
    Done r match new_request_err w "GET" (URL (api_request cfg t)) with
           | None => [HttpDo (api_request cfg t)]
           | Some _ => []
           end.
Proof.
  unfold MainPoll.getAPIAnswer. fold (api_request cfg t).
  change (Endpoint +:+ "?from_date=" +:+ fmt_d t) with (URL (api_request cfg t)).
  destruct (new_request_err w "GET" _) as [e|]; [now eexists|].
  fetch_cases w (api_request cfg t); now eexists.
Qed.

Lemma MainPoll_sendMessage_total cfg w message :
  exists e trs,
    MainPoll.sendMessage cfg w message = Done e trs /\
    sleeps trs = [] /\ logs trs = [] /\
    (trs = [] \/ trs = [HttpDo (post_request cfg message)]).
Proof.
  pose proof (MainPoll_sendMessage_cases cfg w message) as H.
  destruct (new_request_err w "POST" (telegram_url cfg)).
  - rewrite H. eexists _, _. repeat split. now left.
  - destruct H as [e ->]. eexists _, _. repeat split. now right.
Qed.

Lemma MainGo_parseStatus_trace (hw : MainGo.Homework) :
  exists p trp, MainGo.parseStatus hw = Done p trp /\
                sleeps trp = [] /\ requests trp = [] /\
                (p.2 = None \/ exists l, trp = [Log l]).
Proof.
  unfold MainGo.parseStatus.
  destruct (HomeworkVerdict !! MainGo.Status hw);
    [eexists _, _; repeat split; now left|].
  destruct (String.eqb _ _); eexists _, _; repeat split;
    [now left|right; now eexists].
Qed.

(** The events between the fetch and the sleep of an iteration that saw a
    new status. *)
Definition notify_trace (p : string * error) (trp : trace)
    (e : error) (trs : trace) : trace :=
  trp ++
  match p.2 with
  | Some err => [Log ("Ошибка при разборе статуса домашней работы: " +:+ err)]
  | None =>
      trs ++ match e with
             | Some err => [Log ("Ошибка при отправке сообщения: " +:+ err)]
             | None => []
             end
  end.

Lemma MainPoll_iter_changed_trace cfg w st response tr0 f hs :
  MainPoll.getAPIAnswer cfg w (MainPoll.currentTimestamp st)
    = Done (response, None) tr0 ->
  as_float64 (response !! "current_date") = Some f ->
  MainGo.checkResponse response = (hs, None) ->
  MainGo.Status (MainPoll.report_of hs)
    <> MainGo.Status (MainPoll.prevReport st) ->
  exists p trp e trs,
    MainGo.parseStatus (MainPoll.report_of hs) = Done p trp /\
    MainPoll.sendMessage cfg w p.1 = Done e trs /\
    MainPoll.runBot_iter cfg w st =
      Done {| MainPoll.currentTimestamp := int64_of_float64 f;
              MainPoll.currentReport := MainPoll.report_of hs;
              MainPoll.prevReport := MainPoll.report_of hs |}
           (tr0 ++ notify_trace p trp e trs ++ [Sleep MainGo.RetryPeriod]).
Proof.
  intros Hfetch Hdate Hc Hs. unfold MainPoll.runBot_iter. rewrite Hfetch. run.
  unfold must_float64. rewrite Hdate. run. rewrite Hc.
  apply String.eqb_neq in Hs. rewrite Hs. cbn [negb].
  destruct (MainGo_parseStatus_trace (MainPoll.report_of hs))
    as ([message perr] & trp & Hp & _).
  destruct (MainPoll_sendMessage_total cfg w message)
    as (e & trs & Hsend & _).
  exists (message, perr), trp, e, trs. rewrite Hp. cbn [fst snd].
  split; [reflexivity|]. split; [exact Hsend|].
  unfold notify_trace. cbn [snd]. run.
  destruct perr as [err|]; run.
  - rewrite <- !app_assoc. reflexivity.
  - rewrite Hsend. run. destruct e as [err|]; run;
      rewrite <- ?app_assoc, ?app_nil_r; reflexivity.
Qed.

(** Every way an iteration of [runBot] can go. *)
Lemma MainPoll_iter_cases cfg w st :
  exists r0 tr0,
    MainPoll.getAPIAnswer cfg w (MainPoll.currentTimestamp st) = Done r0 tr0 /\
    tr0 = match new_request_err w "GET"
                  (URL (api_request cfg (MainPoll.currentTimestamp st))) with
          | None => [HttpDo (api_request cfg (MainPoll.currentTimestamp st))]
          | Some _ => []
          end /\
    match r0.2 with
    | Some err =>
        MainPoll.runBot_iter cfg w st =
          Done st (tr0 ++ [Log ("Не удалось получить ответ от API: " +:+ err);
                           Sleep MainGo.RetryPeriod])
    | None =>
        match as_float64 (r0.1 !! "current_date") with
        | None => MainPoll.runBot_iter cfg w st = Panic tr0
        | Some f =>
            match MainGo.checkResponse r0.1 with
            | (_, Some err) =>
                MainPoll.runBot_iter cfg w st =
                  Done {| MainPoll.currentTimestamp := int64_of_float64 f;
                          MainPoll.currentReport := MainPoll.currentReport st;
                          MainPoll.prevReport := MainPoll.prevReport st |}
                       (tr0 ++ [Log ("Неверный ответ от API: " +:+ err);
                                Sleep MainGo.RetryPeriod])
            | (hs, None) =>
                if String.eqb (MainGo.Status (MainPoll.report_of hs))
                              (MainGo.Status (MainPoll.prevReport st))
                then
                  MainPoll.runBot_iter cfg w st =
                    Done {| MainPoll.currentTimestamp := int64_of_float64 f;
                            MainPoll.currentReport := MainPoll.report_of hs;
                            MainPoll.prevReport := MainPoll.prevReport st |}
                         (tr0 ++ [Sleep MainGo.RetryPeriod])
                else
                  exists p trp e trs,
                    MainGo.parseStatus (MainPoll.report_of hs) = Done p trp /\
                    MainPoll.sendMessage cfg w p.1 = Done e trs /\
                    MainPoll.runBot_iter cfg w st =
                      Done {| MainPoll.currentTimestamp := int64_of_float64 f;
                              MainPoll.currentReport := MainPoll.report_of hs;
                              MainPoll.prevReport := MainPoll.report_of hs |}
                           (tr0 ++ notify_trace p trp e trs
                                ++ [Sleep MainGo.RetryPeriod])
            end
        end
    end.
Proof.
  destruct (MainPoll_getAPIAnswer_trace cfg w (MainPoll.currentTimestamp st))
    as [[response oerr] Hfetch].
  eexists _, _. split; [exact Hfetch|]. split; [reflexivity|]. cbn [fst snd].
  destruct oerr as [err|].
  { apply (MainPoll_iter_fetch_error _ _ _ _ _ _ Hfetch). }
  destruct (as_float64 (response !! "current_date")) as [f|] eqn:Hf.
  2: { apply (MainPoll_iter_panic _ _ _ _ _ Hfetch Hf). }
  destruct (MainGo.checkResponse response) as [hs [err|]] eqn:Hc.
  { apply (MainPoll_iter_schema_error _ _ _ _ _ Hfetch _ Hf _ _ Hc). }
  destruct (String.eqb_spec (MainGo.Status (MainPoll.report_of hs))
              (MainGo.Status (MainPoll.prevReport st))) as [E|E].
  - apply (MainPoll_iter_same _ _ _ _ _ Hfetch _ Hf _ Hc E).
  - apply (MainPoll_iter_changed_trace _ _ _ _ _ _ _ Hfetch Hf Hc E).
Qed.

Lemma notify_trace_sleeps cfg w p trp e trs hw :
  MainGo.parseStatus hw = Done p trp ->
  MainPoll.sendMessage cfg w p.1 = Done e trs ->
  sleeps (notify_trace p trp e trs) = [].
Proof.
  intros Hp Hs.
  destruct (MainGo_parseStatus_trace hw) as (p' & trp' & Hp' & Hsl & _).
  rewrite Hp in Hp'. injection Hp' as <- <-.
  destruct (MainPoll_sendMessage_total cfg w p.1) as (e' & trs' & Hs' & Hsl' & _).
  rewrite Hs in Hs'. injection Hs' as <- <-.
  unfold notify_trace. rewrite sleeps_app, Hsl.
  destruct p.2; [reflexivity|]. rewrite sleeps_app, Hsl'. now destruct e.
Qed.

(** X6. Every iteration of [runBot] that does not panic ends with one sleep
    of 600 seconds and sleeps nowhere else: after a failed fetch, a rejected
    response, an unchanged status and a notification alike.  An iteration
    that panics does not sleep. *)
Theorem X6_runBot_sleeps_once :
  forall (cfg : Config) (w : World) (st : MainPoll.LoopState),
    match MainPoll.runBot_iter cfg w st with
    | Done _ tr => exists tr', tr = tr' ++ [Sleep 600] /\ sleeps tr' = []
    | Panic tr => sleeps tr = []
    end.
Proof.
  intros cfg w st.
  destruct (MainPoll_iter_cases cfg w st) as ([response oerr] & tr0 & _ & Htr & H).
  assert (Hs0 : sleeps tr0 = []) by (rewrite Htr; now destruct (new_request_err _ _ _)).
  cbn [fst snd] in H. destruct oerr as [err|].
  { rewrite H. eexists (tr0 ++ [Log _]). rewrite <- app_assoc.
    split; [reflexivity|]. now rewrite sleeps_app, Hs0. }
  destruct (as_float64 _) as [f|]; [|now rewrite H].
  destruct (MainGo.checkResponse response) as [hs [err|]].
  { rewrite H. eexists (tr0 ++ [Log _]). rewrite <- app_assoc.
    split; [reflexivity|]. now rewrite sleeps_app, Hs0. }
  destruct (String.eqb _ _).
  - rewrite H. exists tr0. now split.
  - destruct H as (p & trp & e & trs & Hp & Hsend & ->).
    exists (tr0 ++ notify_trace p trp e trs). rewrite <- app_assoc.
    split; [reflexivity|].
    now rewrite sleeps_app, Hs0, (notify_trace_sleeps _ _ _ _ _ _ _ Hp Hsend).
Qed.

Lemma notify_trace_requests cfg w p trp e trs hw :
  MainGo.parseStatus hw = Done p trp ->
  MainPoll.sendMessage cfg w p.1 = Done e trs ->
  Forall (fun r => Method r = "POST") (requests (notify_trace p trp e trs)).
Proof.
  intros Hp Hs.
  destruct (MainGo_parseStatus_trace hw) as (p' & trp' & Hp' & _ & Hr & _).
  rewrite Hp in Hp'. injection Hp' as <- <-.
  destruct (MainPoll_sendMessage_total cfg w p.1)
    as (e' & trs' & Hs' & _ & _ & Ht).
  rewrite Hs in Hs'. injection Hs' as <- <-.
  unfold notify_trace. rewrite requests_app, Hr.
  destruct p.2; [constructor|]. rewrite requests_app.
  destruct Ht as [-> | ->]; destruct e; repeat constructor.
Qed.

(** X7. The cursor of [runBot].  Each iteration asks the API from the
    cursor it starts with, and any further request it makes is a POST.  After
    a failed fetch the whole state is what it was; after a fetch that
    succeeded the cursor is the response's [current_date] as an int64,
    whether or not the response then passes [checkResponse]. *)
Theorem X7_runBot_cursor :
  forall (cfg : Config) (w : World) (st : MainPoll.LoopState),
    (exists posted,
       requests (events (MainPoll.runBot_iter cfg w st)) =
         match new_request_err w "GET"
                 (URL (api_request cfg (MainPoll.currentTimestamp st))) with
         | None => [api_request cfg (MainPoll.currentTimestamp st)]
         | Some _ => []
         end ++ posted /\
       Forall (fun r => Method r = "POST") posted) /\
    match MainPoll.runBot_iter cfg w st,
          MainPoll.getAPIAnswer cfg w (MainPoll.currentTimestamp st) with
    | Done st' _, Done (response, None) _ =>
        exists f, as_float64 (response !! "current_date") = Some f /\
                  MainPoll.currentTimestamp st' = int64_of_float64 f
    | Done st' _, Done (_, Some _) _ => st' = st
    | Done _ _, Panic _ => False
    | Panic _, _ => True
    end.
Proof.
  intros cfg w st.
  destruct (MainPoll_iter_cases cfg w st)
    as ([response oerr] & tr0 & Hfetch & Htr & H).
  rewrite Hfetch. cbn [fst snd] in H.
  assert (Hr0 : requests tr0 =
            match new_request_err w "GET"
                    (URL (api_request cfg (MainPoll.currentTimestamp st))) with
            | None => [api_request cfg (MainPoll.currentTimestamp st)]
            | Some _ => []
            end)
    by (rewrite Htr; now destruct (new_request_err _ _ _)).
  destruct oerr as [err|].
  { rewrite H. cbn [events]. split; [|reflexivity].
    exists []. rewrite requests_app, Hr0. split; [reflexivity|constructor]. }
  destruct (as_float64 _) as [f|].
  2: { rewrite H. cbn [events]. split; [|exact I].
       exists []. rewrite Hr0, app_nil_r. split; [reflexivity|constructor]. }
  destruct (MainGo.checkResponse response) as [hs [err|]].
  { rewrite H. cbn [events]. split; [|now exists f].
    exists []. rewrite requests_app, Hr0. split; [reflexivity|constructor]. }
  destruct (String.eqb _ _).
  - rewrite H. cbn [events]. split; [|now exists f].
    exists []. rewrite requests_app, Hr0. split; [reflexivity|constructor].
  - destruct H as (p & trp & e & trs & Hp & Hsend & ->). cbn [events].
    split; [|now exists f].
    exists (requests (notify_trace p trp e trs)).
    rewrite !requests_app, Hr0. cbn [requests omap]. rewrite app_nil_r.
    split; [reflexivity|].
    apply (notify_trace_requests _ _ _ _ _ _ _ Hp Hsend).
Qed.

(** ** Every way a call of [fetchAPIResponse] can go *)

Lemma Part000_getAPIAnswer_trace cfg w t :
  exists r tr,
    Part000.getAPIAnswer cfg w t = Done r tr /\
    requests tr =
      match new_request_err w "GET"
              (URL (api_request cfg (Part000_from_date w t))) with
      | None => [api_request cfg (Part000_from_date w t)]
      | Some _ => []
      end /\
    bot_sends tr = [] /\ logs tr = [].
Proof.
  pose proof (Part000_getAPIAnswer_requests cfg w t) as Hreq.
  destruct (Part000_getAPIAnswer_quiet cfg w t) as (r & tr & E & _ & Hs & Hl).
  rewrite E in Hreq. exists r, tr. repeat split; auto.
Qed.

Inductive fetch_case (cfg : Config) (w : World) (last : string)
    (response : gmap string value) (tr0 : trace)
    : outcome (slice Part000.Homework * error * string) -> Prop :=
| fetch_rejected err :
    Part000.checkResponse response = (None, Some err) ->
    fetch_case cfg w last response tr0
      (Done (None, Some err, last)
         (tr0 ++ [Log ("Неверный ответ от API: " +:+ err)]))
| fetch_nothing :
    Part000.checkResponse response = (Some [], None) ->
    fetch_case cfg w last response tr0
      (Done (Some [], None, last)
         (tr0 ++ [Log "Результат запроса к API: Нет новых статусов работ."]))
| fetch_untranslated hw rest err l :
    Part000.checkResponse response = (Some (hw :: rest), None) ->
    Part000.parseStatus hw = Done (EmptyString, Some err) [Log l] ->
    fetch_case cfg w last response tr0
      (Done (None, Some err, last) (tr0 ++ [Log l]))
| fetch_same hw rest :
    Part000.checkResponse response = (Some (hw :: rest), None) ->
    Part000.parseStatus hw = Done (last, None) [] ->
    fetch_case cfg w last response tr0
      (Done (Some (hw :: rest), None, last) tr0)
| fetch_no_chat hw rest message :
    Part000.checkResponse response = (Some (hw :: rest), None) ->
    Part000.parseStatus hw = Done (message, None) [] ->
    message <> last ->
    ParseInt (TelegramChatID cfg) = None ->
    fetch_case cfg w last response tr0
      (Done (None, Some (num_error w (TelegramChatID cfg)), last)
         (tr0 ++ [Log ("Ошибка при преобразовании TelegramChatID в int64: "
                         +:+ num_error w (TelegramChatID cfg))]))
| fetch_unsent hw rest message chatID err :
    Part000.checkResponse response = (Some (hw :: rest), None) ->
    Part000.parseStatus hw = Done (message, None) [] ->
    message <> last ->
    ParseInt (TelegramChatID cfg) = Some chatID ->
    bot_send w chatID message = Some err ->
    fetch_case cfg w last response tr0
      (Done (Some (hw :: rest), None, last)
         (tr0 ++ [BotSend chatID message;
                  Log ("Ошибка при отправке сообщения в Telegram: " +:+ err)]))
| fetch_sent hw rest message chatID :
    Part000.checkResponse response = (Some (hw :: rest), None) ->
    Part000.parseStatus hw = Done (message, None) [] ->
    message <> last ->
    ParseInt (TelegramChatID cfg) = Some chatID ->
    bot_send w chatID message = None ->
    fetch_case cfg w last response tr0
      (Done (Some (hw :: rest), None, message)
         (tr0 ++ [BotSend chatID message;
                  Log ("Сообщение отправлено в Telegram: " +:+ message)])).

Lemma Part000_fetch_cases cfg w last :
  exists r0 tr0,
    Part000.getAPIAnswer cfg w (now w) = Done r0 tr0 /\
    requests tr0 =
      match new_request_err w "GET"
              (URL (api_request cfg (Part000_from_date w (now w)))) with
      | None => [api_request cfg (Part000_from_date w (now w))]
      | Some _ => []
      end /\
    bot_sends tr0 = [] /\ logs tr0 = [] /\
    match r0.2 with
    | Some err =>
        Part000.fetchAPIResponse cfg w last =
          Done (None, Some err, last)
               (tr0 ++ [Log ("Не удалось получить ответ от API: " +:+ err)])
    | None =>
        match as_float64 (r0.1 !! "current_date") with
        | None => Part000.fetchAPIResponse cfg w last = Panic tr0
        | Some _ =>
            fetch_case cfg w last r0.1 tr0 (Part000.fetchAPIResponse cfg w last)
        end
    end.
Proof.
  destruct (Part000_getAPIAnswer_trace cfg w (now w))
    as ([response oerr] & tr0 & Hfetch & Hr & Hs & Hl).
  exists (response, oerr), tr0. repeat (split; [assumption|]). cbn [fst snd].
  destruct oerr as [err|].
  { apply (Part000_fetch_error _ _ _ _ _ _ Hfetch). }
  destruct (as_float64 (response !! "current_date")) as [f|] eqn:Hf.
  2: { apply (Part000_fetch_panic _ _ _ _ _ Hfetch Hf). }
  destruct (Part000_checkResponse_shape response) as [[err Hc]|[hs Hc]].
  { rewrite (Part000_fetch_schema_error _ _ _ _ _ Hfetch _ Hf _ _ Hc).
    now constructor. }
  destruct hs as [|hw rest].
  { rewrite (Part000_fetch_empty _ _ _ _ _ Hfetch _ Hf Hc). now constructor. }
  destruct (Part000_parseStatus_cases hw) as [[message Hp]|(err & l & Hp)].
  2: { rewrite (Part000_fetch_unknown _ _ _ _ _ Hfetch _ Hf _ _ _ _ Hc Hp).
       now apply fetch_untranslated with hw rest. }
  destruct (String.eqb_spec message last) as [->|Hne].
  { rewrite (Part000_fetch_unchanged _ _ _ _ _ Hfetch _ Hf _ _ Hc Hp).
    now apply fetch_same. }
  destruct (ParseInt (TelegramChatID cfg)) as [chatID|] eqn:Hid.
  2: { rewrite (Part000_fetch_bad_chat _ _ _ _ _ Hfetch _ Hf _ _ _ Hc Hp Hne Hid).
       now apply fetch_no_chat with hw rest message. }
  destruct (bot_send w chatID message) as [err|] eqn:Hsend.
  - rewrite (Part000_fetch_send_failed _ _ _ _ _ Hfetch _ Hf
               _ _ _ _ _ Hc Hp Hne Hid Hsend).
    now apply fetch_unsent.
  - rewrite (Part000_fetch_sent _ _ _ _ _ Hfetch _ Hf
               _ _ _ _ Hc Hp Hne Hid Hsend).
    now apply fetch_sent.
Qed.

(** ** What [fetchAPIResponse] asks, returns and sends *)

(** X8. A call of [fetchAPIResponse] calls the HTTP client of the program
    ([client.Do]) at most once, for the fetch, and asks it from the clock:
    from one hour before the current time (from the time read inside the
    fetch when the clock reads 0).  Neither the [current_date] of a response
    nor [lastSentMessage] enters that request, on any path, a panic
    included.  The notification does not go through this client: it goes
    through [bot.Send], which a call invokes at most once. *)
Theorem X8_fetchAPIResponse_asks_from_clock :
  forall (cfg : Config) (w : World) (last : string),
    requests (events (Part000.fetchAPIResponse cfg w last)) =
      match new_request_err w "GET"
              (URL (api_request cfg (Part000_from_date w (now w)))) with
      | None => [api_request cfg (Part000_from_date w (now w))]
      | Some _ => []
      end /\
    (length (bot_sends (events (Part000.fetchAPIResponse cfg w last))) <= 1)%nat.
Proof.
  intros cfg w last. split.
  - destruct (Part000_fetch_cases cfg w last)
      as ([response oerr] & tr0 & _ & Hr & _ & _ & H).
    cbn [fst snd] in H. destruct oerr as [err|].
    { rewrite H. cbn [events]. now rewrite requests_app, Hr, app_nil_r. }
    destruct (as_float64 _); [|now rewrite H].
    destruct H; cbn [events]; rewrite ?requests_app, Hr, ?app_nil_r;
      reflexivity.
  - pose proof (Part000_fetch_sends cfg w last) as H.
    destruct (Part000.fetchAPIResponse cfg w last) as [[r last'] tr|tr];
      cbn [events].
    + destruct H as [[-> _]|(c & m & _ & _ & _ & _ & -> & _)]; cbn; lia.
    + rewrite H. cbn. lia.
Qed.

(** X9. What [fetchAPIResponse] returns.  Whenever it returns an error, the
    slice is nil, nothing was sent and [lastSentMessage] is unchanged.
    Whenever it returns no error, the slice is the one [checkResponse] made
    of the fetched response: a send that failed is logged and not returned
    as an error. *)
Theorem X9_fetchAPIResponse_returns :
  forall (cfg : Config) (w : World) (last : string),
    match Part000.fetchAPIResponse cfg w last with
    | Done (hs, Some _, last') tr =>
        hs = None /\ last' = last /\ bot_sends tr = []
    | Done (hs, None, _) _ =>
        exists response tr0,
          Part000.getAPIAnswer cfg w (now w) = Done (response, None) tr0 /\
          Part000.checkResponse response = (hs, None)
    | Panic tr => bot_sends tr = []
    end.
Proof.
  intros cfg w last.
  destruct (Part000_fetch_cases cfg w last)
    as ([response oerr] & tr0 & Hfetch & _ & Hs & _ & H).
  cbn [fst snd] in H. destruct oerr as [err|].
  { rewrite H. repeat split. now rewrite bot_sends_app, Hs. }
  destruct (as_float64 _); [|now rewrite H].
  destruct H; try (repeat split; now rewrite bot_sends_app, Hs);
    now exists response, tr0.
Qed.

Lemma Part000_fetch_no_chat_id cfg w last :
  ParseInt (TelegramChatID cfg) = None ->
  exists r tr,
    (Part000.fetchAPIResponse cfg w last = Done (r, last) tr \/
     Part000.fetchAPIResponse cfg w last = Panic tr) /\
    bot_sends tr = [].
Proof.
  intros Hid.
  destruct (Part000_fetch_cases cfg w last)
    as ([response oerr] & tr0 & _ & _ & Hs & _ & H).
  cbn [fst snd] in H. destruct oerr as [err|].
  { rewrite H. eexists _, _. split; [now left|]. now rewrite bot_sends_app, Hs. }
  destruct (as_float64 _).
  2: { rewrite H. exists (None, None), tr0. split; [now right|exact Hs]. }
  destruct H; try congruence;
    (eexists _, _; split; [now left|]; now rewrite ?bot_sends_app, Hs).
Qed.

(** X10. [init] asks of the chat identifier only that it is not empty, and
    [fetchAPIResponse] parses it anew on every call.  When it is not a
    decimal int64, no sequence of ticks ever sends a message, and
    [lastSentMessage] stays what it was. *)
Theorem X10_unparsable_chat_id_never_sends :
  forall (cfg : Config) (ws : list World) (last : string),
    ParseInt (TelegramChatID cfg) = None ->
    bot_sends (events (Part000.poll cfg ws last)) = [] /\
    match Part000.poll cfg ws last with
    | Done last' _ => last' = last
    | Panic _ => True
    end.
Proof.
  intros cfg ws last Hid. revert last.
  induction ws as [|w ws IH]; intros last; [now split|].
  cbn [Part000.poll].
  destruct (Part000_fetch_no_chat_id cfg w last Hid)
    as (r & tr & [-> | ->] & Hs); run; [|now split].
  cbn [snd]. destruct (IH last) as [Hs' Hl'].
  destruct (Part000.poll cfg ws last) as [last' tr'|tr']; cbn [events] in *;
    rewrite bot_sends_app, Hs, Hs'; now split.
Qed.

Module SamplesChat.

(** A configuration whose chat identifier is a user name, not a number. *)
Definition cfg_named : Config :=
  {| PracticumToken := "practicum-token";
     TelegramToken := "123:telegram-token";
     TelegramChatID := "@my_channel" |}.

End SamplesChat.

Lemma X10_witness :
  bot_sends (events (Part000.poll SamplesChat.cfg_named
                       [Samples.world_of Samples.payload_hw1;
                        Samples.world_of Samples.payload_hw1] EmptyString))
    = [].
Proof.
  exact (proj1 (X10_unparsable_chat_id_never_sends SamplesChat.cfg_named
                  [Samples.world_of Samples.payload_hw1;
                   Samples.world_of Samples.payload_hw1] EmptyString eq_refl)).
Defined.

(** ** A message that stays the same *)








(** ** A status that stays the same *)

Lemma MainPoll_tick_shows cfg w st s :
  shows w s ->
  exists st' tr,
    MainPoll.runBot_iter cfg w st = Done st' tr /\
    MainGo.Status (MainPoll.prevReport st') = s /\
    (MainGo.Status (MainPoll.prevReport st) = s -> posts tr = []).
Proof.
  intros (payload & f & hs & Hw & Hf & Hc & Hs).
  pose proof (MainPoll_getAPIAnswer_answers cfg w
                (MainPoll.currentTimestamp st) _ Hw) as Hfetch.
  destruct (String.eqb_spec (MainGo.Status (MainPoll.report_of hs))
              (MainGo.Status (MainPoll.prevReport st))) as [E|E].
  - rewrite (MainPoll_iter_same _ _ _ _ _ Hfetch _ Hf _ Hc E).
    eexists _, _. split; [reflexivity|]. cbn [MainPoll.prevReport].
    split; [congruence|]. intros _. reflexivity.
  - destruct (MainPoll_iter_changed _ _ _ _ _ Hfetch _ Hf _ Hc E)
      as (p & trp & tr' & _ & -> & _).
    eexists _, _. split; [reflexivity|]. cbn [MainPoll.prevReport].
    split; [exact Hs|]. intros Hprev. congruence.
Qed.

Lemma MainPoll_loop_settled cfg s (ws : list World) :
  Forall (fun w => shows w s) ws ->
  forall st, MainGo.Status (MainPoll.prevReport st) = s ->
  exists st' tr, MainPoll.runBot_loop cfg ws st = Done st' tr /\
                 posts tr = [].
Proof.
  intros Hws. induction Hws as [|w ws Hw _ IH]; intros st Hst.
  - now eexists _, _.
  - cbn [MainPoll.runBot_loop].
    destruct (MainPoll_tick_shows cfg w st s Hw) as (st1 & tr1 & -> & H1 & Hp1).
    destruct (IH st1 H1) as (st' & tr' & E & Hp'). run. rewrite E.
    eexists _, _. split; [reflexivity|]. now rewrite posts_app, Hp1, Hp'.
Qed.

(** X12. While the status of the report stays the same from tick to tick,
    [runBot] posts in the first of these ticks at most: what the whole run
    posts is what its first iteration posts, whether that post was delivered,
    failed, or was never made because the status did not translate.  When
    [prevReport] already has the status, the run posts nothing.  The run does
    not panic. *)
Theorem X12_runBot_steady_status :
  forall (cfg : Config) (s : string) (ws : list World)
         (st : MainPoll.LoopState),
    Forall (fun w => shows w s) ws ->
    posts (events (MainPoll.runBot_loop cfg ws st)) =
      match ws with
      | [] => []
      | w :: _ => posts (events (MainPoll.runBot_iter cfg w st))
      end /\
    (MainGo.Status (MainPoll.prevReport st) = s ->
     posts (events (MainPoll.runBot_loop cfg ws st)) = []) /\
    panics (MainPoll.runBot_loop cfg ws st) = false.
Proof.
  intros cfg s ws st Hws. split; [|split].
  - destruct Hws as [|w ws Hw Hws]; [reflexivity|].
    cbn [MainPoll.runBot_loop].
    destruct (MainPoll_tick_shows cfg w st s Hw) as (st1 & tr1 & -> & H1 & _).
    destruct (MainPoll_loop_settled cfg s ws Hws st1 H1) as (st' & tr' & E & Hp).
    run. rewrite E. cbn [events]. now rewrite posts_app, Hp, app_nil_r.
  - intros Hst.
    destruct (MainPoll_loop_settled cfg s ws Hws st Hst) as (st' & tr' & -> & Hp).
    exact Hp.
  - destruct Hws as [|w ws Hw Hws]; [reflexivity|].
    cbn [MainPoll.runBot_loop].
    destruct (MainPoll_tick_shows cfg w st s Hw) as (st1 & tr1 & -> & H1 & _).
    destruct (MainPoll_loop_settled cfg s ws Hws st1 H1) as (st' & tr' & E & Hp).
    run. now rewrite E.
Qed.

Lemma world_of_shows_hw1 :
  shows (Samples.world_of Samples.payload_hw1) "approved".
Proof.
  exists Samples.payload_hw1, (float64_of_Z 1000), (Some [SamplesPoll.hw1]).
  split; [apply world_of_answers|]. repeat split.
Defined.

Lemma world_send_fails_shows_hw1 :
  shows (Samples.world_send_fails Samples.payload_hw1) "approved".
Proof.
  exists Samples.payload_hw1, (float64_of_Z 1000), (Some [SamplesPoll.hw1]).
  split; [apply world_send_fails_answers|]. repeat split.
Defined.

Lemma sample_ticks_show :
  Forall (fun w => shows w "approved")
    [Samples.world_send_fails Samples.payload_hw1;
     Samples.world_of Samples.payload_hw1;
     Samples.world_of Samples.payload_hw1].
Proof.
  constructor; [exact world_send_fails_shows_hw1|].
  constructor; [exact world_of_shows_hw1|].
  constructor; [exact world_of_shows_hw1|constructor].
Defined.

Lemma X12_witness :
  posts (events (MainPoll.runBot_loop Samples.cfg0
                   [Samples.world_send_fails Samples.payload_hw1;
                    Samples.world_of Samples.payload_hw1;
                    Samples.world_of Samples.payload_hw1] Samples.st0))
    = posts (events (MainPoll.runBot_iter Samples.cfg0
                       (Samples.world_send_fails Samples.payload_hw1)
                       Samples.st0)).
Proof.
  exact (proj1 (X12_runBot_steady_status Samples.cfg0 "approved" _
                  Samples.st0 sample_ticks_show)).
Defined.

(** ** A status that does not translate *)

(** X13. When [runBot] sees a new status that is neither one of the three
    nor the no-new-statuses text, it posts nothing, writes the same error
    line to the log twice (once in [parseStatus], once in the loop), sleeps,
    and takes the report as seen. *)
Theorem X13_runBot_unknown_status :
  forall (cfg : Config) (w : World) (st : MainPoll.LoopState)
         (response : gmap string value) (tr0 : trace) (f : spec_float)
         (hw : MainGo.Homework) (rest : list MainGo.Homework),
    MainPoll.getAPIAnswer cfg w (MainPoll.currentTimestamp st)
      = Done (response, None) tr0 ->
    as_float64 (response !! "current_date") = Some f ->
    MainGo.checkResponse response = (Some (hw :: rest), None) ->
    ~ known_status (MainGo.Status hw) ->
    MainGo.Status hw <> NoNewStatuses ->
    MainGo.Status hw <> MainGo.Status (MainPoll.prevReport st) ->
    let line := "Ошибка при разборе статуса домашней работы: "
                  +:+ "Неизвестный статус домашней работы: "
                  +:+ MainGo.Status hw in
    MainPoll.runBot_iter cfg w st =
      Done {| MainPoll.currentTimestamp := int64_of_float64 f;
              MainPoll.currentReport := hw;
              MainPoll.prevReport := hw |}
           (tr0 ++ [Log line; Log line; Sleep 600]).
Proof.
  intros cfg w st response tr0 f hw rest Hfetch Hf Hc Hk Hn Hs line.
  destruct (MainPoll_iter_changed_trace _ _ _ _ _ _ _ Hfetch Hf Hc Hs)
    as (p & trp & e & trs & Hp & _ & ->).
  cbn [MainPoll.report_of] in Hp.
  rewrite (MainGo_parseStatus_unknown hw Hk Hn) in Hp.
  injection Hp as <- <-. reflexivity.
Qed.

Module SamplesBogus.

(** homeworks: one object hw1/bogus; current_date: 1000 *)
Definition payload_bogus : gmap string value :=
  <["homeworks" := VSlice [Samples.hw_object "hw1" "bogus"]]>
  (<["current_date" := VFloat64 (float64_of_Z 1000)]> ∅).

Definition hw_bogus : MainGo.Homework :=
  {| MainGo.Name := "hw1"; MainGo.Status := "bogus" |}.

End SamplesBogus.

Lemma bogus_new : "bogus" <> MainGo.Status (MainPoll.prevReport Samples.st0).
Proof. discriminate. Defined.

Lemma X13_witness :
  MainPoll.runBot_iter Samples.cfg0
      (Samples.world_of SamplesBogus.payload_bogus) Samples.st0 =
    Done {| MainPoll.currentTimestamp := 1000;
            MainPoll.currentReport := SamplesBogus.hw_bogus;
            MainPoll.prevReport := SamplesBogus.hw_bogus |}
         [HttpDo (api_request Samples.cfg0 1700000000);
          Log "Ошибка при разборе статуса домашней работы: Неизвестный статус домашней работы: bogus";
          Log "Ошибка при разборе статуса домашней работы: Неизвестный статус домашней работы: bogus";
          Sleep 600].
Proof.
  exact (X13_runBot_unknown_status Samples.cfg0
           (Samples.world_of SamplesBogus.payload_bogus) Samples.st0
           SamplesBogus.payload_bogus
           [HttpDo (api_request Samples.cfg0 1700000000)]
           (float64_of_Z 1000) SamplesBogus.hw_bogus []
           eq_refl eq_refl eq_refl bogus_unknown bogus_not_sentinel bogus_new).
Defined.

(** ** The reply of the [status] command *)

Lemma MainGo_parseStatus_sends (hw : MainGo.Homework) :
  exists p trp, MainGo.parseStatus hw = Done p trp /\ bot_sends trp = [].
Proof.
  unfold MainGo.parseStatus.
  destruct (HomeworkVerdict !! MainGo.Status hw); [now eexists _, _|].
  destruct (String.eqb _ _); now eexists _, _.
Qed.

Lemma MainCmd_handleStatus_sends cfg w msg :
  bot_sends (events (MainCmd.handleStatus cfg w msg)) =
    match MainCmd.getAPIAnswer cfg w (now w) with
    | Done (_, Some _) _ => [(MainCmd.ChatID msg, MainCmd.failed)]
    | Done (response, None) _ =>
        match as_float64 (response !! "current_date") with
        | Some _ => [(MainCmd.ChatID msg, MainCmd_reply response)]
        | None => []
        end
    | Panic _ => []
    end.
Proof.
  destruct (MainCmd_getAPIAnswer_quiet cfg w (now w))
    as ([response oerr] & tr0 & Hfetch & _ & Hs0).
  unfold MainCmd.handleStatus, MainCmd_reply, MainCmd.sendMessage.
  rewrite Hfetch. run.
  destruct oerr as [err|]; run.
  { cbn [events]. now rewrite bot_sends_app, Hs0. }
  unfold must_float64.
  destruct (as_float64 (response !! "current_date")) as [f|]; run.
  2: { cbn [events]. now rewrite app_nil_r. }
  destruct (MainGo.checkResponse response) as [hs [err|]]; run.
  { cbn [events]. rewrite bot_sends_app, Hs0. now destruct hs as [[|? ?]|]. }
  unfold MainCmd.from_id.
  destruct hs as [[|hw rest]|]; run.
  - destruct (MainCmd.FromID msg); run; cbn [events];
      now rewrite bot_sends_app, Hs0.
  - destruct (MainGo_parseStatus_sends hw) as ([message perr] & trp & -> & Hp).
    run. destruct perr as [err|]; run.
    + cbn [events]. now rewrite !bot_sends_app, Hs0, Hp.
    + destruct (MainCmd.FromID msg); run; cbn [events];
        now rewrite !bot_sends_app, Hs0, Hp.
  - destruct (MainCmd.FromID msg); run; cbn [events];
      now rewrite bot_sends_app, Hs0.
Qed.

Lemma Part000_parseStatus_sends (hw : Part000.Homework) :
  exists p trp, Part000.parseStatus hw = Done p trp /\ bot_sends trp = [].
Proof.
  destruct (Part000_parseStatus_cases hw) as [[m ->]|(e & l & ->)];
    now eexists _, _.
Qed.

Lemma Part000_handleStatus_sends cfg w msg :
  bot_sends (events (Part000.handleStatus cfg w msg)) =
    match Part000.getAPIAnswer cfg w (now w) with
    | Done (_, Some _) _ => [(Part000.ChatID msg, Part000.failed)]
    | Done (response, None) _ =>
        match as_float64 (response !! "current_date") with
        | Some _ => [(Part000.ChatID msg, Part000_reply response)]
        | None => []
        end
    | Panic _ => []
    end.
Proof.
  destruct (Part000_getAPIAnswer_quiet cfg w (now w))
    as ([response oerr] & tr0 & Hfetch & _ & Hs0 & _).
  unfold Part000.handleStatus, Part000_reply, Part000.sendMessage.
  rewrite Hfetch. run.
  destruct oerr as [err|]; run.
  { cbn [events]. now rewrite bot_sends_app, Hs0. }
  unfold must_float64.
  destruct (as_float64 (response !! "current_date")) as [f|]; run.
  2: { cbn [events]. now rewrite app_nil_r. }
  destruct (Part000.checkResponse response) as [hs [err|]]; run.
  { cbn [events]. rewrite bot_sends_app, Hs0. now destruct hs as [[|? ?]|]. }
  unfold Part000.from_id.
  destruct hs as [[|hw rest]|]; run.
  - destruct (Part000.FromID msg); run; cbn [events];
      now rewrite bot_sends_app, Hs0.
  - destruct (Part000_parseStatus_sends hw) as ([message perr] & trp & -> & Hp).
    run. destruct perr as [err|]; run.
    + cbn [events]. now rewrite !bot_sends_app, Hs0, Hp.
    + destruct (Part000.FromID msg); run; cbn [events];
        now rewrite !bot_sends_app, Hs0, Hp.
  - destruct (Part000.FromID msg); run; cbn [events];
      now rewrite bot_sends_app, Hs0.
Qed.

(** X14. The [status] command answers with exactly one message, to the chat
    the command came from: the text that the status could not be retrieved
    after a failed fetch, a rejected response or a status that does not
    translate; the no-new-statuses text for an empty list; the translation of
    the first homework otherwise.  The answer is sent also when the sender of
    the command is unknown.  Only a response without a numeric [current_date]
    gets no answer. *)
Theorem X14_status_command_reply :
  forall (cfg : Config) (w : World),
    (forall msg : MainCmd.Message,
       bot_sends (events (MainCmd.handleStatus cfg w msg)) =
         match MainCmd.getAPIAnswer cfg w (now w) with
         | Done (_, Some _) _ => [(MainCmd.ChatID msg, MainCmd.failed)]
         | Done (response, None) _ =>
             match as_float64 (response !! "current_date") with
             | Some _ => [(MainCmd.ChatID msg, MainCmd_reply response)]
             | None => []
             end
         | Panic _ => []
         end) /\
    (forall msg : Part000.Message,
       bot_sends (events (Part000.handleStatus cfg w msg)) =
         match Part000.getAPIAnswer cfg w (now w) with
         | Done (_, Some _) _ => [(Part000.ChatID msg, Part000.failed)]
         | Done (response, None) _ =>
             match as_float64 (response !! "current_date") with
             | Some _ => [(Part000.ChatID msg, Part000_reply response)]
             | None => []
             end
         | Panic _ => []
         end).
Proof.
  intros cfg w. split; intros msg.
  - apply MainCmd_handleStatus_sends.
  - apply Part000_handleStatus_sends.
Qed.

(** ** The commands *)

(** X15. [handleCommand] acts on two commands only.  For [start] it calls
    [bot.Send] once, with the greeting and the chat of the command, then
    logs the identifier of the sender; it does not call the homework API.
    When the message has no sender it panics after the greeting is sent, and
    only then.  For a command other than [start] and [status] it does
    nothing at all. *)
Theorem X15_handleCommand_start_and_others :
  forall (cfg : Config) (w : World),
    (forall msg : MainCmd.Message,
       (MainCmd.Command msg = "start" ->
        MainCmd.handleCommand cfg w msg =
          match MainCmd.FromID msg with
          | Some id =>
              Done tt [BotSend (MainCmd.ChatID msg) greeting;
                       Log ("Получена команда /start от пользователя с ID "
                              +:+ fmt_d id)]
          | None => Panic [BotSend (MainCmd.ChatID msg) greeting]
          end) /\
       (MainCmd.Command msg = "start" ->
        bot_sends (events (MainCmd.handleCommand cfg w msg))
          = [(MainCmd.ChatID msg, greeting)] /\
        requests (events (MainCmd.handleCommand cfg w msg)) = [] /\
        (panics (MainCmd.handleCommand cfg w msg) = true
         <-> MainCmd.FromID msg = None)) /\
       (MainCmd.Command msg <> "start" -> MainCmd.Command msg <> "status" ->
        MainCmd.handleCommand cfg w msg = Done tt [])) /\
    (forall msg : Part000.Message,
       (Part000.Command msg = "start" ->
        Part000.handleCommand cfg w msg =
          match Part000.FromID msg with
          | Some id =>
              Done tt [BotSend (Part000.ChatID msg) greeting;
                       Log ("Получена команда /start от пользователя с ID "
                              +:+ fmt_d id)]
          | None => Panic [BotSend (Part000.ChatID msg) greeting]
          end) /\
       (Part000.Command msg = "start" ->
        bot_sends (events (Part000.handleCommand cfg w msg))
          = [(Part000.ChatID msg, greeting)] /\
        requests (events (Part000.handleCommand cfg w msg)) = [] /\
        (panics (Part000.handleCommand cfg w msg) = true
         <-> Part000.FromID msg = None)) /\
       (Part000.Command msg <> "start" -> Part000.Command msg <> "status" ->
        Part000.handleCommand cfg w msg = Done tt [])).
Proof.
  intros cfg w. split; intros msg; (split; [|split]).
  - intros Hc. unfold MainCmd.handleCommand, MainCmd.sendMessage, MainCmd.from_id.
    rewrite Hc. change (String.eqb "start" "start") with true. cbn iota. run.
    destruct (MainCmd.FromID msg); reflexivity.
  - intros Hc. unfold MainCmd.handleCommand, MainCmd.sendMessage, MainCmd.from_id.
    rewrite Hc. change (String.eqb "start" "start") with true. cbn iota. run.
    destruct (MainCmd.FromID msg); run; repeat split; cbn; intros; congruence.
  - intros H1 H2. unfold MainCmd.handleCommand.
    apply String.eqb_neq in H1, H2. now rewrite H1, H2.
  - intros Hc. unfold Part000.handleCommand, Part000.sendMessage, Part000.from_id.
    rewrite Hc. change (String.eqb "start" "start") with true. cbn iota. run.
    destruct (Part000.FromID msg); reflexivity.
  - intros Hc. unfold Part000.handleCommand, Part000.sendMessage, Part000.from_id.
    rewrite Hc. change (String.eqb "start" "start") with true. cbn iota. run.
    destruct (Part000.FromID msg); run; repeat split; cbn; intros; congruence.
  - intros H1 H2. unfold Part000.handleCommand.
    apply String.eqb_neq in H1, H2. now rewrite H1, H2.
Qed.

Module SamplesCmd.

(** A [start] command posted in a channel: no sender. *)
Definition start_no_sender : MainCmd.Message :=
  {| MainCmd.Command := "start"; MainCmd.ChatID := 42;
     MainCmd.FromID := None |}.

Definition help : MainCmd.Message :=
  {| MainCmd.Command := "help"; MainCmd.ChatID := 42;
     MainCmd.FromID := Some 7 |}.

End SamplesCmd.

Lemma help_not_start : MainCmd.Command SamplesCmd.help <> "start".
Proof. discriminate. Defined.

Lemma help_not_status : MainCmd.Command SamplesCmd.help <> "status".
Proof. discriminate. Defined.

Lemma X15_witness :
  MainCmd.handleCommand Samples.cfg0 (Samples.world_of Samples.payload_hw1)
    SamplesCmd.start_no_sender = Panic [BotSend 42 greeting] /\
  (bot_sends (events (MainCmd.handleCommand Samples.cfg0
                        (Samples.world_of Samples.payload_hw1)
                        SamplesCmd.start_no_sender))
     = [(42, greeting)] /\
   requests (events (MainCmd.handleCommand Samples.cfg0
                       (Samples.world_of Samples.payload_hw1)
                       SamplesCmd.start_no_sender)) = [] /\
   (panics (MainCmd.handleCommand Samples.cfg0
              (Samples.world_of Samples.payload_hw1)
              SamplesCmd.start_no_sender) = true
    <-> MainCmd.FromID SamplesCmd.start_no_sender = None)) /\
  MainCmd.handleCommand Samples.cfg0 (Samples.world_of Samples.payload_hw1)
    SamplesCmd.help = Done tt [].
Proof.
  pose proof (proj1 (X15_handleCommand_start_and_others Samples.cfg0
                       (Samples.world_of Samples.payload_hw1))) as H.
  split; [|split].
  - exact (proj1 (H SamplesCmd.start_no_sender) eq_refl).
  - exact (proj1 (proj2 (H SamplesCmd.start_no_sender)) eq_refl).
  - exact (proj2 (proj2 (H SamplesCmd.help)) help_not_start help_not_status).
Defined.

(** ** The update loop *)

Lemma MainCmd_update_ignored cfg (us : list (World * MainCmdRest.Update)) :
  Forall (fun wu =>
            match MainCmdRest.UpdateMessage wu.2 with
            | None => True
            | Some msg =>
                MainCmdRest.IsCommand wu.2 = false \/
                (MainCmd.Command msg <> "start" /\
                 MainCmd.Command msg <> "status")
            end) us ->
  MainCmdRest.handleUpdates cfg us = Done tt [].
Proof.
  induction 1 as [|[w u] us Hu _ IH]; [reflexivity|].
  cbn [MainCmdRest.handleUpdates]. cbn [snd] in Hu. rewrite IH.
  destruct (MainCmdRest.UpdateMessage u) as [msg|]; [|reflexivity].
  destruct Hu as [-> | [H1 H2]]; [reflexivity|].
  apply String.eqb_neq in H1, H2.
  destruct (MainCmdRest.IsCommand u); [|reflexivity].
  unfold MainCmd.handleCommand. now rewrite H1, H2.
Qed.

Lemma Part000_update_ignored cfg (us : list (World * Part000Rest.Update)) :
  Forall (fun wu =>
            match Part000Rest.UpdateMessage wu.2 with
            | None => True
            | Some msg =>
                Part000Rest.IsCommand wu.2 = false \/
                (Part000.Command msg <> "start" /\
                 Part000.Command msg <> "status")
            end) us ->
  Part000Rest.handleUpdates cfg us = Done tt [].
Proof.
  induction 1 as [|[w u] us Hu _ IH]; [reflexivity|].
  cbn [Part000Rest.handleUpdates]. cbn [snd] in Hu. rewrite IH.
  destruct (Part000Rest.UpdateMessage u) as [msg|]; [|reflexivity].
  destruct Hu as [-> | [H1 H2]]; [reflexivity|].
  apply String.eqb_neq in H1, H2.
  destruct (Part000Rest.IsCommand u); [|reflexivity].
  unfold Part000.handleCommand. now rewrite H1, H2.
Qed.

(** X16. [handleUpdates] reacts to commands only.  A run of updates that
    carry no message, carry a message that is not a command, or carry a
    command other than [start] and [status] ends without a reply, a log line
    or a request, however long it is and whatever the API would have
    answered. *)
Theorem X16_handleUpdates_ignores :
  forall (cfg : Config),
    (forall us : list (World * MainCmdRest.Update),
       Forall (fun wu =>
                 match MainCmdRest.UpdateMessage wu.2 with
                 | None => True
                 | Some msg =>
                     MainCmdRest.IsCommand wu.2 = false \/
                     (MainCmd.Command msg <> "start" /\
                      MainCmd.Command msg <> "status")
                 end) us ->
       MainCmdRest.handleUpdates cfg us = Done tt []) /\
    (forall us : list (World * Part000Rest.Update),
       Forall (fun wu =>
                 match Part000Rest.UpdateMessage wu.2 with
                 | None => True
                 | Some msg =>
                     Part000Rest.IsCommand wu.2 = false \/
                     (Part000.Command msg <> "start" /\
                      Part000.Command msg <> "status")
                 end) us ->
       Part000Rest.handleUpdates cfg us = Done tt []).
Proof.
  intros cfg. split; intros us H.
  - now apply MainCmd_update_ignored.
  - now apply Part000_update_ignored.
Qed.

Module SamplesUpdates.

(** An edited-message update, a plain text and an unknown command. *)
Definition quiet : list (World * MainCmdRest.Update) :=
  [ (Samples.world_of Samples.payload_hw1,
     {| MainCmdRest.UpdateMessage := None;
        MainCmdRest.IsCommand := false |});
    (Samples.world_of Samples.payload_hw1,
     {| MainCmdRest.UpdateMessage :=
          Some {| MainCmd.Command := EmptyString; MainCmd.ChatID := 42;
                  MainCmd.FromID := Some 7 |};
        MainCmdRest.IsCommand := false |});
    (Samples.world_of Samples.payload_hw1,
     {| MainCmdRest.UpdateMessage := Some SamplesCmd.help;
        MainCmdRest.IsCommand := true |}) ].

End SamplesUpdates.

Lemma quiet_ignored :
  Forall (fun wu : World * MainCmdRest.Update =>
            match MainCmdRest.UpdateMessage wu.2 with
            | None => True
            | Some msg =>
                MainCmdRest.IsCommand wu.2 = false \/
                (MainCmd.Command msg <> "start" /\
                 MainCmd.Command msg <> "status")
            end) SamplesUpdates.quiet.
Proof.
  unfold SamplesUpdates.quiet.
  constructor; [exact I|].
  constructor; [left; reflexivity|].
  constructor; [right; split; discriminate|].
  constructor.
Defined.

Lemma X16_witness :
  MainCmdRest.handleUpdates Samples.cfg0 SamplesUpdates.quiet = Done tt [].
Proof.
  exact (proj1 (X16_handleUpdates_ignores Samples.cfg0)
           SamplesUpdates.quiet quiet_ignored).
Defined.

(** ** Start-up *)

Lemma missing_false (cfg : Config) :
  Startup.missing cfg = false <->
  PracticumToken cfg <> "" /\ TelegramToken cfg <> "" /\
  TelegramChatID cfg <> "".
Proof.
  unfold Startup.missing. rewrite !orb_false_iff, !String.eqb_neq. tauto.
Qed.

(** X17. [init] of each program lets the program start exactly when the
    [.env] file loads, the three variables are non-empty and the log file
    opens, and, for the two programs that talk through the bot library, the
    bot can be created.  The configuration a started program runs with is the
    one read from the environment; the chat identifier is required to be
    non-empty and nothing more. *)
Theorem X17_init_started :
  forall (env : Startup.Env) (cfg : Config),
    ((exists tr, MainPollRest.init env = Startup.Started cfg tr) <->
     cfg = Startup.env_config env /\
     Startup.dotenv_err env = None /\
     PracticumToken cfg <> "" /\ TelegramToken cfg <> "" /\
     TelegramChatID cfg <> "" /\
     Startup.open_log_err env "bot.log" = None) /\
    ((exists tr, MainCmdRest.init env = Startup.Started cfg tr) <->
     cfg = Startup.env_config env /\
     Startup.dotenv_err env = None /\
     PracticumToken cfg <> "" /\ TelegramToken cfg <> "" /\
     TelegramChatID cfg <> "" /\
     Startup.open_log_err env "bot.log" = None /\
     exists userName, Startup.new_bot env (TelegramToken cfg) = inl userName) /\
    ((exists tr, Part000Rest.init env = Startup.Started cfg tr) <->
     cfg = Startup.env_config env /\
     Startup.dotenv_err env = None /\
     PracticumToken cfg <> "" /\ TelegramToken cfg <> "" /\
     TelegramChatID cfg <> "" /\
     Startup.open_log_err env "logs/bot.log" = None /\
     exists userName, Startup.new_bot env (TelegramToken cfg) = inl userName).
Proof.
  intros env cfg.
  unfold MainPollRest.init, MainCmdRest.init, Part000Rest.init.
  pose proof (missing_false (Startup.env_config env)) as Hm.
  split; [|split]; split.
  - intros [tr H]. destruct (Startup.dotenv_err env); [discriminate|].
    destruct (Startup.missing _); [discriminate|].
    destruct (Startup.open_log_err env "bot.log"); [discriminate|].
    injection H as <- _. destruct Hm as [Hm _].
    specialize (Hm eq_refl). tauto.
  - intros (-> & -> & H1 & H2 & H3 & ->).
    destruct Hm as [_ Hm]. rewrite Hm by tauto. now eexists.
  - intros [tr H]. destruct (Startup.dotenv_err env); [discriminate|].
    destruct (Startup.missing _); [discriminate|].
    destruct (Startup.open_log_err env "bot.log"); [discriminate|].
    destruct (Startup.new_bot env _) as [u|e] eqn:Eb; [|discriminate].
    injection H as <- _. destruct Hm as [Hm _].
    specialize (Hm eq_refl). repeat split; try tauto. now exists u.
  - intros (-> & -> & H1 & H2 & H3 & -> & u & ->).
    destruct Hm as [_ Hm]. rewrite Hm by tauto. now eexists.
  - intros [tr H]. destruct (Startup.dotenv_err env); [discriminate|].
    destruct (Startup.missing _); [discriminate|].
    destruct (Startup.open_log_err env "logs/bot.log"); [discriminate|].
    destruct (Startup.new_bot env _) as [u|e] eqn:Eb; [|discriminate].
    injection H as <- _. destruct Hm as [Hm _].
    specialize (Hm eq_refl). repeat split; try tauto. now exists u.
  - intros (-> & -> & H1 & H2 & H3 & -> & u & ->).
    destruct Hm as [_ Hm]. rewrite Hm by tauto. now eexists.
Qed.

(** ** What the [status] command asks the API *)

Lemma MainGo_parseStatus_requests (hw : MainGo.Homework) :
  exists p trp, MainGo.parseStatus hw = Done p trp /\ requests trp = [].
Proof.
  unfold MainGo.parseStatus.
  destruct (HomeworkVerdict !! MainGo.Status hw); [now eexists _, _|].
  destruct (String.eqb _ _); now eexists _, _.
Qed.

Lemma Part000_parseStatus_requests (hw : Part000.Homework) :
  exists p trp, Part000.parseStatus hw = Done p trp /\ requests trp = [].
Proof.
  destruct (Part000_parseStatus_cases hw) as [[m ->]|(e & l & ->)];
    now eexists _, _.
Qed.

Ltac quiet_tail :=
  cbn [events]; rewrite ?requests_app; cbn; rewrite ?app_nil_r;
  try reflexivity.

Lemma MainCmd_handleStatus_requests cfg w msg :
  requests (events (MainCmd.handleStatus cfg w msg)) =
  requests (events (MainCmd.getAPIAnswer cfg w (now w))).
Proof.
  destruct (MainCmd_getAPIAnswer_quiet cfg w (now w))
    as ([response oerr] & tr0 & Hfetch & _ & _).
  unfold MainCmd.handleStatus, MainCmd.sendMessage.
  rewrite Hfetch. run.
  destruct oerr as [err|]; run; [quiet_tail|].
  unfold must_float64.
  destruct (as_float64 (response !! "current_date")) as [f|]; run;
    [|quiet_tail].
  destruct (MainGo.checkResponse response) as [hs [err|]]; run; [quiet_tail|].
  unfold MainCmd.from_id.
  destruct hs as [[|hw rest]|]; run.
  - destruct (MainCmd.FromID msg); run; quiet_tail.
  - destruct (MainGo_parseStatus_requests hw) as ([message perr] & trp & -> & Hp).
    run. destruct perr as [err|]; run.
    + quiet_tail. now rewrite Hp, app_nil_r.
    + destruct (MainCmd.FromID msg); run; quiet_tail; now rewrite Hp, ?app_nil_r.
  - destruct (MainCmd.FromID msg); run; quiet_tail.
Qed.

Lemma Part000_handleStatus_requests cfg w msg :
  requests (events (Part000.handleStatus cfg w msg)) =
  requests (events (Part000.getAPIAnswer cfg w (now w))).
Proof.
  destruct (Part000_getAPIAnswer_quiet cfg w (now w))
    as ([response oerr] & tr0 & Hfetch & _ & _).
  unfold Part000.handleStatus, Part000.sendMessage.
  rewrite Hfetch. run.
  destruct oerr as [err|]; run; [quiet_tail|].
  unfold must_float64.
  destruct (as_float64 (response !! "current_date")) as [f|]; run;
    [|quiet_tail].
  destruct (Part000.checkResponse response) as [hs [err|]]; run; [quiet_tail|].
  unfold Part000.from_id.
  destruct hs as [[|hw rest]|]; run.
  - destruct (Part000.FromID msg); run; quiet_tail.
  - destruct (Part000_parseStatus_requests hw)
      as ([message perr] & trp & -> & Hp).
    run. destruct perr as [err|]; run.
    + quiet_tail. now rewrite Hp, app_nil_r.
    + destruct (Part000.FromID msg); run; quiet_tail; now rewrite Hp, ?app_nil_r.
  - destruct (Part000.FromID msg); run; quiet_tail.
Qed.

Lemma MainCmd_handleCommand_status cfg w (msg : MainCmd.Message) :
  MainCmd.Command msg = "status" ->
  MainCmd.handleCommand cfg w msg = MainCmd.handleStatus cfg w msg.
Proof. intros Hc. unfold MainCmd.handleCommand. now rewrite Hc. Qed.

Lemma Part000_handleCommand_status cfg w (msg : Part000.Message) :
  Part000.Command msg = "status" ->
  Part000.handleCommand cfg w msg = Part000.handleStatus cfg w msg.
Proof. intros Hc. unfold Part000.handleCommand. now rewrite Hc. Qed.

Lemma MainCmd_handleStatus_one_send cfg w msg :
  (length (bot_sends (events (MainCmd.handleStatus cfg w msg))) <= 1)%nat.
Proof.
  rewrite MainCmd_handleStatus_sends.
  destruct (MainCmd.getAPIAnswer cfg w (now w)) as [[r [e|]] tr|tr];
    [cbn; lia| |cbn; lia].
  destruct (as_float64 _); cbn; lia.
Qed.

Lemma Part000_handleStatus_one_send cfg w msg :
  (length (bot_sends (events (Part000.handleStatus cfg w msg))) <= 1)%nat.
Proof.
  rewrite Part000_handleStatus_sends.
  destruct (Part000.getAPIAnswer cfg w (now w)) as [[r [e|]] tr|tr];
    [cbn; lia| |cbn; lia].
  destruct (as_float64 _); cbn; lia.
Qed.

(** X18. What [handleCommand] does with the HTTP client of the program
    ([client.Do]) on a [status] command: it calls it at most once, for the
    fetch, and not at all when the request cannot be built.  In [main.go]
    the fetch asks for the homeworks changed from the moment of the command
    on; in [part_000] from an hour before it (from the clock of the fetch
    when the moment reads zero).  The reply does not go through this client
    but through [bot.Send], called at most once. *)
Theorem X18_status_command_request :
  forall (cfg : Config) (w : World),
    (forall msg : MainCmd.Message,
       MainCmd.Command msg = "status" ->
       requests (events (MainCmd.handleCommand cfg w msg)) =
         match new_request_err w "GET" (URL (api_request cfg (now w))) with
         | None => [api_request cfg (now w)]
         | Some _ => []
         end /\
       (length (bot_sends (events (MainCmd.handleCommand cfg w msg))) <= 1)%nat)
    /\
    (forall msg : Part000.Message,
       Part000.Command msg = "status" ->
       requests (events (Part000.handleCommand cfg w msg)) =
         match new_request_err w "GET"
                 (URL (api_request cfg (Part000_from_date w (now w)))) with
         | None => [api_request cfg (Part000_from_date w (now w))]
         | Some _ => []
         end /\
       (length (bot_sends (events (Part000.handleCommand cfg w msg))) <= 1)%nat).
Proof.
  intros cfg w. split; intros msg Hc.
  - rewrite (MainCmd_handleCommand_status _ _ _ Hc). split.
    + rewrite MainCmd_handleStatus_requests.
      apply MainCmd_getAPIAnswer_requests.
    + apply MainCmd_handleStatus_one_send.
  - rewrite (Part000_handleCommand_status _ _ _ Hc). split.
    + rewrite Part000_handleStatus_requests.
      apply Part000_getAPIAnswer_requests.
    + apply Part000_handleStatus_one_send.
Qed.

Lemma X18_witness :
  requests (events (MainCmd.handleCommand Samples.cfg0
                      (Samples.world_of Samples.payload_hw1) Samples.msg0))
    = [api_request Samples.cfg0 1700000000] /\
  (length (bot_sends (events (MainCmd.handleCommand Samples.cfg0
                                (Samples.world_of Samples.payload_hw1)
                                Samples.msg0))) <= 1)%nat.
Proof.
  exact (proj1 (X18_status_command_request Samples.cfg0
                  (Samples.world_of Samples.payload_hw1))
           Samples.msg0 eq_refl).
Defined.
